(** * A shallow embedding of the CIF-to-GTFS converter (src/main.rs)

    Rust [String]s and [&str]s are modelled as the sequence of their Unicode
    scalar values ([ustr]); byte offsets, which Rust uses for [len], [get]
    and slicing, are recomputed from the UTF-8 length of every scalar value.
    A panic of the source (out-of-boundary slice, arithmetic overflow under
    debug assertions) is modelled as [None]: it aborts the whole run. *)

From Stdlib Require Import ZArith List String Ascii.
From Stdlib Require Import Floats DecimalN.
From stdpp Require Import base gmap gmap list strings.
Import ListNotations.
Open Scope Z_scope.

(** ** Strings *)

Definition ustr := list Z.

(** ASCII literals of the source, as scalar values. *)
Definition u (s : string) : ustr :=
  map (fun a => Z.of_nat (nat_of_ascii a)) (list_ascii_of_string s).
#[global] Arguments u : simpl never.

(** Number of bytes of a scalar value in UTF-8. *)
Definition utf8_len (c : Z) : Z :=
  if c <? 0x80 then 1 else if c <? 0x800 then 2 else if c <? 0x10000 then 3 else 4.

(** [str::len]: the length in bytes. *)
Fixpoint byte_len (s : ustr) : Z :=
  match s with [] => 0 | c :: s' => utf8_len c + byte_len s' end.

Fixpoint drop_bytes (n : Z) (s : ustr) : option ustr :=
  if n =? 0 then Some s else
  match s with
  | [] => None
  | c :: s' => if utf8_len c <=? n then drop_bytes (n - utf8_len c) s' else None
  end.

Fixpoint take_bytes (n : Z) (s : ustr) : option ustr :=
  if n =? 0 then Some [] else
  match s with
  | [] => None
  | c :: s' =>
      if utf8_len c <=? n then
        match take_bytes (n - utf8_len c) s' with
        | Some r => Some (c :: r)
        | None => None
        end
      else None
  end.

(** [str::get(a..b)]: [None] unless [a <= b <= len] and both offsets are
    character boundaries.  [&s[a..b]] panics exactly when this is [None]. *)
Definition str_get (s : ustr) (a b : Z) : option ustr :=
  if (0 <=? a) && (a <=? b) then
    match drop_bytes a s with
    | Some r => take_bytes (b - a) r
    | None => None
    end
  else None.

Definition unwrap_or {A} (o : option A) (d : A) : A :=
  match o with Some x => x | None => d end.

(** [char::is_whitespace]: ASCII space and tab..carriage return, and the
    non-ASCII characters with the White_Space property. *)
Definition is_whitespace (c : Z) : bool :=
  (c =? 0x20) || ((0x09 <=? c) && (c <=? 0x0D)) ||
  ((0x7F <? c) &&
   ((c =? 0x85) || (c =? 0xA0) || (c =? 0x1680) ||
    ((0x2000 <=? c) && (c <=? 0x200A)) || (c =? 0x2028) || (c =? 0x2029) ||
    (c =? 0x202F) || (c =? 0x205F) || (c =? 0x3000))).

Fixpoint trim_start (s : ustr) : ustr :=
  match s with
  | c :: s' => if is_whitespace c then trim_start s' else s
  | [] => []
  end.

(** [str::trim]. *)
Definition trim (s : ustr) : ustr := rev (trim_start (rev (trim_start s))).

(** Ranges of the general categories Nd, Nl and No outside ASCII, as in the
    Unicode Character Database. *)
Definition unicode_N_ranges : list (Z * Z) := [
   (0xB2, 0xB3); (0xB9, 0xB9); (0xBC, 0xBE); (0x660, 0x669); (0x6F0, 0x6F9); (0x7C0, 0x7C9);
   (0x966, 0x96F); (0x9E6, 0x9EF); (0x9F4, 0x9F9); (0xA66, 0xA6F); (0xAE6, 0xAEF); (0xB66, 0xB6F);
   (0xB72, 0xB77); (0xBE6, 0xBF2); (0xC66, 0xC6F); (0xC78, 0xC7E); (0xCE6, 0xCEF); (0xD58, 0xD5E);
   (0xD66, 0xD78); (0xDE6, 0xDEF); (0xE50, 0xE59); (0xED0, 0xED9); (0xF20, 0xF33); (0x1040, 0x1049);
   (0x1090, 0x1099); (0x1369, 0x137C); (0x16EE, 0x16F0); (0x17E0, 0x17E9); (0x17F0, 0x17F9); (0x1810, 0x1819);
   (0x1946, 0x194F); (0x19D0, 0x19DA); (0x1A80, 0x1A89); (0x1A90, 0x1A99); (0x1B50, 0x1B59); (0x1BB0, 0x1BB9);
   (0x1C40, 0x1C49); (0x1C50, 0x1C59); (0x2070, 0x2070); (0x2074, 0x2079); (0x2080, 0x2089); (0x2150, 0x2182);
   (0x2185, 0x2189); (0x2460, 0x249B); (0x24EA, 0x24FF); (0x2776, 0x2793); (0x2CFD, 0x2CFD); (0x3007, 0x3007);
   (0x3021, 0x3029); (0x3038, 0x303A); (0x3192, 0x3195); (0x3220, 0x3229); (0x3248, 0x324F); (0x3251, 0x325F);
   (0x3280, 0x3289); (0x32B1, 0x32BF); (0xA620, 0xA629); (0xA6E6, 0xA6EF); (0xA830, 0xA835); (0xA8D0, 0xA8D9);
   (0xA900, 0xA909); (0xA9D0, 0xA9D9); (0xA9F0, 0xA9F9); (0xAA50, 0xAA59); (0xABF0, 0xABF9); (0xFF10, 0xFF19);
   (0x10107, 0x10133); (0x10140, 0x10178); (0x1018A, 0x1018B); (0x102E1, 0x102FB); (0x10320, 0x10323); (0x10341, 0x10341);
   (0x1034A, 0x1034A); (0x103D1, 0x103D5); (0x104A0, 0x104A9); (0x10858, 0x1085F); (0x10879, 0x1087F); (0x108A7, 0x108AF);
   (0x108FB, 0x108FF); (0x10916, 0x1091B); (0x109BC, 0x109BD); (0x109C0, 0x109CF); (0x109D2, 0x109FF); (0x10A40, 0x10A48);
   (0x10A7D, 0x10A7E); (0x10A9D, 0x10A9F); (0x10AEB, 0x10AEF); (0x10B58, 0x10B5F); (0x10B78, 0x10B7F); (0x10BA9, 0x10BAF);
   (0x10CFA, 0x10CFF); (0x10D30, 0x10D39); (0x10E60, 0x10E7E); (0x10F1D, 0x10F26); (0x10F51, 0x10F54); (0x10FC5, 0x10FCB);
   (0x11052, 0x1106F); (0x110F0, 0x110F9); (0x11136, 0x1113F); (0x111D0, 0x111D9); (0x111E1, 0x111F4); (0x112F0, 0x112F9);
   (0x11450, 0x11459); (0x114D0, 0x114D9); (0x11650, 0x11659); (0x116C0, 0x116C9); (0x11730, 0x1173B); (0x118E0, 0x118F2);
   (0x11950, 0x11959); (0x11C50, 0x11C6C); (0x11D50, 0x11D59); (0x11DA0, 0x11DA9); (0x11FC0, 0x11FD4); (0x12400, 0x1246E);
   (0x16A60, 0x16A69); (0x16AC0, 0x16AC9); (0x16B50, 0x16B59); (0x16B5B, 0x16B61); (0x16E80, 0x16E96); (0x1D2E0, 0x1D2F3);
   (0x1D360, 0x1D378); (0x1D7CE, 0x1D7FF); (0x1E140, 0x1E149); (0x1E2F0, 0x1E2F9); (0x1E8C7, 0x1E8CF); (0x1E950, 0x1E959);
   (0x1EC71, 0x1ECAB); (0x1ECAD, 0x1ECAF); (0x1ECB1, 0x1ECB4); (0x1ED01, 0x1ED2D); (0x1ED2F, 0x1ED3D); (0x1F100, 0x1F10C);
   (0x1FBF0, 0x1FBF9)
  ].

(** [char::is_numeric]. *)
Definition is_numeric (c : Z) : bool :=
  ((0x30 <=? c) && (c <=? 0x39)) ||
  ((0x7F <? c) && existsb (fun r => (fst r <=? c) && (c <=? snd r)) unicode_N_ranges).

(** ** [format_time] (src/main.rs, lines 678-685) *)

Definition format_time (raw : ustr) : option ustr :=
  let clean := filter is_numeric raw in
  if 4 <=? byte_len clean then
    match str_get clean 0 2, str_get clean 2 4 with
    | Some hh, Some mm => Some (hh ++ u ":" ++ mm ++ u ":00")
    | _, _ => None
    end
  else Some (u "00:00:00").

(** Unicode uppercase mappings ([char::to_uppercase]) of the non-ASCII
    characters that have one, as in the Unicode Character Database
    (UnicodeData.txt and the unconditional SpecialCasing.txt entries). *)
Definition unicode_upper_table : list (Z * list Z) := [
   (0xB5, [0x39C]); (0xDF, [0x53; 0x53]); (0xE0, [0xC0]); (0xE1, [0xC1]); (0xE2, [0xC2]);
   (0xE3, [0xC3]); (0xE4, [0xC4]); (0xE5, [0xC5]); (0xE6, [0xC6]); (0xE7, [0xC7]);
   (0xE8, [0xC8]); (0xE9, [0xC9]); (0xEA, [0xCA]); (0xEB, [0xCB]); (0xEC, [0xCC]);
   (0xED, [0xCD]); (0xEE, [0xCE]); (0xEF, [0xCF]); (0xF0, [0xD0]); (0xF1, [0xD1]);
   (0xF2, [0xD2]); (0xF3, [0xD3]); (0xF4, [0xD4]); (0xF5, [0xD5]); (0xF6, [0xD6]);
   (0xF8, [0xD8]); (0xF9, [0xD9]); (0xFA, [0xDA]); (0xFB, [0xDB]); (0xFC, [0xDC]);
   (0xFD, [0xDD]); (0xFE, [0xDE]); (0xFF, [0x178]); (0x101, [0x100]); (0x103, [0x102]);
   (0x105, [0x104]); (0x107, [0x106]); (0x109, [0x108]); (0x10B, [0x10A]); (0x10D, [0x10C]);
   (0x10F, [0x10E]); (0x111, [0x110]); (0x113, [0x112]); (0x115, [0x114]); (0x117, [0x116]);
   (0x119, [0x118]); (0x11B, [0x11A]); (0x11D, [0x11C]); (0x11F, [0x11E]); (0x121, [0x120]);
   (0x123, [0x122]); (0x125, [0x124]); (0x127, [0x126]); (0x129, [0x128]); (0x12B, [0x12A]);
   (0x12D, [0x12C]); (0x12F, [0x12E]); (0x131, [0x49]); (0x133, [0x132]); (0x135, [0x134]);
   (0x137, [0x136]); (0x13A, [0x139]); (0x13C, [0x13B]); (0x13E, [0x13D]); (0x140, [0x13F]);
   (0x142, [0x141]); (0x144, [0x143]); (0x146, [0x145]); (0x148, [0x147]); (0x149, [0x2BC; 0x4E]);
   (0x14B, [0x14A]); (0x14D, [0x14C]); (0x14F, [0x14E]); (0x151, [0x150]); (0x153, [0x152]);
   (0x155, [0x154]); (0x157, [0x156]); (0x159, [0x158]); (0x15B, [0x15A]); (0x15D, [0x15C]);
   (0x15F, [0x15E]); (0x161, [0x160]); (0x163, [0x162]); (0x165, [0x164]); (0x167, [0x166]);
   (0x169, [0x168]); (0x16B, [0x16A]); (0x16D, [0x16C]); (0x16F, [0x16E]); (0x171, [0x170]);
   (0x173, [0x172]); (0x175, [0x174]); (0x177, [0x176]); (0x17A, [0x179]); (0x17C, [0x17B]);
   (0x17E, [0x17D]); (0x17F, [0x53]); (0x180, [0x243]); (0x183, [0x182]); (0x185, [0x184]);
   (0x188, [0x187]); (0x18C, [0x18B]); (0x192, [0x191]); (0x195, [0x1F6]); (0x199, [0x198]);
   (0x19A, [0x23D]); (0x19E, [0x220]); (0x1A1, [0x1A0]); (0x1A3, [0x1A2]); (0x1A5, [0x1A4]);
   (0x1A8, [0x1A7]); (0x1AD, [0x1AC]); (0x1B0, [0x1AF]); (0x1B4, [0x1B3]); (0x1B6, [0x1B5]);
   (0x1B9, [0x1B8]); (0x1BD, [0x1BC]); (0x1BF, [0x1F7]); (0x1C5, [0x1C4]); (0x1C6, [0x1C4]);
   (0x1C8, [0x1C7]); (0x1C9, [0x1C7]); (0x1CB, [0x1CA]); (0x1CC, [0x1CA]); (0x1CE, [0x1CD]);
   (0x1D0, [0x1CF]); (0x1D2, [0x1D1]); (0x1D4, [0x1D3]); (0x1D6, [0x1D5]); (0x1D8, [0x1D7]);
   (0x1DA, [0x1D9]); (0x1DC, [0x1DB]); (0x1DD, [0x18E]); (0x1DF, [0x1DE]); (0x1E1, [0x1E0]);
   (0x1E3, [0x1E2]); (0x1E5, [0x1E4]); (0x1E7, [0x1E6]); (0x1E9, [0x1E8]); (0x1EB, [0x1EA]);
   (0x1ED, [0x1EC]); (0x1EF, [0x1EE]); (0x1F0, [0x4A; 0x30C]); (0x1F2, [0x1F1]); (0x1F3, [0x1F1]);
   (0x1F5, [0x1F4]); (0x1F9, [0x1F8]); (0x1FB, [0x1FA]); (0x1FD, [0x1FC]); (0x1FF, [0x1FE]);
   (0x201, [0x200]); (0x203, [0x202]); (0x205, [0x204]); (0x207, [0x206]); (0x209, [0x208]);
   (0x20B, [0x20A]); (0x20D, [0x20C]); (0x20F, [0x20E]); (0x211, [0x210]); (0x213, [0x212]);
   (0x215, [0x214]); (0x217, [0x216]); (0x219, [0x218]); (0x21B, [0x21A]); (0x21D, [0x21C]);
   (0x21F, [0x21E]); (0x223, [0x222]); (0x225, [0x224]); (0x227, [0x226]); (0x229, [0x228]);
   (0x22B, [0x22A]); (0x22D, [0x22C]); (0x22F, [0x22E]); (0x231, [0x230]); (0x233, [0x232]);
   (0x23C, [0x23B]); (0x23F, [0x2C7E]); (0x240, [0x2C7F]); (0x242, [0x241]); (0x247, [0x246]);
   (0x249, [0x248]); (0x24B, [0x24A]); (0x24D, [0x24C]); (0x24F, [0x24E]); (0x250, [0x2C6F]);
   (0x251, [0x2C6D]); (0x252, [0x2C70]); (0x253, [0x181]); (0x254, [0x186]); (0x256, [0x189]);
   (0x257, [0x18A]); (0x259, [0x18F]); (0x25B, [0x190]); (0x25C, [0xA7AB]); (0x260, [0x193]);
   (0x261, [0xA7AC]); (0x263, [0x194]); (0x265, [0xA78D]); (0x266, [0xA7AA]); (0x268, [0x197]);
   (0x269, [0x196]); (0x26A, [0xA7AE]); (0x26B, [0x2C62]); (0x26C, [0xA7AD]); (0x26F, [0x19C]);
   (0x271, [0x2C6E]); (0x272, [0x19D]); (0x275, [0x19F]); (0x27D, [0x2C64]); (0x280, [0x1A6]);
   (0x282, [0xA7C5]); (0x283, [0x1A9]); (0x287, [0xA7B1]); (0x288, [0x1AE]); (0x289, [0x244]);
   (0x28A, [0x1B1]); (0x28B, [0x1B2]); (0x28C, [0x245]); (0x292, [0x1B7]); (0x29D, [0xA7B2]);
   (0x29E, [0xA7B0]); (0x345, [0x399]); (0x371, [0x370]); (0x373, [0x372]); (0x377, [0x376]);
   (0x37B, [0x3FD]); (0x37C, [0x3FE]); (0x37D, [0x3FF]); (0x390, [0x399; 0x308; 0x301]); (0x3AC, [0x386]);
   (0x3AD, [0x388]); (0x3AE, [0x389]); (0x3AF, [0x38A]); (0x3B0, [0x3A5; 0x308; 0x301]); (0x3B1, [0x391]);
   (0x3B2, [0x392]); (0x3B3, [0x393]); (0x3B4, [0x394]); (0x3B5, [0x395]); (0x3B6, [0x396]);
   (0x3B7, [0x397]); (0x3B8, [0x398]); (0x3B9, [0x399]); (0x3BA, [0x39A]); (0x3BB, [0x39B]);
   (0x3BC, [0x39C]); (0x3BD, [0x39D]); (0x3BE, [0x39E]); (0x3BF, [0x39F]); (0x3C0, [0x3A0]);
   (0x3C1, [0x3A1]); (0x3C2, [0x3A3]); (0x3C3, [0x3A3]); (0x3C4, [0x3A4]); (0x3C5, [0x3A5]);
   (0x3C6, [0x3A6]); (0x3C7, [0x3A7]); (0x3C8, [0x3A8]); (0x3C9, [0x3A9]); (0x3CA, [0x3AA]);
   (0x3CB, [0x3AB]); (0x3CC, [0x38C]); (0x3CD, [0x38E]); (0x3CE, [0x38F]); (0x3D0, [0x392]);
   (0x3D1, [0x398]); (0x3D5, [0x3A6]); (0x3D6, [0x3A0]); (0x3D7, [0x3CF]); (0x3D9, [0x3D8]);
   (0x3DB, [0x3DA]); (0x3DD, [0x3DC]); (0x3DF, [0x3DE]); (0x3E1, [0x3E0]); (0x3E3, [0x3E2]);
   (0x3E5, [0x3E4]); (0x3E7, [0x3E6]); (0x3E9, [0x3E8]); (0x3EB, [0x3EA]); (0x3ED, [0x3EC]);
   (0x3EF, [0x3EE]); (0x3F0, [0x39A]); (0x3F1, [0x3A1]); (0x3F2, [0x3F9]); (0x3F3, [0x37F]);
   (0x3F5, [0x395]); (0x3F8, [0x3F7]); (0x3FB, [0x3FA]); (0x430, [0x410]); (0x431, [0x411]);
   (0x432, [0x412]); (0x433, [0x413]); (0x434, [0x414]); (0x435, [0x415]); (0x436, [0x416]);
   (0x437, [0x417]); (0x438, [0x418]); (0x439, [0x419]); (0x43A, [0x41A]); (0x43B, [0x41B]);
   (0x43C, [0x41C]); (0x43D, [0x41D]); (0x43E, [0x41E]); (0x43F, [0x41F]); (0x440, [0x420]);
   (0x441, [0x421]); (0x442, [0x422]); (0x443, [0x423]); (0x444, [0x424]); (0x445, [0x425]);
   (0x446, [0x426]); (0x447, [0x427]); (0x448, [0x428]); (0x449, [0x429]); (0x44A, [0x42A]);
   (0x44B, [0x42B]); (0x44C, [0x42C]); (0x44D, [0x42D]); (0x44E, [0x42E]); (0x44F, [0x42F]);
   (0x450, [0x400]); (0x451, [0x401]); (0x452, [0x402]); (0x453, [0x403]); (0x454, [0x404]);
   (0x455, [0x405]); (0x456, [0x406]); (0x457, [0x407]); (0x458, [0x408]); (0x459, [0x409]);
   (0x45A, [0x40A]); (0x45B, [0x40B]); (0x45C, [0x40C]); (0x45D, [0x40D]); (0x45E, [0x40E]);
   (0x45F, [0x40F]); (0x461, [0x460]); (0x463, [0x462]); (0x465, [0x464]); (0x467, [0x466]);
   (0x469, [0x468]); (0x46B, [0x46A]); (0x46D, [0x46C]); (0x46F, [0x46E]); (0x471, [0x470]);
   (0x473, [0x472]); (0x475, [0x474]); (0x477, [0x476]); (0x479, [0x478]); (0x47B, [0x47A]);
   (0x47D, [0x47C]); (0x47F, [0x47E]); (0x481, [0x480]); (0x48B, [0x48A]); (0x48D, [0x48C]);
   (0x48F, [0x48E]); (0x491, [0x490]); (0x493, [0x492]); (0x495, [0x494]); (0x497, [0x496]);
   (0x499, [0x498]); (0x49B, [0x49A]); (0x49D, [0x49C]); (0x49F, [0x49E]); (0x4A1, [0x4A0]);
   (0x4A3, [0x4A2]); (0x4A5, [0x4A4]); (0x4A7, [0x4A6]); (0x4A9, [0x4A8]); (0x4AB, [0x4AA]);
   (0x4AD, [0x4AC]); (0x4AF, [0x4AE]); (0x4B1, [0x4B0]); (0x4B3, [0x4B2]); (0x4B5, [0x4B4]);
   (0x4B7, [0x4B6]); (0x4B9, [0x4B8]); (0x4BB, [0x4BA]); (0x4BD, [0x4BC]); (0x4BF, [0x4BE]);
   (0x4C2, [0x4C1]); (0x4C4, [0x4C3]); (0x4C6, [0x4C5]); (0x4C8, [0x4C7]); (0x4CA, [0x4C9]);
   (0x4CC, [0x4CB]); (0x4CE, [0x4CD]); (0x4CF, [0x4C0]); (0x4D1, [0x4D0]); (0x4D3, [0x4D2]);
   (0x4D5, [0x4D4]); (0x4D7, [0x4D6]); (0x4D9, [0x4D8]); (0x4DB, [0x4DA]); (0x4DD, [0x4DC]);
   (0x4DF, [0x4DE]); (0x4E1, [0x4E0]); (0x4E3, [0x4E2]); (0x4E5, [0x4E4]); (0x4E7, [0x4E6]);
   (0x4E9, [0x4E8]); (0x4EB, [0x4EA]); (0x4ED, [0x4EC]); (0x4EF, [0x4EE]); (0x4F1, [0x4F0]);
   (0x4F3, [0x4F2]); (0x4F5, [0x4F4]); (0x4F7, [0x4F6]); (0x4F9, [0x4F8]); (0x4FB, [0x4FA]);
   (0x4FD, [0x4FC]); (0x4FF, [0x4FE]); (0x501, [0x500]); (0x503, [0x502]); (0x505, [0x504]);
   (0x507, [0x506]); (0x509, [0x508]); (0x50B, [0x50A]); (0x50D, [0x50C]); (0x50F, [0x50E]);
   (0x511, [0x510]); (0x513, [0x512]); (0x515, [0x514]); (0x517, [0x516]); (0x519, [0x518]);
   (0x51B, [0x51A]); (0x51D, [0x51C]); (0x51F, [0x51E]); (0x521, [0x520]); (0x523, [0x522]);
   (0x525, [0x524]); (0x527, [0x526]); (0x529, [0x528]); (0x52B, [0x52A]); (0x52D, [0x52C]);
   (0x52F, [0x52E]); (0x561, [0x531]); (0x562, [0x532]); (0x563, [0x533]); (0x564, [0x534]);
   (0x565, [0x535]); (0x566, [0x536]); (0x567, [0x537]); (0x568, [0x538]); (0x569, [0x539]);
   (0x56A, [0x53A]); (0x56B, [0x53B]); (0x56C, [0x53C]); (0x56D, [0x53D]); (0x56E, [0x53E]);
   (0x56F, [0x53F]); (0x570, [0x540]); (0x571, [0x541]); (0x572, [0x542]); (0x573, [0x543]);
   (0x574, [0x544]); (0x575, [0x545]); (0x576, [0x546]); (0x577, [0x547]); (0x578, [0x548]);
   (0x579, [0x549]); (0x57A, [0x54A]); (0x57B, [0x54B]); (0x57C, [0x54C]); (0x57D, [0x54D]);
   (0x57E, [0x54E]); (0x57F, [0x54F]); (0x580, [0x550]); (0x581, [0x551]); (0x582, [0x552]);
   (0x583, [0x553]); (0x584, [0x554]); (0x585, [0x555]); (0x586, [0x556]); (0x587, [0x535; 0x552]);
   (0x10D0, [0x1C90]); (0x10D1, [0x1C91]); (0x10D2, [0x1C92]); (0x10D3, [0x1C93]); (0x10D4, [0x1C94]);
   (0x10D5, [0x1C95]); (0x10D6, [0x1C96]); (0x10D7, [0x1C97]); (0x10D8, [0x1C98]); (0x10D9, [0x1C99]);
   (0x10DA, [0x1C9A]); (0x10DB, [0x1C9B]); (0x10DC, [0x1C9C]); (0x10DD, [0x1C9D]); (0x10DE, [0x1C9E]);
   (0x10DF, [0x1C9F]); (0x10E0, [0x1CA0]); (0x10E1, [0x1CA1]); (0x10E2, [0x1CA2]); (0x10E3, [0x1CA3]);
   (0x10E4, [0x1CA4]); (0x10E5, [0x1CA5]); (0x10E6, [0x1CA6]); (0x10E7, [0x1CA7]); (0x10E8, [0x1CA8]);
   (0x10E9, [0x1CA9]); (0x10EA, [0x1CAA]); (0x10EB, [0x1CAB]); (0x10EC, [0x1CAC]); (0x10ED, [0x1CAD]);
   (0x10EE, [0x1CAE]); (0x10EF, [0x1CAF]); (0x10F0, [0x1CB0]); (0x10F1, [0x1CB1]); (0x10F2, [0x1CB2]);
   (0x10F3, [0x1CB3]); (0x10F4, [0x1CB4]); (0x10F5, [0x1CB5]); (0x10F6, [0x1CB6]); (0x10F7, [0x1CB7]);
   (0x10F8, [0x1CB8]); (0x10F9, [0x1CB9]); (0x10FA, [0x1CBA]); (0x10FD, [0x1CBD]); (0x10FE, [0x1CBE]);
   (0x10FF, [0x1CBF]); (0x13F8, [0x13F0]); (0x13F9, [0x13F1]); (0x13FA, [0x13F2]); (0x13FB, [0x13F3]);
   (0x13FC, [0x13F4]); (0x13FD, [0x13F5]); (0x1C80, [0x412]); (0x1C81, [0x414]); (0x1C82, [0x41E]);
   (0x1C83, [0x421]); (0x1C84, [0x422]); (0x1C85, [0x422]); (0x1C86, [0x42A]); (0x1C87, [0x462]);
   (0x1C88, [0xA64A]); (0x1D79, [0xA77D]); (0x1D7D, [0x2C63]); (0x1D8E, [0xA7C6]); (0x1E01, [0x1E00]);
   (0x1E03, [0x1E02]); (0x1E05, [0x1E04]); (0x1E07, [0x1E06]); (0x1E09, [0x1E08]); (0x1E0B, [0x1E0A]);
   (0x1E0D, [0x1E0C]); (0x1E0F, [0x1E0E]); (0x1E11, [0x1E10]); (0x1E13, [0x1E12]); (0x1E15, [0x1E14]);
   (0x1E17, [0x1E16]); (0x1E19, [0x1E18]); (0x1E1B, [0x1E1A]); (0x1E1D, [0x1E1C]); (0x1E1F, [0x1E1E]);
   (0x1E21, [0x1E20]); (0x1E23, [0x1E22]); (0x1E25, [0x1E24]); (0x1E27, [0x1E26]); (0x1E29, [0x1E28]);
   (0x1E2B, [0x1E2A]); (0x1E2D, [0x1E2C]); (0x1E2F, [0x1E2E]); (0x1E31, [0x1E30]); (0x1E33, [0x1E32]);
   (0x1E35, [0x1E34]); (0x1E37, [0x1E36]); (0x1E39, [0x1E38]); (0x1E3B, [0x1E3A]); (0x1E3D, [0x1E3C]);
   (0x1E3F, [0x1E3E]); (0x1E41, [0x1E40]); (0x1E43, [0x1E42]); (0x1E45, [0x1E44]); (0x1E47, [0x1E46]);
   (0x1E49, [0x1E48]); (0x1E4B, [0x1E4A]); (0x1E4D, [0x1E4C]); (0x1E4F, [0x1E4E]); (0x1E51, [0x1E50]);
   (0x1E53, [0x1E52]); (0x1E55, [0x1E54]); (0x1E57, [0x1E56]); (0x1E59, [0x1E58]); (0x1E5B, [0x1E5A]);
   (0x1E5D, [0x1E5C]); (0x1E5F, [0x1E5E]); (0x1E61, [0x1E60]); (0x1E63, [0x1E62]); (0x1E65, [0x1E64]);
   (0x1E67, [0x1E66]); (0x1E69, [0x1E68]); (0x1E6B, [0x1E6A]); (0x1E6D, [0x1E6C]); (0x1E6F, [0x1E6E]);
   (0x1E71, [0x1E70]); (0x1E73, [0x1E72]); (0x1E75, [0x1E74]); (0x1E77, [0x1E76]); (0x1E79, [0x1E78]);
   (0x1E7B, [0x1E7A]); (0x1E7D, [0x1E7C]); (0x1E7F, [0x1E7E]); (0x1E81, [0x1E80]); (0x1E83, [0x1E82]);
   (0x1E85, [0x1E84]); (0x1E87, [0x1E86]); (0x1E89, [0x1E88]); (0x1E8B, [0x1E8A]); (0x1E8D, [0x1E8C]);
   (0x1E8F, [0x1E8E]); (0x1E91, [0x1E90]); (0x1E93, [0x1E92]); (0x1E95, [0x1E94]); (0x1E96, [0x48; 0x331]);
   (0x1E97, [0x54; 0x308]); (0x1E98, [0x57; 0x30A]); (0x1E99, [0x59; 0x30A]); (0x1E9A, [0x41; 0x2BE]); (0x1E9B, [0x1E60]);
   (0x1EA1, [0x1EA0]); (0x1EA3, [0x1EA2]); (0x1EA5, [0x1EA4]); (0x1EA7, [0x1EA6]); (0x1EA9, [0x1EA8]);
   (0x1EAB, [0x1EAA]); (0x1EAD, [0x1EAC]); (0x1EAF, [0x1EAE]); (0x1EB1, [0x1EB0]); (0x1EB3, [0x1EB2]);
   (0x1EB5, [0x1EB4]); (0x1EB7, [0x1EB6]); (0x1EB9, [0x1EB8]); (0x1EBB, [0x1EBA]); (0x1EBD, [0x1EBC]);
   (0x1EBF, [0x1EBE]); (0x1EC1, [0x1EC0]); (0x1EC3, [0x1EC2]); (0x1EC5, [0x1EC4]); (0x1EC7, [0x1EC6]);
   (0x1EC9, [0x1EC8]); (0x1ECB, [0x1ECA]); (0x1ECD, [0x1ECC]); (0x1ECF, [0x1ECE]); (0x1ED1, [0x1ED0]);
   (0x1ED3, [0x1ED2]); (0x1ED5, [0x1ED4]); (0x1ED7, [0x1ED6]); (0x1ED9, [0x1ED8]); (0x1EDB, [0x1EDA]);
   (0x1EDD, [0x1EDC]); (0x1EDF, [0x1EDE]); (0x1EE1, [0x1EE0]); (0x1EE3, [0x1EE2]); (0x1EE5, [0x1EE4]);
   (0x1EE7, [0x1EE6]); (0x1EE9, [0x1EE8]); (0x1EEB, [0x1EEA]); (0x1EED, [0x1EEC]); (0x1EEF, [0x1EEE]);
   (0x1EF1, [0x1EF0]); (0x1EF3, [0x1EF2]); (0x1EF5, [0x1EF4]); (0x1EF7, [0x1EF6]); (0x1EF9, [0x1EF8]);
   (0x1EFB, [0x1EFA]); (0x1EFD, [0x1EFC]); (0x1EFF, [0x1EFE]); (0x1F00, [0x1F08]); (0x1F01, [0x1F09]);
   (0x1F02, [0x1F0A]); (0x1F03, [0x1F0B]); (0x1F04, [0x1F0C]); (0x1F05, [0x1F0D]); (0x1F06, [0x1F0E]);
   (0x1F07, [0x1F0F]); (0x1F10, [0x1F18]); (0x1F11, [0x1F19]); (0x1F12, [0x1F1A]); (0x1F13, [0x1F1B]);
   (0x1F14, [0x1F1C]); (0x1F15, [0x1F1D]); (0x1F20, [0x1F28]); (0x1F21, [0x1F29]); (0x1F22, [0x1F2A]);
   (0x1F23, [0x1F2B]); (0x1F24, [0x1F2C]); (0x1F25, [0x1F2D]); (0x1F26, [0x1F2E]); (0x1F27, [0x1F2F]);
   (0x1F30, [0x1F38]); (0x1F31, [0x1F39]); (0x1F32, [0x1F3A]); (0x1F33, [0x1F3B]); (0x1F34, [0x1F3C]);
   (0x1F35, [0x1F3D]); (0x1F36, [0x1F3E]); (0x1F37, [0x1F3F]); (0x1F40, [0x1F48]); (0x1F41, [0x1F49]);
   (0x1F42, [0x1F4A]); (0x1F43, [0x1F4B]); (0x1F44, [0x1F4C]); (0x1F45, [0x1F4D]); (0x1F50, [0x3A5; 0x313]);
   (0x1F51, [0x1F59]); (0x1F52, [0x3A5; 0x313; 0x300]); (0x1F53, [0x1F5B]); (0x1F54, [0x3A5; 0x313; 0x301]); (0x1F55, [0x1F5D]);
   (0x1F56, [0x3A5; 0x313; 0x342]); (0x1F57, [0x1F5F]); (0x1F60, [0x1F68]); (0x1F61, [0x1F69]); (0x1F62, [0x1F6A]);
   (0x1F63, [0x1F6B]); (0x1F64, [0x1F6C]); (0x1F65, [0x1F6D]); (0x1F66, [0x1F6E]); (0x1F67, [0x1F6F]);
   (0x1F70, [0x1FBA]); (0x1F71, [0x1FBB]); (0x1F72, [0x1FC8]); (0x1F73, [0x1FC9]); (0x1F74, [0x1FCA]);
   (0x1F75, [0x1FCB]); (0x1F76, [0x1FDA]); (0x1F77, [0x1FDB]); (0x1F78, [0x1FF8]); (0x1F79, [0x1FF9]);
   (0x1F7A, [0x1FEA]); (0x1F7B, [0x1FEB]); (0x1F7C, [0x1FFA]); (0x1F7D, [0x1FFB]); (0x1F80, [0x1F08; 0x399]);
   (0x1F81, [0x1F09; 0x399]); (0x1F82, [0x1F0A; 0x399]); (0x1F83, [0x1F0B; 0x399]); (0x1F84, [0x1F0C; 0x399]); (0x1F85, [0x1F0D; 0x399]);
   (0x1F86, [0x1F0E; 0x399]); (0x1F87, [0x1F0F; 0x399]); (0x1F88, [0x1F08; 0x399]); (0x1F89, [0x1F09; 0x399]); (0x1F8A, [0x1F0A; 0x399]);
   (0x1F8B, [0x1F0B; 0x399]); (0x1F8C, [0x1F0C; 0x399]); (0x1F8D, [0x1F0D; 0x399]); (0x1F8E, [0x1F0E; 0x399]); (0x1F8F, [0x1F0F; 0x399]);
   (0x1F90, [0x1F28; 0x399]); (0x1F91, [0x1F29; 0x399]); (0x1F92, [0x1F2A; 0x399]); (0x1F93, [0x1F2B; 0x399]); (0x1F94, [0x1F2C; 0x399]);
   (0x1F95, [0x1F2D; 0x399]); (0x1F96, [0x1F2E; 0x399]); (0x1F97, [0x1F2F; 0x399]); (0x1F98, [0x1F28; 0x399]); (0x1F99, [0x1F29; 0x399]);
   (0x1F9A, [0x1F2A; 0x399]); (0x1F9B, [0x1F2B; 0x399]); (0x1F9C, [0x1F2C; 0x399]); (0x1F9D, [0x1F2D; 0x399]); (0x1F9E, [0x1F2E; 0x399]);
   (0x1F9F, [0x1F2F; 0x399]); (0x1FA0, [0x1F68; 0x399]); (0x1FA1, [0x1F69; 0x399]); (0x1FA2, [0x1F6A; 0x399]); (0x1FA3, [0x1F6B; 0x399]);
   (0x1FA4, [0x1F6C; 0x399]); (0x1FA5, [0x1F6D; 0x399]); (0x1FA6, [0x1F6E; 0x399]); (0x1FA7, [0x1F6F; 0x399]); (0x1FA8, [0x1F68; 0x399]);
   (0x1FA9, [0x1F69; 0x399]); (0x1FAA, [0x1F6A; 0x399]); (0x1FAB, [0x1F6B; 0x399]); (0x1FAC, [0x1F6C; 0x399]); (0x1FAD, [0x1F6D; 0x399]);
   (0x1FAE, [0x1F6E; 0x399]); (0x1FAF, [0x1F6F; 0x399]); (0x1FB0, [0x1FB8]); (0x1FB1, [0x1FB9]); (0x1FB2, [0x1FBA; 0x399]);
   (0x1FB3, [0x391; 0x399]); (0x1FB4, [0x386; 0x399]); (0x1FB6, [0x391; 0x342]); (0x1FB7, [0x391; 0x342; 0x399]); (0x1FBC, [0x391; 0x399]);
   (0x1FBE, [0x399]); (0x1FC2, [0x1FCA; 0x399]); (0x1FC3, [0x397; 0x399]); (0x1FC4, [0x389; 0x399]); (0x1FC6, [0x397; 0x342]);
   (0x1FC7, [0x397; 0x342; 0x399]); (0x1FCC, [0x397; 0x399]); (0x1FD0, [0x1FD8]); (0x1FD1, [0x1FD9]); (0x1FD2, [0x399; 0x308; 0x300]);
   (0x1FD3, [0x399; 0x308; 0x301]); (0x1FD6, [0x399; 0x342]); (0x1FD7, [0x399; 0x308; 0x342]); (0x1FE0, [0x1FE8]); (0x1FE1, [0x1FE9]);
   (0x1FE2, [0x3A5; 0x308; 0x300]); (0x1FE3, [0x3A5; 0x308; 0x301]); (0x1FE4, [0x3A1; 0x313]); (0x1FE5, [0x1FEC]); (0x1FE6, [0x3A5; 0x342]);
   (0x1FE7, [0x3A5; 0x308; 0x342]); (0x1FF2, [0x1FFA; 0x399]); (0x1FF3, [0x3A9; 0x399]); (0x1FF4, [0x38F; 0x399]); (0x1FF6, [0x3A9; 0x342]);
   (0x1FF7, [0x3A9; 0x342; 0x399]); (0x1FFC, [0x3A9; 0x399]); (0x214E, [0x2132]); (0x2170, [0x2160]); (0x2171, [0x2161]);
   (0x2172, [0x2162]); (0x2173, [0x2163]); (0x2174, [0x2164]); (0x2175, [0x2165]); (0x2176, [0x2166]);
   (0x2177, [0x2167]); (0x2178, [0x2168]); (0x2179, [0x2169]); (0x217A, [0x216A]); (0x217B, [0x216B]);
   (0x217C, [0x216C]); (0x217D, [0x216D]); (0x217E, [0x216E]); (0x217F, [0x216F]); (0x2184, [0x2183]);
   (0x24D0, [0x24B6]); (0x24D1, [0x24B7]); (0x24D2, [0x24B8]); (0x24D3, [0x24B9]); (0x24D4, [0x24BA]);
   (0x24D5, [0x24BB]); (0x24D6, [0x24BC]); (0x24D7, [0x24BD]); (0x24D8, [0x24BE]); (0x24D9, [0x24BF]);
   (0x24DA, [0x24C0]); (0x24DB, [0x24C1]); (0x24DC, [0x24C2]); (0x24DD, [0x24C3]); (0x24DE, [0x24C4]);
   (0x24DF, [0x24C5]); (0x24E0, [0x24C6]); (0x24E1, [0x24C7]); (0x24E2, [0x24C8]); (0x24E3, [0x24C9]);
   (0x24E4, [0x24CA]); (0x24E5, [0x24CB]); (0x24E6, [0x24CC]); (0x24E7, [0x24CD]); (0x24E8, [0x24CE]);
   (0x24E9, [0x24CF]); (0x2C30, [0x2C00]); (0x2C31, [0x2C01]); (0x2C32, [0x2C02]); (0x2C33, [0x2C03]);
   (0x2C34, [0x2C04]); (0x2C35, [0x2C05]); (0x2C36, [0x2C06]); (0x2C37, [0x2C07]); (0x2C38, [0x2C08]);
   (0x2C39, [0x2C09]); (0x2C3A, [0x2C0A]); (0x2C3B, [0x2C0B]); (0x2C3C, [0x2C0C]); (0x2C3D, [0x2C0D]);
   (0x2C3E, [0x2C0E]); (0x2C3F, [0x2C0F]); (0x2C40, [0x2C10]); (0x2C41, [0x2C11]); (0x2C42, [0x2C12]);
   (0x2C43, [0x2C13]); (0x2C44, [0x2C14]); (0x2C45, [0x2C15]); (0x2C46, [0x2C16]); (0x2C47, [0x2C17]);
   (0x2C48, [0x2C18]); (0x2C49, [0x2C19]); (0x2C4A, [0x2C1A]); (0x2C4B, [0x2C1B]); (0x2C4C, [0x2C1C]);
   (0x2C4D, [0x2C1D]); (0x2C4E, [0x2C1E]); (0x2C4F, [0x2C1F]); (0x2C50, [0x2C20]); (0x2C51, [0x2C21]);
   (0x2C52, [0x2C22]); (0x2C53, [0x2C23]); (0x2C54, [0x2C24]); (0x2C55, [0x2C25]); (0x2C56, [0x2C26]);
   (0x2C57, [0x2C27]); (0x2C58, [0x2C28]); (0x2C59, [0x2C29]); (0x2C5A, [0x2C2A]); (0x2C5B, [0x2C2B]);
   (0x2C5C, [0x2C2C]); (0x2C5D, [0x2C2D]); (0x2C5E, [0x2C2E]); (0x2C5F, [0x2C2F]); (0x2C61, [0x2C60]);
   (0x2C65, [0x23A]); (0x2C66, [0x23E]); (0x2C68, [0x2C67]); (0x2C6A, [0x2C69]); (0x2C6C, [0x2C6B]);
   (0x2C73, [0x2C72]); (0x2C76, [0x2C75]); (0x2C81, [0x2C80]); (0x2C83, [0x2C82]); (0x2C85, [0x2C84]);
   (0x2C87, [0x2C86]); (0x2C89, [0x2C88]); (0x2C8B, [0x2C8A]); (0x2C8D, [0x2C8C]); (0x2C8F, [0x2C8E]);
   (0x2C91, [0x2C90]); (0x2C93, [0x2C92]); (0x2C95, [0x2C94]); (0x2C97, [0x2C96]); (0x2C99, [0x2C98]);
   (0x2C9B, [0x2C9A]); (0x2C9D, [0x2C9C]); (0x2C9F, [0x2C9E]); (0x2CA1, [0x2CA0]); (0x2CA3, [0x2CA2]);
   (0x2CA5, [0x2CA4]); (0x2CA7, [0x2CA6]); (0x2CA9, [0x2CA8]); (0x2CAB, [0x2CAA]); (0x2CAD, [0x2CAC]);
   (0x2CAF, [0x2CAE]); (0x2CB1, [0x2CB0]); (0x2CB3, [0x2CB2]); (0x2CB5, [0x2CB4]); (0x2CB7, [0x2CB6]);
   (0x2CB9, [0x2CB8]); (0x2CBB, [0x2CBA]); (0x2CBD, [0x2CBC]); (0x2CBF, [0x2CBE]); (0x2CC1, [0x2CC0]);
   (0x2CC3, [0x2CC2]); (0x2CC5, [0x2CC4]); (0x2CC7, [0x2CC6]); (0x2CC9, [0x2CC8]); (0x2CCB, [0x2CCA]);
   (0x2CCD, [0x2CCC]); (0x2CCF, [0x2CCE]); (0x2CD1, [0x2CD0]); (0x2CD3, [0x2CD2]); (0x2CD5, [0x2CD4]);
   (0x2CD7, [0x2CD6]); (0x2CD9, [0x2CD8]); (0x2CDB, [0x2CDA]); (0x2CDD, [0x2CDC]); (0x2CDF, [0x2CDE]);
   (0x2CE1, [0x2CE0]); (0x2CE3, [0x2CE2]); (0x2CEC, [0x2CEB]); (0x2CEE, [0x2CED]); (0x2CF3, [0x2CF2]);
   (0x2D00, [0x10A0]); (0x2D01, [0x10A1]); (0x2D02, [0x10A2]); (0x2D03, [0x10A3]); (0x2D04, [0x10A4]);
   (0x2D05, [0x10A5]); (0x2D06, [0x10A6]); (0x2D07, [0x10A7]); (0x2D08, [0x10A8]); (0x2D09, [0x10A9]);
   (0x2D0A, [0x10AA]); (0x2D0B, [0x10AB]); (0x2D0C, [0x10AC]); (0x2D0D, [0x10AD]); (0x2D0E, [0x10AE]);
   (0x2D0F, [0x10AF]); (0x2D10, [0x10B0]); (0x2D11, [0x10B1]); (0x2D12, [0x10B2]); (0x2D13, [0x10B3]);
   (0x2D14, [0x10B4]); (0x2D15, [0x10B5]); (0x2D16, [0x10B6]); (0x2D17, [0x10B7]); (0x2D18, [0x10B8]);
   (0x2D19, [0x10B9]); (0x2D1A, [0x10BA]); (0x2D1B, [0x10BB]); (0x2D1C, [0x10BC]); (0x2D1D, [0x10BD]);
   (0x2D1E, [0x10BE]); (0x2D1F, [0x10BF]); (0x2D20, [0x10C0]); (0x2D21, [0x10C1]); (0x2D22, [0x10C2]);
   (0x2D23, [0x10C3]); (0x2D24, [0x10C4]); (0x2D25, [0x10C5]); (0x2D27, [0x10C7]); (0x2D2D, [0x10CD]);
   (0xA641, [0xA640]); (0xA643, [0xA642]); (0xA645, [0xA644]); (0xA647, [0xA646]); (0xA649, [0xA648]);
   (0xA64B, [0xA64A]); (0xA64D, [0xA64C]); (0xA64F, [0xA64E]); (0xA651, [0xA650]); (0xA653, [0xA652]);
   (0xA655, [0xA654]); (0xA657, [0xA656]); (0xA659, [0xA658]); (0xA65B, [0xA65A]); (0xA65D, [0xA65C]);
   (0xA65F, [0xA65E]); (0xA661, [0xA660]); (0xA663, [0xA662]); (0xA665, [0xA664]); (0xA667, [0xA666]);
   (0xA669, [0xA668]); (0xA66B, [0xA66A]); (0xA66D, [0xA66C]); (0xA681, [0xA680]); (0xA683, [0xA682]);
   (0xA685, [0xA684]); (0xA687, [0xA686]); (0xA689, [0xA688]); (0xA68B, [0xA68A]); (0xA68D, [0xA68C]);
   (0xA68F, [0xA68E]); (0xA691, [0xA690]); (0xA693, [0xA692]); (0xA695, [0xA694]); (0xA697, [0xA696]);
   (0xA699, [0xA698]); (0xA69B, [0xA69A]); (0xA723, [0xA722]); (0xA725, [0xA724]); (0xA727, [0xA726]);
   (0xA729, [0xA728]); (0xA72B, [0xA72A]); (0xA72D, [0xA72C]); (0xA72F, [0xA72E]); (0xA733, [0xA732]);
   (0xA735, [0xA734]); (0xA737, [0xA736]); (0xA739, [0xA738]); (0xA73B, [0xA73A]); (0xA73D, [0xA73C]);
   (0xA73F, [0xA73E]); (0xA741, [0xA740]); (0xA743, [0xA742]); (0xA745, [0xA744]); (0xA747, [0xA746]);
   (0xA749, [0xA748]); (0xA74B, [0xA74A]); (0xA74D, [0xA74C]); (0xA74F, [0xA74E]); (0xA751, [0xA750]);
   (0xA753, [0xA752]); (0xA755, [0xA754]); (0xA757, [0xA756]); (0xA759, [0xA758]); (0xA75B, [0xA75A]);
   (0xA75D, [0xA75C]); (0xA75F, [0xA75E]); (0xA761, [0xA760]); (0xA763, [0xA762]); (0xA765, [0xA764]);
   (0xA767, [0xA766]); (0xA769, [0xA768]); (0xA76B, [0xA76A]); (0xA76D, [0xA76C]); (0xA76F, [0xA76E]);
   (0xA77A, [0xA779]); (0xA77C, [0xA77B]); (0xA77F, [0xA77E]); (0xA781, [0xA780]); (0xA783, [0xA782]);
   (0xA785, [0xA784]); (0xA787, [0xA786]); (0xA78C, [0xA78B]); (0xA791, [0xA790]); (0xA793, [0xA792]);
   (0xA794, [0xA7C4]); (0xA797, [0xA796]); (0xA799, [0xA798]); (0xA79B, [0xA79A]); (0xA79D, [0xA79C]);
   (0xA79F, [0xA79E]); (0xA7A1, [0xA7A0]); (0xA7A3, [0xA7A2]); (0xA7A5, [0xA7A4]); (0xA7A7, [0xA7A6]);
   (0xA7A9, [0xA7A8]); (0xA7B5, [0xA7B4]); (0xA7B7, [0xA7B6]); (0xA7B9, [0xA7B8]); (0xA7BB, [0xA7BA]);
   (0xA7BD, [0xA7BC]); (0xA7BF, [0xA7BE]); (0xA7C1, [0xA7C0]); (0xA7C3, [0xA7C2]); (0xA7C8, [0xA7C7]);
   (0xA7CA, [0xA7C9]); (0xA7D1, [0xA7D0]); (0xA7D7, [0xA7D6]); (0xA7D9, [0xA7D8]); (0xA7F6, [0xA7F5]);
   (0xAB53, [0xA7B3]); (0xAB70, [0x13A0]); (0xAB71, [0x13A1]); (0xAB72, [0x13A2]); (0xAB73, [0x13A3]);
   (0xAB74, [0x13A4]); (0xAB75, [0x13A5]); (0xAB76, [0x13A6]); (0xAB77, [0x13A7]); (0xAB78, [0x13A8]);
   (0xAB79, [0x13A9]); (0xAB7A, [0x13AA]); (0xAB7B, [0x13AB]); (0xAB7C, [0x13AC]); (0xAB7D, [0x13AD]);
   (0xAB7E, [0x13AE]); (0xAB7F, [0x13AF]); (0xAB80, [0x13B0]); (0xAB81, [0x13B1]); (0xAB82, [0x13B2]);
   (0xAB83, [0x13B3]); (0xAB84, [0x13B4]); (0xAB85, [0x13B5]); (0xAB86, [0x13B6]); (0xAB87, [0x13B7]);
   (0xAB88, [0x13B8]); (0xAB89, [0x13B9]); (0xAB8A, [0x13BA]); (0xAB8B, [0x13BB]); (0xAB8C, [0x13BC]);
   (0xAB8D, [0x13BD]); (0xAB8E, [0x13BE]); (0xAB8F, [0x13BF]); (0xAB90, [0x13C0]); (0xAB91, [0x13C1]);
   (0xAB92, [0x13C2]); (0xAB93, [0x13C3]); (0xAB94, [0x13C4]); (0xAB95, [0x13C5]); (0xAB96, [0x13C6]);
   (0xAB97, [0x13C7]); (0xAB98, [0x13C8]); (0xAB99, [0x13C9]); (0xAB9A, [0x13CA]); (0xAB9B, [0x13CB]);
   (0xAB9C, [0x13CC]); (0xAB9D, [0x13CD]); (0xAB9E, [0x13CE]); (0xAB9F, [0x13CF]); (0xABA0, [0x13D0]);
   (0xABA1, [0x13D1]); (0xABA2, [0x13D2]); (0xABA3, [0x13D3]); (0xABA4, [0x13D4]); (0xABA5, [0x13D5]);
   (0xABA6, [0x13D6]); (0xABA7, [0x13D7]); (0xABA8, [0x13D8]); (0xABA9, [0x13D9]); (0xABAA, [0x13DA]);
   (0xABAB, [0x13DB]); (0xABAC, [0x13DC]); (0xABAD, [0x13DD]); (0xABAE, [0x13DE]); (0xABAF, [0x13DF]);
   (0xABB0, [0x13E0]); (0xABB1, [0x13E1]); (0xABB2, [0x13E2]); (0xABB3, [0x13E3]); (0xABB4, [0x13E4]);
   (0xABB5, [0x13E5]); (0xABB6, [0x13E6]); (0xABB7, [0x13E7]); (0xABB8, [0x13E8]); (0xABB9, [0x13E9]);
   (0xABBA, [0x13EA]); (0xABBB, [0x13EB]); (0xABBC, [0x13EC]); (0xABBD, [0x13ED]); (0xABBE, [0x13EE]);
   (0xABBF, [0x13EF]); (0xFB00, [0x46; 0x46]); (0xFB01, [0x46; 0x49]); (0xFB02, [0x46; 0x4C]); (0xFB03, [0x46; 0x46; 0x49]);
   (0xFB04, [0x46; 0x46; 0x4C]); (0xFB05, [0x53; 0x54]); (0xFB06, [0x53; 0x54]); (0xFB13, [0x544; 0x546]); (0xFB14, [0x544; 0x535]);
   (0xFB15, [0x544; 0x53B]); (0xFB16, [0x54E; 0x546]); (0xFB17, [0x544; 0x53D]); (0xFF41, [0xFF21]); (0xFF42, [0xFF22]);
   (0xFF43, [0xFF23]); (0xFF44, [0xFF24]); (0xFF45, [0xFF25]); (0xFF46, [0xFF26]); (0xFF47, [0xFF27]);
   (0xFF48, [0xFF28]); (0xFF49, [0xFF29]); (0xFF4A, [0xFF2A]); (0xFF4B, [0xFF2B]); (0xFF4C, [0xFF2C]);
   (0xFF4D, [0xFF2D]); (0xFF4E, [0xFF2E]); (0xFF4F, [0xFF2F]); (0xFF50, [0xFF30]); (0xFF51, [0xFF31]);
   (0xFF52, [0xFF32]); (0xFF53, [0xFF33]); (0xFF54, [0xFF34]); (0xFF55, [0xFF35]); (0xFF56, [0xFF36]);
   (0xFF57, [0xFF37]); (0xFF58, [0xFF38]); (0xFF59, [0xFF39]); (0xFF5A, [0xFF3A]); (0x10428, [0x10400]);
   (0x10429, [0x10401]); (0x1042A, [0x10402]); (0x1042B, [0x10403]); (0x1042C, [0x10404]); (0x1042D, [0x10405]);
   (0x1042E, [0x10406]); (0x1042F, [0x10407]); (0x10430, [0x10408]); (0x10431, [0x10409]); (0x10432, [0x1040A]);
   (0x10433, [0x1040B]); (0x10434, [0x1040C]); (0x10435, [0x1040D]); (0x10436, [0x1040E]); (0x10437, [0x1040F]);
   (0x10438, [0x10410]); (0x10439, [0x10411]); (0x1043A, [0x10412]); (0x1043B, [0x10413]); (0x1043C, [0x10414]);
   (0x1043D, [0x10415]); (0x1043E, [0x10416]); (0x1043F, [0x10417]); (0x10440, [0x10418]); (0x10441, [0x10419]);
   (0x10442, [0x1041A]); (0x10443, [0x1041B]); (0x10444, [0x1041C]); (0x10445, [0x1041D]); (0x10446, [0x1041E]);
   (0x10447, [0x1041F]); (0x10448, [0x10420]); (0x10449, [0x10421]); (0x1044A, [0x10422]); (0x1044B, [0x10423]);
   (0x1044C, [0x10424]); (0x1044D, [0x10425]); (0x1044E, [0x10426]); (0x1044F, [0x10427]); (0x104D8, [0x104B0]);
   (0x104D9, [0x104B1]); (0x104DA, [0x104B2]); (0x104DB, [0x104B3]); (0x104DC, [0x104B4]); (0x104DD, [0x104B5]);
   (0x104DE, [0x104B6]); (0x104DF, [0x104B7]); (0x104E0, [0x104B8]); (0x104E1, [0x104B9]); (0x104E2, [0x104BA]);
   (0x104E3, [0x104BB]); (0x104E4, [0x104BC]); (0x104E5, [0x104BD]); (0x104E6, [0x104BE]); (0x104E7, [0x104BF]);
   (0x104E8, [0x104C0]); (0x104E9, [0x104C1]); (0x104EA, [0x104C2]); (0x104EB, [0x104C3]); (0x104EC, [0x104C4]);
   (0x104ED, [0x104C5]); (0x104EE, [0x104C6]); (0x104EF, [0x104C7]); (0x104F0, [0x104C8]); (0x104F1, [0x104C9]);
   (0x104F2, [0x104CA]); (0x104F3, [0x104CB]); (0x104F4, [0x104CC]); (0x104F5, [0x104CD]); (0x104F6, [0x104CE]);
   (0x104F7, [0x104CF]); (0x104F8, [0x104D0]); (0x104F9, [0x104D1]); (0x104FA, [0x104D2]); (0x104FB, [0x104D3]);
   (0x10597, [0x10570]); (0x10598, [0x10571]); (0x10599, [0x10572]); (0x1059A, [0x10573]); (0x1059B, [0x10574]);
   (0x1059C, [0x10575]); (0x1059D, [0x10576]); (0x1059E, [0x10577]); (0x1059F, [0x10578]); (0x105A0, [0x10579]);
   (0x105A1, [0x1057A]); (0x105A3, [0x1057C]); (0x105A4, [0x1057D]); (0x105A5, [0x1057E]); (0x105A6, [0x1057F]);
   (0x105A7, [0x10580]); (0x105A8, [0x10581]); (0x105A9, [0x10582]); (0x105AA, [0x10583]); (0x105AB, [0x10584]);
   (0x105AC, [0x10585]); (0x105AD, [0x10586]); (0x105AE, [0x10587]); (0x105AF, [0x10588]); (0x105B0, [0x10589]);
   (0x105B1, [0x1058A]); (0x105B3, [0x1058C]); (0x105B4, [0x1058D]); (0x105B5, [0x1058E]); (0x105B6, [0x1058F]);
   (0x105B7, [0x10590]); (0x105B8, [0x10591]); (0x105B9, [0x10592]); (0x105BB, [0x10594]); (0x105BC, [0x10595]);
   (0x10CC0, [0x10C80]); (0x10CC1, [0x10C81]); (0x10CC2, [0x10C82]); (0x10CC3, [0x10C83]); (0x10CC4, [0x10C84]);
   (0x10CC5, [0x10C85]); (0x10CC6, [0x10C86]); (0x10CC7, [0x10C87]); (0x10CC8, [0x10C88]); (0x10CC9, [0x10C89]);
   (0x10CCA, [0x10C8A]); (0x10CCB, [0x10C8B]); (0x10CCC, [0x10C8C]); (0x10CCD, [0x10C8D]); (0x10CCE, [0x10C8E]);
   (0x10CCF, [0x10C8F]); (0x10CD0, [0x10C90]); (0x10CD1, [0x10C91]); (0x10CD2, [0x10C92]); (0x10CD3, [0x10C93]);
   (0x10CD4, [0x10C94]); (0x10CD5, [0x10C95]); (0x10CD6, [0x10C96]); (0x10CD7, [0x10C97]); (0x10CD8, [0x10C98]);
   (0x10CD9, [0x10C99]); (0x10CDA, [0x10C9A]); (0x10CDB, [0x10C9B]); (0x10CDC, [0x10C9C]); (0x10CDD, [0x10C9D]);
   (0x10CDE, [0x10C9E]); (0x10CDF, [0x10C9F]); (0x10CE0, [0x10CA0]); (0x10CE1, [0x10CA1]); (0x10CE2, [0x10CA2]);
   (0x10CE3, [0x10CA3]); (0x10CE4, [0x10CA4]); (0x10CE5, [0x10CA5]); (0x10CE6, [0x10CA6]); (0x10CE7, [0x10CA7]);
   (0x10CE8, [0x10CA8]); (0x10CE9, [0x10CA9]); (0x10CEA, [0x10CAA]); (0x10CEB, [0x10CAB]); (0x10CEC, [0x10CAC]);
   (0x10CED, [0x10CAD]); (0x10CEE, [0x10CAE]); (0x10CEF, [0x10CAF]); (0x10CF0, [0x10CB0]); (0x10CF1, [0x10CB1]);
   (0x10CF2, [0x10CB2]); (0x118C0, [0x118A0]); (0x118C1, [0x118A1]); (0x118C2, [0x118A2]); (0x118C3, [0x118A3]);
   (0x118C4, [0x118A4]); (0x118C5, [0x118A5]); (0x118C6, [0x118A6]); (0x118C7, [0x118A7]); (0x118C8, [0x118A8]);
   (0x118C9, [0x118A9]); (0x118CA, [0x118AA]); (0x118CB, [0x118AB]); (0x118CC, [0x118AC]); (0x118CD, [0x118AD]);
   (0x118CE, [0x118AE]); (0x118CF, [0x118AF]); (0x118D0, [0x118B0]); (0x118D1, [0x118B1]); (0x118D2, [0x118B2]);
   (0x118D3, [0x118B3]); (0x118D4, [0x118B4]); (0x118D5, [0x118B5]); (0x118D6, [0x118B6]); (0x118D7, [0x118B7]);
   (0x118D8, [0x118B8]); (0x118D9, [0x118B9]); (0x118DA, [0x118BA]); (0x118DB, [0x118BB]); (0x118DC, [0x118BC]);
   (0x118DD, [0x118BD]); (0x118DE, [0x118BE]); (0x118DF, [0x118BF]); (0x16E60, [0x16E40]); (0x16E61, [0x16E41]);
   (0x16E62, [0x16E42]); (0x16E63, [0x16E43]); (0x16E64, [0x16E44]); (0x16E65, [0x16E45]); (0x16E66, [0x16E46]);
   (0x16E67, [0x16E47]); (0x16E68, [0x16E48]); (0x16E69, [0x16E49]); (0x16E6A, [0x16E4A]); (0x16E6B, [0x16E4B]);
   (0x16E6C, [0x16E4C]); (0x16E6D, [0x16E4D]); (0x16E6E, [0x16E4E]); (0x16E6F, [0x16E4F]); (0x16E70, [0x16E50]);
   (0x16E71, [0x16E51]); (0x16E72, [0x16E52]); (0x16E73, [0x16E53]); (0x16E74, [0x16E54]); (0x16E75, [0x16E55]);
   (0x16E76, [0x16E56]); (0x16E77, [0x16E57]); (0x16E78, [0x16E58]); (0x16E79, [0x16E59]); (0x16E7A, [0x16E5A]);
   (0x16E7B, [0x16E5B]); (0x16E7C, [0x16E5C]); (0x16E7D, [0x16E5D]); (0x16E7E, [0x16E5E]); (0x16E7F, [0x16E5F]);
   (0x1E922, [0x1E900]); (0x1E923, [0x1E901]); (0x1E924, [0x1E902]); (0x1E925, [0x1E903]); (0x1E926, [0x1E904]);
   (0x1E927, [0x1E905]); (0x1E928, [0x1E906]); (0x1E929, [0x1E907]); (0x1E92A, [0x1E908]); (0x1E92B, [0x1E909]);
   (0x1E92C, [0x1E90A]); (0x1E92D, [0x1E90B]); (0x1E92E, [0x1E90C]); (0x1E92F, [0x1E90D]); (0x1E930, [0x1E90E]);
   (0x1E931, [0x1E90F]); (0x1E932, [0x1E910]); (0x1E933, [0x1E911]); (0x1E934, [0x1E912]); (0x1E935, [0x1E913]);
   (0x1E936, [0x1E914]); (0x1E937, [0x1E915]); (0x1E938, [0x1E916]); (0x1E939, [0x1E917]); (0x1E93A, [0x1E918]);
   (0x1E93B, [0x1E919]); (0x1E93C, [0x1E91A]); (0x1E93D, [0x1E91B]); (0x1E93E, [0x1E91C]); (0x1E93F, [0x1E91D]);
   (0x1E940, [0x1E91E]); (0x1E941, [0x1E91F]); (0x1E942, [0x1E920]); (0x1E943, [0x1E921])
  ].

Definition char_to_uppercase (c : Z) : list Z :=
  if (0x61 <=? c) && (c <=? 0x7A) then [c - 32]
  else if c <? 0x80 then [c]
  else match find (fun e => fst e =? c) unicode_upper_table with
       | Some e => snd e
       | None => [c]
       end.

(** [str::to_uppercase]. *)
Definition to_uppercase (s : ustr) : ustr := flat_map char_to_uppercase s.

Fixpoint is_prefix (p s : ustr) : bool :=
  match p, s with
  | [], _ => true
  | a :: p', b :: s' => (a =? b) && is_prefix p' s'
  | _ :: _, [] => false
  end.

(** [str::contains] with a string pattern (UTF-8 is self-synchronising, so
    a byte-level match is a match of scalar-value sequences). *)
Fixpoint contains (s p : ustr) : bool :=
  is_prefix p s || match s with [] => false | _ :: s' => contains s' p end.

(** Decimal rendering of an unsigned integer ([format!("{}", n)]). *)
Fixpoint uint_digits (d : Decimal.uint) : ustr :=
  match d with
  | Decimal.Nil => []
  | Decimal.D0 d' => 0x30 :: uint_digits d'
  | Decimal.D1 d' => 0x31 :: uint_digits d'
  | Decimal.D2 d' => 0x32 :: uint_digits d'
  | Decimal.D3 d' => 0x33 :: uint_digits d'
  | Decimal.D4 d' => 0x34 :: uint_digits d'
  | Decimal.D5 d' => 0x35 :: uint_digits d'
  | Decimal.D6 d' => 0x36 :: uint_digits d'
  | Decimal.D7 d' => 0x37 :: uint_digits d'
  | Decimal.D8 d' => 0x38 :: uint_digits d'
  | Decimal.D9 d' => 0x39 :: uint_digits d'
  end.

Definition show_u32 (n : Z) : ustr := uint_digits (N.to_uint (Z.to_N n)).

(** [u32] arithmetic: an overflow panics under debug assertions, which we
    model as an abort of the run. *)
Definition u32_max : Z := 2 ^ 32 - 1.
Definition u32_incr (n : Z) : option Z :=
  if n + 1 <=? u32_max then Some (n + 1) else None.

(** ** Data structures (src/main.rs, lines 27-148) *)

Record Agency := mkAgency {
  agency_id : ustr; agency_name : ustr; agency_url : ustr; agency_timezone : ustr }.

Record Route := mkRoute {
  route_id : ustr; route_agency_id : ustr; route_short_name : ustr;
  route_long_name : ustr; route_type : Z; route_color : ustr;
  route_text_color : ustr }.

Record Trip := mkTrip {
  trip_route_id : ustr; trip_service_id : ustr; trip_id : ustr;
  trip_headsign : ustr; trip_short_name : ustr }.

Record StopTime := mkStopTime {
  st_trip_id : ustr; arrival_time : ustr; departure_time : ustr;
  stop_id : ustr; stop_sequence : Z }.

Record Calendar := mkCalendar {
  cal_service_id : ustr; cal_monday : Z; cal_tuesday : Z; cal_wednesday : Z;
  cal_thursday : Z; cal_friday : Z; cal_saturday : Z; cal_sunday : Z;
  cal_start_date : ustr; cal_end_date : ustr }.

Record Association := mkAssociation {
  base_uid : ustr; assoc_uid : ustr; as_start_date : ustr; as_end_date : ustr;
  as_days_run : ustr; category : ustr; location : ustr; assoc_type : ustr;
  stp_indicator : ustr }.

Record ParsedStation := mkParsedStation {
  ps_tiploc : ustr; ps_name : ustr; ps_lat : float; ps_lon : float }.

Record TripState := mkTripState {
  ts_uid : ustr; date_start : ustr; date_end : ustr; days_run : ustr;
  stp_ind : ustr; atoc_code : ustr; train_identity : ustr;
  origin_name : ustr; dest_name : ustr; stops : list StopTime }.

Record TripSignature := mkTripSignature {
  sig_route_id : ustr; stop_pattern : list (ustr * ustr * ustr);
  headsign : ustr; sig_train_identity : ustr }.

Record TripServiceSignature := mkTripServiceSignature {
  trip_sig : TripSignature; sig_service_id : ustr }.

Record CalendarSignature := mkCalendarSignature {
  monday : Z; tuesday : Z; wednesday : Z; thursday : Z; friday : Z;
  saturday : Z; sunday : Z; start_date : ustr; end_date : ustr }.

(** [derive(PartialEq, Eq, Hash)]: the types used as set elements or map keys. *)
#[global] Instance Agency_eq_dec : EqDecision Agency.
Proof. solve_decision. Defined.
#[global] Instance Agency_countable : Countable Agency.
Proof.
  refine (inj_countable'
    (fun a => (agency_id a, agency_name a, agency_url a, agency_timezone a))
    (fun t => match t with (a, b, c, d) => mkAgency a b c d end) _).
  by intros [].
Defined.

#[global] Instance TripSignature_eq_dec : EqDecision TripSignature.
Proof. solve_decision. Defined.
#[global] Instance TripSignature_countable : Countable TripSignature.
Proof.
  refine (inj_countable'
    (fun s => (sig_route_id s, stop_pattern s, headsign s, sig_train_identity s))
    (fun t => match t with (a, b, c, d) => mkTripSignature a b c d end) _).
  by intros [].
Defined.

#[global] Instance TripServiceSignature_eq_dec : EqDecision TripServiceSignature.
Proof. solve_decision. Defined.
#[global] Instance TripServiceSignature_countable : Countable TripServiceSignature.
Proof.
  refine (inj_countable' (fun s => (trip_sig s, sig_service_id s))
    (fun t => mkTripServiceSignature t.1 t.2) _).
  by intros [].
Defined.

#[global] Instance CalendarSignature_eq_dec : EqDecision CalendarSignature.
Proof. solve_decision. Defined.
#[global] Instance CalendarSignature_countable : Countable CalendarSignature.
Proof.
  refine (inj_countable'
    (fun s => (monday s, tuesday s, wednesday s, thursday s, friday s,
               saturday s, sunday s, start_date s, end_date s))
    (fun t => match t with (a, b, c, d, e, f, g, h, i) =>
                mkCalendarSignature a b c d e f g h i end) _).
  by intros [].
Defined.

(** ** The consolidation state shared by all calls of [parse_mca]
    (src/main.rs, lines 244-269): the trips, stop_times and calendar CSV
    writers, seen as the list of rows written so far, the agency set, the
    route map and the dedup maps.  The associations writer is threaded
    separately by the record loop. *)
Record Out := mkOut {
  trips_w : list Trip;
  st_w : list StopTime;
  cal_w : list Calendar;
  agencies_set : gset Agency;
  routes_map : gmap ustr Route;
  trip_service_to_id : gmap TripServiceSignature ustr;
  uid_usage_count : gmap ustr Z;
  calendar_signature_to_id : gmap CalendarSignature ustr;
  service_counter : Z }.

Definition init_out : Out := mkOut [] [] [] ∅ ∅ ∅ ∅ ∅ 0.

Definition PLACEHOLDER_TRIP_ID : ustr := u "PLACEHOLDER".

Section Parse.
Variable tiploc_map : gmap ustr ParsedStation.
Variable toc_lookup : gmap ustr ustr.

(** ** [get_lo_line_details] (src/main.rs, lines 687-762) *)

Definition lo_names (stops : list StopTime) : gset ustr :=
  foldl (fun names stop =>
           match tiploc_map !! stop_id stop with
           | Some station => {[ ps_name station ]} ∪ names
           | None => names
           end) ∅ stops.

Definition lo_has (names : gset ustr) (s : ustr) : bool :=
  existsb (fun n => contains (to_uppercase n) (to_uppercase s)) (elements names).

Definition get_lo_line_details (stops : list StopTime) : ustr * ustr * ustr :=
  let has := lo_has (lo_names stops) in
  if has (u "GOSPEL OAK") && has (u "BARKING") then
    (u "Suffragette Line", u "LO-SUFFRAGETTE", u "008163")
  else if has (u "ROMFORD") && has (u "UPMINSTER") then
    (u "Liberty Line", u "LO-LIBERTY", u "676767")
  else if has (u "LIVERPOOL STREET") &&
          (has (u "CHESHUNT") || has (u "ENFIELD TOWN") || has (u "CHINGFORD")) then
    (u "Weaver Line", u "LO-WEAVER", u "a90068")
  else if has (u "EUSTON") && has (u "WATFORD JUNCTION") then
    (u "Lioness Line", u "LO-LIONESS", u "f1b41c")
  else if has (u "SHOREDITCH HIGH STREET") then
    (u "Windrush Line", u "LO-WINDRUSH", u "dc2517")
  else if has (u "STRATFORD") || (has (u "RICHMOND") && has (u "WILLESDEN JUNCTION"))
          || has (u "CAMDEN ROAD") || has (u "HACKNEY CENTRAL") then
    (u "Mildmay Line", u "LO-MILDMAY", u "437ec1")
  else
    (u "London Overground", u "LO-GENERIC", u "E66A1F").

(** ** The terminal-location record, after the terminal stop is pushed
    (src/main.rs, lines 526-655). *)

(** Route identity (lines 532-547): id, long name, short name, colour and
    text colour. *)
Definition route_details (trip : TripState) : ustr * ustr * ustr * ustr * ustr :=
  let default :=
    (atoc_code trip ++ u "_" ++ origin_name trip,
     origin_name trip ++ u " to " ++ dest_name trip,
     atoc_code trip, u "", u "000000") in
  if decide (atoc_code trip = u "LO") then
    let '(name, id, color) := get_lo_line_details (stops trip) in
    if decide (name = []) then default
    else (id, name, u "LO", color, u "FFFFFF")
  else default.

(** Lines 567-578. *)
Definition calendar_signature (trip : TripState) : CalendarSignature :=
  let d_vec := map (fun c => if c =? 0x31 then 1 else 0) (days_run trip) in
  mkCalendarSignature
    (nth 0 d_vec 0) (nth 1 d_vec 0) (nth 2 d_vec 0) (nth 3 d_vec 0)
    (nth 4 d_vec 0) (nth 5 d_vec 0) (nth 6 d_vec 0)
    (u "20" ++ date_start trip) (u "20" ++ date_end trip).

(** Lines 581-603: reuse the service id of a known calendar signature, or
    allocate [SVC<counter>], write its calendar row and record it. *)
Definition get_or_create_service (cal_sig : CalendarSignature) (o : Out)
    : option (ustr * Out) :=
  match calendar_signature_to_id o !! cal_sig with
  | Some existing_id => Some (existing_id, o)
  | None =>
      let new_id := u "SVC" ++ show_u32 (service_counter o) in
      c' ← u32_incr (service_counter o);
      let row := mkCalendar new_id (monday cal_sig) (tuesday cal_sig)
                   (wednesday cal_sig) (thursday cal_sig) (friday cal_sig)
                   (saturday cal_sig) (sunday cal_sig)
                   (start_date cal_sig) (end_date cal_sig) in
      Some (new_id,
            mkOut (trips_w o) (st_w o) (cal_w o ++ [row])
                  (agencies_set o) (routes_map o) (trip_service_to_id o)
                  (uid_usage_count o)
                  (<[cal_sig := new_id]> (calendar_signature_to_id o)) c')
  end.

(** Lines 606-621. *)
Definition trip_service_signature (trip : TripState) (route_id service_id : ustr)
    : TripServiceSignature :=
  mkTripServiceSignature
    (mkTripSignature route_id
       (map (fun st => (stop_id st, arrival_time st, departure_time st)) (stops trip))
       (dest_name trip) (train_identity trip))
    service_id.

Definition with_trip_id (id : ustr) (st : StopTime) : StopTime :=
  mkStopTime id (arrival_time st) (departure_time st) (stop_id st) (stop_sequence st).

(** Lines 624-655. *)
Definition write_trip (trip : TripState) (route_id service_id : ustr)
    (sig : TripServiceSignature) (o : Out) : option Out :=
  if decide (is_Some (trip_service_to_id o !! sig)) then Some o
  else
    let base_uid := ts_uid trip in
    let usage_count := unwrap_or (uid_usage_count o !! base_uid) 0 in
    let new_trip_id :=
      if usage_count =? 0 then base_uid
      else base_uid ++ u "_" ++ date_start trip ++ u "_" ++ stp_ind trip in
    usage' ← u32_incr usage_count;
    Some (mkOut
      (trips_w o ++ [mkTrip route_id service_id new_trip_id (dest_name trip)
                            (train_identity trip)])
      (st_w o ++ map (with_trip_id new_trip_id) (stops trip))
      (cal_w o) (agencies_set o) (routes_map o)
      (<[sig := new_trip_id]> (trip_service_to_id o))
      (<[base_uid := usage']> (uid_usage_count o))
      (calendar_signature_to_id o) (service_counter o)).

Definition emit_trip (trip : TripState) (o : Out) : option Out :=
  let agency_name :=
    unwrap_or (toc_lookup !! atoc_code trip)
              (u "National Rail (" ++ atoc_code trip ++ u ")") in
  let '(route_id, route_name, route_short_name, route_color, route_text_color) :=
    route_details trip in
  let agency := mkAgency (atoc_code trip) agency_name
                  (u "http://www.nationalrail.co.uk") (u "Europe/London") in
  let route := mkRoute route_id (atoc_code trip) route_short_name route_name 2
                 route_color route_text_color in
  let o1 := mkOut (trips_w o) (st_w o) (cal_w o)
              ({[ agency ]} ∪ agencies_set o)
              (match routes_map o !! route_id with
               | Some _ => routes_map o
               | None => <[route_id := route]> (routes_map o)
               end)
              (trip_service_to_id o) (uid_usage_count o)
              (calendar_signature_to_id o) (service_counter o) in
  '(service_id, o2) ← get_or_create_service (calendar_signature trip) o1;
  write_trip trip route_id service_id
    (trip_service_signature trip route_id service_id) o2.

End Parse.

(** ** The record state machine of [parse_mca] (src/main.rs, lines 416-676)

    One line moves the local state ([current_trip], [seq_counter]) and
    yields what the line commits downstream: a finalized trip (the
    terminal-location record, lines 509-658) or an association row. *)
Inductive effect :=
  | NoEffect
  | Finalize (trip : TripState)
  | EmitAssoc (a : Association).

Definition pstate : Type := option TripState * Z.

Definition str_eqb (a b : ustr) : bool := bool_decide (a = b).

Definition push_stop (trip : TripState) (st : StopTime) : TripState :=
  mkTripState (ts_uid trip) (date_start trip) (date_end trip) (days_run trip)
    (stp_ind trip) (atoc_code trip) (train_identity trip) (origin_name trip)
    (dest_name trip) (stops trip ++ [st]).

Definition set_atoc (trip : TripState) (atoc : ustr) : TripState :=
  mkTripState (ts_uid trip) (date_start trip) (date_end trip) (days_run trip)
    (stp_ind trip) atoc (train_identity trip) (origin_name trip)
    (dest_name trip) (stops trip).

Definition set_origin (trip : TripState) (name : ustr) : TripState :=
  mkTripState (ts_uid trip) (date_start trip) (date_end trip) (days_run trip)
    (stp_ind trip) (atoc_code trip) (train_identity trip) name
    (dest_name trip) (stops trip).

Definition set_dest (trip : TripState) (name : ustr) : TripState :=
  mkTripState (ts_uid trip) (date_start trip) (date_end trip) (days_run trip)
    (stp_ind trip) (atoc_code trip) (train_identity trip) (origin_name trip)
    name (stops trip).

Section Machine.
Variable tiploc_map : gmap ustr ParsedStation.

(** "BS" (lines 427-454). *)
Definition step_bs (line : ustr) (p : pstate) : pstate :=
  let uid := unwrap_or (str_get line 3 9) [] in
  let d_start := unwrap_or (str_get line 9 15) [] in
  let d_end := unwrap_or (str_get line 15 21) [] in
  let days := unwrap_or (str_get line 21 28) (u "0000000") in
  let train_id := trim (unwrap_or (str_get line 32 36) []) in
  let stp := unwrap_or (str_get line 79 80) (u "P") in
  if str_eqb stp (u "C") then (None, p.2)
  else (Some (mkTripState uid d_start d_end days stp (u "NR") train_id [] [] []), 1).

(** "BX" (lines 455-462). *)
Definition step_bx (line : ustr) (p : pstate) : pstate :=
  match p.1 with
  | Some trip =>
      let atoc := trim (unwrap_or (str_get line 11 13) (u "NR")) in
      if str_eqb atoc [] then p else (Some (set_atoc trip atoc), p.2)
  | None => p
  end.

(** "LO" (lines 463-482). *)
Definition step_lo (line : ustr) (p : pstate) : option pstate :=
  match p.1 with
  | Some trip =>
      let tiploc := trim (unwrap_or (str_get line 2 9) []) in
      dep_sched ← format_time (unwrap_or (str_get line 10 15) (u "00000"));
      match tiploc_map !! tiploc with
      | Some station =>
          seq' ← u32_incr p.2;
          Some (Some (push_stop (set_origin trip (ps_name station))
                        (mkStopTime PLACEHOLDER_TRIP_ID dep_sched dep_sched tiploc p.2)),
                seq')
      | None => Some p
      end
  | None => Some p
  end.

(** "LI" (lines 483-508). *)
Definition step_li (line : ustr) (p : pstate) : option pstate :=
  match p.1 with
  | Some trip =>
      let tiploc := trim (unwrap_or (str_get line 2 9) []) in
      arr_sched ← format_time (unwrap_or (str_get line 10 15) (u "00000"));
      dep_sched ← format_time (unwrap_or (str_get line 15 20) (u "00000"));
      let pub_arr := unwrap_or (str_get line 25 29) (u "0000") in
      let pub_dep := unwrap_or (str_get line 29 33) (u "0000") in
      if str_eqb pub_arr (u "0000") && str_eqb pub_dep (u "0000") then Some p
      else if decide (is_Some (tiploc_map !! tiploc)) then
        seq' ← u32_incr p.2;
        Some (Some (push_stop trip
                      (mkStopTime PLACEHOLDER_TRIP_ID arr_sched dep_sched tiploc p.2)),
              seq')
      else Some p
  | None => Some p
  end.

(** "LT" (lines 509-658): the terminal stop takes the current sequence
    number and the trip is committed downstream. *)
Definition step_lt (line : ustr) (p : pstate) : option (pstate * effect) :=
  match p.1 with
  | Some trip =>
      let tiploc := trim (unwrap_or (str_get line 2 9) []) in
      arr_sched ← format_time (unwrap_or (str_get line 10 15) (u "00000"));
      match tiploc_map !! tiploc with
      | Some station =>
          let trip' := push_stop (set_dest trip (ps_name station))
                         (mkStopTime PLACEHOLDER_TRIP_ID arr_sched arr_sched tiploc p.2) in
          Some ((Some trip', p.2), Finalize trip')
      | None => Some (p, NoEffect)
      end
  | None => Some (p, NoEffect)
  end.

(** "AA" (lines 659-671). *)
Definition assoc_of (line : ustr) : Association :=
  mkAssociation
    (unwrap_or (str_get line 3 9) [])
    (unwrap_or (str_get line 9 15) [])
    (u "20" ++ unwrap_or (str_get line 15 21) [])
    (u "20" ++ unwrap_or (str_get line 21 27) [])
    (unwrap_or (str_get line 27 34) [])
    (unwrap_or (str_get line 34 36) [])
    (trim (unwrap_or (str_get line 37 44) []))
    (unwrap_or (str_get line 47 48) [])
    (unwrap_or (str_get line 79 80) []).

Definition mca_step (p : pstate) (line : ustr) : option (pstate * effect) :=
  if byte_len line <? 2 then Some (p, NoEffect) else
  record_type ← str_get line 0 2;
  if str_eqb record_type (u "BS") then Some (step_bs line p, NoEffect)
  else if str_eqb record_type (u "BX") then Some (step_bx line p, NoEffect)
  else if str_eqb record_type (u "LO") then p' ← step_lo line p; Some (p', NoEffect)
  else if str_eqb record_type (u "LI") then p' ← step_li line p; Some (p', NoEffect)
  else if str_eqb record_type (u "LT") then step_lt line p
  else if str_eqb record_type (u "AA") then Some (p, EmitAssoc (assoc_of line))
  else Some (p, NoEffect).

(** The trips a stream of lines finalizes, in order. *)
Fixpoint finalized (p : pstate) (lines : list ustr) : option (list TripState) :=
  match lines with
  | [] => Some []
  | line :: rest =>
      '(p', eff) ← mca_step p line;
      ts ← finalized p' rest;
      match eff with
      | Finalize t => Some (t :: ts)
      | _ => Some ts
      end
  end.

End Machine.

Fixpoint mca_loop (tiploc_map : gmap ustr ParsedStation) (toc_lookup : gmap ustr ustr)
    (p : pstate) (o : Out) (assoc_w : list Association) (lines : list ustr)
    : option (pstate * Out * list Association) :=
  match lines with
  | [] => Some (p, o, assoc_w)
  | line :: rest =>
      '(p', eff) ← mca_step tiploc_map p line;
      match eff with
      | NoEffect => mca_loop tiploc_map toc_lookup p' o assoc_w rest
      | Finalize trip =>
          o' ← emit_trip tiploc_map toc_lookup trip o;
          mca_loop tiploc_map toc_lookup p' o' assoc_w rest
      | EmitAssoc a => mca_loop tiploc_map toc_lookup p' o (assoc_w ++ [a]) rest
      end
  end.

(** [parse_mca]: one timetable file, starting with no open trip. *)
Definition parse_mca (tiploc_map : gmap ustr ParsedStation) (toc_lookup : gmap ustr ustr)
    (o : Out) (assoc_w : list Association) (lines : list ustr)
    : option (Out * list Association) :=
  '(_, o', assoc_w') ← mca_loop tiploc_map toc_lookup (None, 0) o assoc_w lines;
  Some (o', assoc_w').

(** The loop of [main] over the timetable files (lines 272-292). *)
Fixpoint run_mca (tiploc_map : gmap ustr ParsedStation) (toc_lookup : gmap ustr ustr)
    (o : Out) (assoc_w : list Association) (files : list (list ustr))
    : option (Out * list Association) :=
  match files with
  | [] => Some (o, assoc_w)
  | f :: fs =>
      '(o', assoc_w') ← parse_mca tiploc_map toc_lookup o assoc_w f;
      run_mca tiploc_map toc_lookup o' assoc_w' fs
  end.

(** The trips finalized by a run, file after file. *)
Fixpoint finalized_files (tiploc_map : gmap ustr ParsedStation) (files : list (list ustr))
    : option (list TripState) :=
  match files with
  | [] => Some []
  | f :: fs =>
      ts ← finalized tiploc_map (None, 0) f;
      ts' ← finalized_files tiploc_map fs;
      Some (ts ++ ts')
  end.

(** The consolidation engine fed with a sequence of finalized trips. *)
Fixpoint emit_all (tiploc_map : gmap ustr ParsedStation) (toc_lookup : gmap ustr ustr)
    (o : Out) (ts : list TripState) : option Out :=
  match ts with
  | [] => Some o
  | t :: ts' => o' ← emit_trip tiploc_map toc_lookup t o; emit_all tiploc_map toc_lookup o' ts'
  end.

(** ** [parse_msn] (src/main.rs, lines 351-399)

    Parsing an [f64] and the OSGB36 projection of the [lonlat_bng] crate
    are library code: the resolver is stated for any of them. *)
Section Msn.
Variable parse_f64 : ustr -> option float.
Variable convert_osgb36_to_ll : float -> float -> option (float * float).

Definition msn_line (osm_lookup : gmap ustr (float * float))
    (map : gmap ustr ParsedStation) (line : ustr) : gmap ustr ParsedStation :=
  match line with
  | 0x41 :: _ =>
      let name := trim (unwrap_or (str_get line 5 31) []) in
      let tiploc := trim (unwrap_or (str_get line 36 43) []) in
      let crs := trim (unwrap_or (str_get line 49 52) []) in
      let easting_str := unwrap_or (str_get line 52 57) (u "0") in
      let northing_str := unwrap_or (str_get line 58 63) (u "0") in
      let '(lat, lon) :=
        match osm_lookup !! crs with
        | Some coords => coords
        | None =>
            let easting := (unwrap_or (parse_f64 (trim easting_str)) 0 * 100)%float in
            let northing := (unwrap_or (parse_f64 (trim northing_str)) 0 * 100)%float in
            match convert_osgb36_to_ll easting northing with
            | Some coords => coords
            | None => (0%float, 0%float)
            end
        end in
      if decide (tiploc = []) then map
      else <[tiploc := mkParsedStation tiploc name lat lon]> map
  | _ => map
  end.

Definition parse_msn (osm_lookup : gmap ustr (float * float))
    (map : gmap ustr ParsedStation) (lines : list ustr) : gmap ustr ParsedStation :=
  foldl (msn_line osm_lookup) map lines.

End Msn.

(** ** Observation of the consolidation engine

    The service id a trip resolves to in state [o], the composite
    trip+service key it is deduplicated under, and the sequence of
    (state before, trip, state after) of a run. *)
Definition service_id_for (o : Out) (cal_sig : CalendarSignature) : ustr :=
  match calendar_signature_to_id o !! cal_sig with
  | Some id => id
  | None => u "SVC" ++ show_u32 (service_counter o)
  end.

Definition route_id_of (tiploc_map : gmap ustr ParsedStation) (trip : TripState) : ustr :=
  (route_details tiploc_map trip).1.1.1.1.

Definition tss_of (tiploc_map : gmap ustr ParsedStation) (o : Out) (trip : TripState)
    : TripServiceSignature :=
  trip_service_signature trip (route_id_of tiploc_map trip)
    (service_id_for o (calendar_signature trip)).

Definition suffixed_id (trip : TripState) : ustr :=
  ts_uid trip ++ u "_" ++ date_start trip ++ u "_" ++ stp_ind trip.

Fixpoint emit_trace (tiploc_map : gmap ustr ParsedStation) (toc_lookup : gmap ustr ustr)
    (o : Out) (ts : list TripState) : option (list (Out * TripState * Out)) :=
  match ts with
  | [] => Some []
  | t :: ts' =>
      o' ← emit_trip tiploc_map toc_lookup t o;
      tr ← emit_trace tiploc_map toc_lookup o' ts';
      Some ((o, t, o') :: tr)
  end.

(** The state a trace ends in. *)
Fixpoint trace_last (o : Out) (tr : list (Out * TripState * Out)) : Out :=
  match tr with
  | [] => o
  | (_, _, post) :: tr' => trace_last post tr'
  end.

(** How many trips of a trace carrying [uid] were written (not suppressed
    as duplicates). *)
Definition count_written (tiploc_map : gmap ustr ParsedStation) (uid : ustr)
    (tr : list (Out * TripState * Out)) : nat :=
  length (List.filter (fun e : Out * TripState * Out =>
                    bool_decide (trip_service_to_id e.1.1 !! tss_of tiploc_map e.1.1 e.1.2 = None
                                 /\ ts_uid e.1.2 = uid)) tr).

(** The calendar bookkeeping of reachable states: every service id used in
    a trip+service key is a known calendar's id, and the calendar ids are
    [SVC<k>] for [k] below the counter. *)
Definition service_inv (o : Out) : Prop :=
  (forall sig id, trip_service_to_id o !! sig = Some id ->
     exists cs, calendar_signature_to_id o !! cs = Some (sig_service_id sig)) /\
  (forall cs id, calendar_signature_to_id o !! cs = Some id ->
     exists k, 0 <= k < service_counter o /\ id = u "SVC" ++ show_u32 k) /\
  0 <= service_counter o.

(** The route [emit_trip] builds for a trip (lines 549-564). *)
Definition route_for (tiploc_map : gmap ustr ParsedStation) (trip : TripState) : Route :=
  let '(route_id, route_name, route_short_name, route_color, route_text_color) :=
    route_details tiploc_map trip in
  mkRoute route_id (atoc_code trip) route_short_name route_name 2 route_color
    route_text_color.

(** Whether [mca_step] dispatches a line to the association branch. *)
Definition is_aa_record (line : ustr) : bool :=
  negb (byte_len line <? 2) &&
  match str_get line 0 2 with
  | Some rt => str_eqb rt (u "AA")
  | None => false
  end.

(** ** [parse_fares_toc] (src/main.rs, lines 335-348) *)

Definition fares_toc_line (map : gmap ustr ustr) (line : ustr) : gmap ustr ustr :=
  match line with
  | 0x54 :: _ =>
      let id := trim (unwrap_or (str_get line 1 3) []) in
      let name := trim (unwrap_or (str_get line 3 33) []) in
      if decide (id <> [] /\ name <> []) then <[id := name]> map else map
  | _ => map
  end.

Definition parse_fares_toc (map : gmap ustr ustr) (lines : list ustr) : gmap ustr ustr :=
  foldl fares_toc_line map lines.

(** The (id, name) entry a line of a TOC file contributes, if any. *)
Definition fares_toc_entry (line : ustr) : option (ustr * ustr) :=
  match line with
  | 0x54 :: _ =>
      let id := trim (unwrap_or (str_get line 1 3) []) in
      let name := trim (unwrap_or (str_get line 3 33) []) in
      if decide (id <> [] /\ name <> []) then Some (id, name) else None
  | _ => None
  end.

(** ** [parse_osm_crs] (src/main.rs, lines 316-332)

    The objects the PBF reader yields, an error being [None] (dropped by
    [flatten]); [node.lat()] and [node.lon()] are the node's coordinates.
    Ways and relations carry nothing the function reads. *)
Inductive OsmObj :=
  | Node (tags : gmap ustr ustr) (lat lon : float)
  | Way
  | Relation.

Definition osm_crs_obj (map : gmap ustr (float * float)) (obj : option OsmObj)
    : gmap ustr (float * float) :=
  match obj with
  | Some (Node tags lat lon) =>
      match tags !! u "ref:crs" with
      | Some crs => <[crs := (lat, lon)]> map
      | None => map
      end
  | _ => map
  end.

Definition parse_osm_crs (objs : list (option OsmObj)) : gmap ustr (float * float) :=
  foldl osm_crs_obj ∅ objs.

(** The CRS tag of a node, if the object is one. *)
Definition node_crs (obj : option OsmObj) : option ustr :=
  match obj with
  | Some (Node tags _ _) => tags !! u "ref:crs"
  | _ => None
  end.

(** ** The station files and the stops of [main] (src/main.rs, lines 231-254)

    An archive entry is its name and its lines.  Rust iterates the values
    of a [HashMap] in an unspecified order; the rows are listed here in
    the order of [map_to_list], and the properties below do not depend on
    it. *)
Record Stop := mkStop {
  stop_row_id : ustr; stop_name : ustr; stop_lat : float; stop_lon : float }.

(** [str::ends_with] with an ASCII pattern. *)
Definition ends_with (s suffix : ustr) : bool := is_prefix (rev suffix) (rev s).

Definition msn_files (parse_f64 : ustr -> option float)
    (convert_osgb36_to_ll : float -> float -> option (float * float))
    (osm_crs_map : gmap ustr (float * float)) (files : list (ustr * list ustr))
    : gmap ustr ParsedStation :=
  foldl (fun tiploc_map file =>
           if ends_with file.1 (u ".MSN")
           then parse_msn parse_f64 convert_osgb36_to_ll osm_crs_map tiploc_map file.2
           else tiploc_map) ∅ files.

Definition stops_rows (tiploc_map : gmap ustr ParsedStation) : list Stop :=
  map (fun station => mkStop (ps_tiploc station) (ps_name station) (ps_lat station)
                        (ps_lon station))
      (map snd (map_to_list tiploc_map)).

(** ** Invariants of the consolidation engine and the parsers *)

(** Route and trip references. *)
Definition routes_inv (o : Out) : Prop :=
  (forall k r, routes_map o !! k = Some r ->
     route_id r = k /\ exists a, a ∈ agencies_set o /\ agency_id a = route_agency_id r) /\
  (forall tr, In tr (trips_w o) -> is_Some (routes_map o !! trip_route_id tr)).

(** Calendar references: every service id in use has a calendar row. *)
Definition calendar_inv (o : Out) : Prop :=
  (forall tr, In tr (trips_w o) -> exists c, In c (cal_w o) /\ cal_service_id c = trip_service_id tr) /\
  (forall cs id, calendar_signature_to_id o !! cs = Some id ->
     exists c, In c (cal_w o) /\ cal_service_id c = id).

(** Stop rows belong to written trips. *)
Definition stop_times_inv (o : Out) : Prop :=
  forall st, In st (st_w o) -> exists tr, In tr (trips_w o) /\ trip_id tr = st_trip_id st.

(** Every agency is the one built for its id. *)
Definition agency_inv (toc_lookup : gmap ustr ustr) (o : Out) : Prop :=
  forall a, a ∈ agencies_set o ->
    a = mkAgency (agency_id a)
          (unwrap_or (toc_lookup !! agency_id a) (u "National Rail (" ++ agency_id a ++ u ")"))
          (u "http://www.nationalrail.co.uk") (u "Europe/London").

(** The calendar ids are [SVC0], [SVC1], ... in order, one per signature. *)
Definition svc_inv (o : Out) : Prop :=
  0 <= service_counter o /\
  map cal_service_id (cal_w o) =
    map (fun k => u "SVC" ++ show_u32 (Z.of_nat k)) (seq 0 (Z.to_nat (service_counter o))) /\
  size (calendar_signature_to_id o) = Z.to_nat (service_counter o).

(** One trips row per trip+service signature. *)
Definition trip_count_inv (o : Out) : Prop :=
  length (trips_w o) = size (trip_service_to_id o).

Definition stations_keyed (m : gmap ustr ParsedStation) : Prop :=
  forall k st, m !! k = Some st -> ps_tiploc st = k /\ k <> [] /\ byte_len k <= 7.

Definition trip_stops_known (tiploc_map : gmap ustr ParsedStation) (p : pstate) : Prop :=
  match p.1 with
  | Some trip => Forall (fun s => is_Some (tiploc_map !! stop_id s)) (stops trip)
  | None => True
  end.

(** ** Concrete inputs *)

Definition demo_station (tiploc name : string) : ParsedStation :=
  mkParsedStation (u tiploc) (u name) 0%float 0%float.

Definition demo_stations : gmap ustr ParsedStation :=
  <[u "EUSTON" := demo_station "EUSTON" "LONDON EUSTON"]>
  (<[u "WATFDJ" := demo_station "WATFDJ" "WATFORD JUNCTION"]>
  (<[u "GOSPLOK" := demo_station "GOSPLOK" "GOSPEL OAK"]>
  (<[u "BARKING" := demo_station "BARKING" "BARKING"]> ∅))).

(** Two schedules under UID Y00002: the first is a copy of X00001's. *)
Definition uid_lines : list ustr := [
  u "BSNX000012601012612311111100    2A01                                           P";
  u "LOEUSTON  0930 0930";
  u "LTWATFDJ  1000 1000";
  u "BSNY000022601012612311111100    2A01                                           P";
  u "LOEUSTON  0930 0930";
  u "LTWATFDJ  1000 1000";
  u "BSNY000022601012612311111100    2A01                                           P";
  u "LOEUSTON  0930 0930";
  u "LTWATFDJ  1005 1005"].

(** The finalized trips of [uid_lines] and the outcome of the run. *)
Definition uid_trips : list TripState :=
  Eval vm_compute in
  unwrap_or (finalized_files demo_stations [uid_lines]) [].

(** The stop rows written under trip id [id]. *)
Definition stop_rows_of (id : ustr) (o : Out) : list StopTime :=
  List.filter (fun st => str_eqb (st_trip_id st) id) (st_w o).

(** An open X00001 trip, then a cancellation of the schedule followed by
    its terminal record. *)
Definition open_lines : list ustr := [
  u "BSNX000012601012612311111100    2A01                                           P";
  u "LOEUSTON  0930 0930"].

Definition cancel_bs : ustr :=
  u "BSNX000012601012612311111100    2A01                                           C".

Definition cancel_rest : list ustr := [u "LTWATFDJ  1000 1000"].

Definition open_state : pstate :=
  Eval vm_compute in
  unwrap_or (option_map (fun r => r.1.1)
               (mca_loop demo_stations ∅ (None, 0) init_out [] open_lines)) (None, 0).

Definition cancel_run : pstate * Out * list Association :=
  Eval vm_compute in
  unwrap_or (mca_loop demo_stations ∅ open_state init_out [] (cancel_bs :: cancel_rest))
            ((None, 0), init_out, []).

(** An intermediate record at Watford Junction with public times. *)
Definition li_line : ustr := u "LIWATFDJ  0945 0946      09450946".

Definition li_step : pstate * effect :=
  Eval vm_compute in
  unwrap_or (mca_step demo_stations open_state li_line) (open_state, NoEffect).

(** A station reference record for Euston (CRS EUS), and a geocode lookup
    holding EUS. *)
Definition msn_demo_line : ustr :=
  u "A    LONDON EUSTON                  EUSTON       EUS15294E18275 ".

Definition demo_osm : gmap ustr (float * float) := {[ u "EUS" := (51.5%float, 0.5%float) ]}.

(** A London Overground schedule from Euston through Watford Junction and
    Gospel Oak to Barking. *)
Definition lo_lines : list ustr := [
  u "BSNL000012601012612311111100    2L01                                           P";
  u "BX         LO";
  u "LOEUSTON  0930 0930";
  u "LIWATFDJ  0945 0946      09450946";
  u "LIGOSPLOK 1000 1001      10001001";
  u "LTBARKING 1030 1030"].

Definition empty_trip : TripState := mkTripState [] [] [] [] [] [] [] [] [] [].

Definition lo_trip : TripState :=
  Eval vm_compute in
  unwrap_or (head (unwrap_or (finalized demo_stations (None, 0) lo_lines) [])) empty_trip.

(** A London Overground schedule from Euston to Watford Junction. *)
Definition lioness_lines : list ustr := [
  u "BSNL000022601012612311111100    2L02                                           P";
  u "BX         LO";
  u "LOEUSTON  0930 0930";
  u "LTWATFDJ  1000 1000"].

Definition lioness_trip : TripState :=
  Eval vm_compute in
  unwrap_or (head (unwrap_or (finalized demo_stations (None, 0) lioness_lines) []))
    empty_trip.

(** A schedule with a second terminal record: the trip is not closed by
    the first one. *)
Definition dup_lt_lines : list ustr := [
  u "BSNX000012601012612311111100    2A01                                           P";
  u "LOEUSTON  0930 0930";
  u "LTWATFDJ  1000 1000";
  u "LTWATFDJ  1000 1000"].

(** An origin record whose departure field holds U+3007 (IDEOGRAPHIC
    NUMBER ZERO, numeric, three bytes in UTF-8). *)
Definition lo_ideographic_line : ustr := u "LOEUSTON  0" ++ [0x3007] ++ u "0".

(** A fares TOC record for London Overground (33 bytes), and the same
    record with its trailing padding stripped. *)
Definition toc_demo_line : ustr := u "TLOLONDON OVERGROUND             ".

Definition toc_short_line : ustr := u "TLOLONDON OVERGROUND".

(** A station reference record cut before the end of its TIPLOC field. *)
Definition msn_short_line : ustr := u "A    LONDON EUSTON                  EUSTON".

(** A station file and a timetable file as [main] reads them, with a
    number parser and a projection that always fail (the station is
    geocoded from [demo_osm]). *)
Definition main_msn : list (ustr * list ustr) := [(u "RJTTF123.MSN", [msn_demo_line])].

Definition main_mca : list ustr := [
  u "BSNX000012601012612311111100    2A01                                           P";
  u "LOEUSTON  0930 0930";
  u "LTEUSTON  1000 1000"].

Definition no_f64 (s : ustr) : option float := None.

Definition no_osgb36 (easting northing : float) : option (float * float) := None.

(** A schedule file with a trip and two association records between
    X00001 and Y00002, one on each side of the trip. *)
Definition assoc_lines : list ustr := [
  u "AANX00001Y000022601012612311111100NPSWATFDJ   TP                               P";
  u "BSNX000012601012612311111100    2A01                                           P";
  u "LOEUSTON  0930 0930";
  u "LTWATFDJ  1000 1000";
  u "AANY00002X000012601012612311111100JJSEUSTON   TP                               P"].

(** * Properties *)

(** ** Steps of the consolidation engine *)

(** Closing an equation by evaluation in the virtual machine, without
    reading the (large) normal form back. *)
Ltac vm_refl := match goal with |- ?a = ?b => exact (eq_refl b <: a = b) end.

(** ** Strings *)

Lemma utf8_len_pos (c : Z) : 1 <= utf8_len c.
Proof. unfold utf8_len. repeat (destruct (_ <? _)); lia. Qed.

Lemma byte_len_nonneg (s : ustr) : 0 <= byte_len s.
Proof. induction s as [|c s IH]; simpl; [lia|]. pose proof (utf8_len_pos c). lia. Qed.

Lemma drop_bytes_len (n : Z) (s r : ustr) :
  drop_bytes n s = Some r -> byte_len s = n + byte_len r.
Proof.
  revert n. induction s as [|c s IH]; intros n H; simpl in H.
  - destruct (n =? 0) eqn:E; [|discriminate]. injection H as <-. apply Z.eqb_eq in E. lia.
  - destruct (n =? 0) eqn:E.
    + injection H as <-. apply Z.eqb_eq in E. lia.
    + destruct (utf8_len c <=? n); [|discriminate]. apply IH in H. simpl. lia.
Qed.

Lemma take_bytes_len (n : Z) (s r : ustr) :
  take_bytes n s = Some r -> n <= byte_len s.
Proof.
  revert n r. induction s as [|c s IH]; intros n r H; simpl in H.
  - destruct (n =? 0) eqn:E; [|discriminate]. apply Z.eqb_eq in E. simpl. lia.
  - destruct (n =? 0) eqn:E.
    + apply Z.eqb_eq in E. pose proof (byte_len_nonneg (c :: s)). lia.
    + destruct (utf8_len c <=? n); [|discriminate].
      destruct (take_bytes (n - utf8_len c) s) as [r'|] eqn:Et; [|discriminate].
      apply IH in Et. simpl. lia.
Qed.

(** A successful [str::get(a..b)] lies within the string. *)
Lemma str_get_len (s : ustr) (a b : Z) (x : ustr) :
  str_get s a b = Some x -> b <= byte_len s.
Proof.
  unfold str_get. destruct ((0 <=? a) && (a <=? b)) eqn:E; [|discriminate].
  apply andb_true_iff in E as [E1 E2]. apply Z.leb_le in E1, E2.
  destruct (drop_bytes a s) as [r|] eqn:Ed; [|discriminate].
  intros Ht. apply drop_bytes_len in Ed. apply take_bytes_len in Ht. lia.
Qed.

Lemma str_eqb_true (a b : ustr) : str_eqb a b = true <-> a = b.
Proof. unfold str_eqb. apply bool_decide_eq_true. Qed.

Lemma str_eqb_false (a b : ustr) : str_eqb a b = false <-> a <> b.
Proof. unfold str_eqb. apply bool_decide_eq_false. Qed.

(** The dispatch of [mca_step] on the record type. *)
Lemma mca_step_record (tiploc_map : gmap ustr ParsedStation) (p : pstate) (line rt : ustr) :
  str_get line 0 2 = Some rt ->
  mca_step tiploc_map p line =
    if str_eqb rt (u "BS") then Some (step_bs line p, NoEffect)
    else if str_eqb rt (u "BX") then Some (step_bx line p, NoEffect)
    else if str_eqb rt (u "LO") then p' ← step_lo tiploc_map line p; Some (p', NoEffect)
    else if str_eqb rt (u "LI") then p' ← step_li tiploc_map line p; Some (p', NoEffect)
    else if str_eqb rt (u "LT") then step_lt tiploc_map line p
    else if str_eqb rt (u "AA") then Some (p, EmitAssoc (assoc_of line))
    else Some (p, NoEffect).
Proof.
  intros H. unfold mca_step.
  assert (Hl : (byte_len line <? 2) = false) by (apply str_get_len in H; lia).
  rewrite Hl, H. reflexivity.
Qed.

Lemma get_or_create_service_spec (cs : CalendarSignature) (o o2 : Out) (sid : ustr) :
  get_or_create_service cs o = Some (sid, o2) ->
  sid = service_id_for o cs /\
  trips_w o2 = trips_w o /\ st_w o2 = st_w o /\
  trip_service_to_id o2 = trip_service_to_id o /\
  uid_usage_count o2 = uid_usage_count o /\
  calendar_signature_to_id o2 = <[cs := sid]> (calendar_signature_to_id o) /\
  (is_Some (calendar_signature_to_id o !! cs) -> o2 = o) /\
  (calendar_signature_to_id o !! cs = None ->
     service_counter o2 = service_counter o + 1 /\
     cal_w o2 = cal_w o ++ [mkCalendar sid (monday cs) (tuesday cs) (wednesday cs)
                             (thursday cs) (friday cs) (saturday cs) (sunday cs)
                             (start_date cs) (end_date cs)]).
Proof.
  unfold get_or_create_service, service_id_for.
  destruct (calendar_signature_to_id o !! cs) as [id|] eqn:E.
  - intros H. injection H as <- <-.
    repeat split; try done; try (intros; congruence).
    symmetry. by apply insert_id.
  - unfold u32_incr. destruct (service_counter o + 1 <=? u32_max); [|discriminate].
    intros H. injection H as <- <-. simpl.
    repeat split; try done.
Qed.

Lemma write_trip_spec (t : TripState) (rid sid : ustr) (sig : TripServiceSignature)
    (o o3 : Out) :
  write_trip t rid sid sig o = Some o3 ->
  cal_w o3 = cal_w o /\
  calendar_signature_to_id o3 = calendar_signature_to_id o /\
  service_counter o3 = service_counter o /\
  (is_Some (trip_service_to_id o !! sig) -> o3 = o) /\
  (trip_service_to_id o !! sig = None ->
     let c := unwrap_or (uid_usage_count o !! ts_uid t) 0 in
     let id := if c =? 0 then ts_uid t else suffixed_id t in
     trips_w o3 = trips_w o ++ [mkTrip rid sid id (dest_name t) (train_identity t)] /\
     st_w o3 = st_w o ++ map (with_trip_id id) (stops t) /\
     trip_service_to_id o3 = <[sig := id]> (trip_service_to_id o) /\
     uid_usage_count o3 = <[ts_uid t := c + 1]> (uid_usage_count o)).
Proof.
  unfold write_trip.
  destruct (decide (is_Some (trip_service_to_id o !! sig))) as [Hs|Hn].
  - intros H. injection H as <-. repeat split; try done.
    all: destruct Hs as [? Hs']; congruence.
  - unfold u32_incr.
    destruct (unwrap_or (uid_usage_count o !! ts_uid t) 0 + 1 <=? u32_max); [|discriminate].
    intros H. injection H as <-. simpl. repeat split; try done.
Qed.

Lemma emit_trip_spec (tiploc_map : gmap ustr ParsedStation) (toc_lookup : gmap ustr ustr)
    (t : TripState) (o o' : Out) :
  emit_trip tiploc_map toc_lookup t o = Some o' ->
  let cs := calendar_signature t in
  let sid := service_id_for o cs in
  let sig := tss_of tiploc_map o t in
  calendar_signature_to_id o' = <[cs := sid]> (calendar_signature_to_id o) /\
  (is_Some (calendar_signature_to_id o !! cs) ->
     service_counter o' = service_counter o /\ cal_w o' = cal_w o) /\
  (calendar_signature_to_id o !! cs = None ->
     service_counter o' = service_counter o + 1 /\
     cal_w o' = cal_w o ++ [mkCalendar sid (monday cs) (tuesday cs) (wednesday cs)
                             (thursday cs) (friday cs) (saturday cs) (sunday cs)
                             (start_date cs) (end_date cs)]) /\
  (is_Some (trip_service_to_id o !! sig) ->
     trip_service_to_id o' = trip_service_to_id o /\
     uid_usage_count o' = uid_usage_count o /\
     trips_w o' = trips_w o /\ st_w o' = st_w o) /\
  (trip_service_to_id o !! sig = None ->
     let c := unwrap_or (uid_usage_count o !! ts_uid t) 0 in
     let id := if c =? 0 then ts_uid t else suffixed_id t in
     trips_w o' = trips_w o ++ [mkTrip (route_id_of tiploc_map t) sid id
                                       (dest_name t) (train_identity t)] /\
     st_w o' = st_w o ++ map (with_trip_id id) (stops t) /\
     trip_service_to_id o' = <[sig := id]> (trip_service_to_id o) /\
     uid_usage_count o' = <[ts_uid t := c + 1]> (uid_usage_count o)).
Proof.
  intros H cs sid sig.
  unfold emit_trip in H. unfold sig, tss_of, route_id_of.
  destruct (route_details tiploc_map t) as [[[[rid rn] rs] rc] rtc] eqn:Hrd.
  cbn [fst snd].
  destruct (get_or_create_service _ _) as [[sid' o2]|] eqn:Hg; cbn in H; [|discriminate].
  apply get_or_create_service_spec in Hg
    as (Hsid & Ht & Hst & Hm & Hu & Hc & Hex & Hnew).
  cbn [trips_w st_w cal_w trip_service_to_id uid_usage_count
       calendar_signature_to_id service_counter] in *.
  assert (sid' = sid) as -> by (rewrite Hsid; reflexivity).
  apply write_trip_spec in H as (Hcw & Hc3 & Hsc & Hsup & Hwr).
  rewrite Hm in Hsup, Hwr. rewrite Hu, Ht, Hst in Hwr.
  split; [rewrite Hc3, Hc; reflexivity|].
  split. { intros Hs. rewrite Hcw, Hsc, (Hex Hs). done. }
  split. { intros Hn. rewrite Hcw, Hsc. exact (Hnew Hn). }
  split. { intros Hs. rewrite (Hsup Hs). auto. }
  intros Hn. exact (Hwr Hn).
Qed.

Ltac emit_spec H :=
  let HS := fresh "HS" in
  pose proof (emit_trip_spec _ _ _ _ _ H) as HS; cbv zeta in HS.

Lemma emit_trip_keys (tiploc_map : gmap ustr ParsedStation) (toc_lookup : gmap ustr ustr)
    (t : TripState) (o o' : Out) :
  emit_trip tiploc_map toc_lookup t o = Some o' ->
  forall sig, is_Some (trip_service_to_id o' !! sig) <->
              is_Some (trip_service_to_id o !! sig) \/ sig = tss_of tiploc_map o t.
Proof.
  intros H sig. emit_spec H. destruct HS as (_ & _ & _ & Hsup & Hwr).
  destruct (trip_service_to_id o !! tss_of tiploc_map o t) eqn:E.
  - destruct (Hsup ltac:(eauto)) as (-> & _).
    split; [auto|]. intros [?| ->]; [done|]. rewrite E; eauto.
  - destruct (Hwr eq_refl) as (_ & _ & -> & _).
    destruct (decide (sig = tss_of tiploc_map o t)) as [->|Hne].
    + rewrite lookup_insert_eq. split; eauto.
    + rewrite lookup_insert_ne by done. split; [auto|]. intros [?|?]; [done|contradiction].
Qed.

Lemma emit_trip_usage (tiploc_map : gmap ustr ParsedStation) (toc_lookup : gmap ustr ustr)
    (t : TripState) (o o' : Out) (uid : ustr) :
  emit_trip tiploc_map toc_lookup t o = Some o' ->
  unwrap_or (uid_usage_count o' !! uid) 0 =
  unwrap_or (uid_usage_count o !! uid) 0 +
  (if bool_decide (trip_service_to_id o !! tss_of tiploc_map o t = None /\ ts_uid t = uid)
   then 1 else 0).
Proof.
  intros H. emit_spec H. destruct HS as (_ & _ & _ & Hsup & Hwr).
  destruct (trip_service_to_id o !! tss_of tiploc_map o t) eqn:E.
  - destruct (Hsup ltac:(eauto)) as (_ & -> & _).
    rewrite bool_decide_false; [lia|]. intros [? _]. discriminate.
  - destruct (Hwr eq_refl) as (_ & _ & _ & ->).
    destruct (decide (ts_uid t = uid)) as [<-|Hne].
    + rewrite lookup_insert_eq, bool_decide_true by done. simpl. lia.
    + rewrite lookup_insert_ne by done. rewrite bool_decide_false; [lia|]. tauto.
Qed.

Lemma uint_digits_inj (d1 d2 : Decimal.uint) : uint_digits d1 = uint_digits d2 -> d1 = d2.
Proof.
  revert d2. induction d1; intros [] H; simpl in H; try discriminate; try reflexivity;
    injection H as H; f_equal; auto.
Qed.

Lemma show_u32_inj (a b : Z) : 0 <= a -> 0 <= b -> show_u32 a = show_u32 b -> a = b.
Proof.
  unfold show_u32. intros Ha Hb H.
  apply uint_digits_inj, DecimalN.Unsigned.to_uint_inj in H. lia.
Qed.

Lemma service_inv_init : service_inv init_out.
Proof.
  unfold service_inv; cbn. split; [|split].
  - intros ? ? H. rewrite lookup_empty in H. discriminate.
  - intros ? ? H. rewrite lookup_empty in H. discriminate.
  - lia.
Qed.

Lemma emit_trip_service_inv (tiploc_map : gmap ustr ParsedStation)
    (toc_lookup : gmap ustr ustr) (t : TripState) (o o' : Out) :
  service_inv o -> emit_trip tiploc_map toc_lookup t o = Some o' -> service_inv o'.
Proof.
  intros (H1 & H2 & H3) H. emit_spec H. destruct HS as (Hc & Hknown & Hnew & Hsup & Hwr).
  assert (Hcs : calendar_signature_to_id o' !! calendar_signature t =
                Some (service_id_for o (calendar_signature t))).
  { rewrite Hc. apply lookup_insert_eq. }
  assert (Hcnt : service_counter o <= service_counter o' /\
          forall cs id, calendar_signature_to_id o' !! cs = Some id ->
            exists k, 0 <= k < service_counter o' /\ id = u "SVC" ++ show_u32 k).
  { destruct (calendar_signature_to_id o !! calendar_signature t) as [id0|] eqn:E.
    - destruct (Hknown ltac:(eauto)) as [Hsc _]. rewrite Hsc. split; [lia|].
      intros cs id Hid. rewrite Hc in Hid.
      destruct (decide (cs = calendar_signature t)) as [->|Hne].
      + rewrite lookup_insert_eq in Hid. injection Hid as <-.
        unfold service_id_for. rewrite E. eapply H2; eauto.
      + rewrite lookup_insert_ne in Hid by done. eapply H2; eauto.
    - destruct (Hnew eq_refl) as [Hsc _]. rewrite Hsc. split; [lia|].
      intros cs id Hid. rewrite Hc in Hid.
      destruct (decide (cs = calendar_signature t)) as [->|Hne].
      + rewrite lookup_insert_eq in Hid. injection Hid as <-.
        exists (service_counter o). unfold service_id_for. rewrite E. split; [lia|done].
      + rewrite lookup_insert_ne in Hid by done.
        destruct (H2 _ _ Hid) as (k & Hk & ->). exists k. split; [lia|done]. }
  destruct Hcnt as [Hle Hids].
  assert (Hmono : forall cs v, calendar_signature_to_id o !! cs = Some v ->
                    calendar_signature_to_id o' !! cs = Some v).
  { intros cs v Hv. rewrite Hc.
    destruct (decide (cs = calendar_signature t)) as [->|Hne].
    - rewrite lookup_insert_eq. unfold service_id_for. rewrite Hv. done.
    - rewrite lookup_insert_ne by done. done. }
  split; [|split; [exact Hids|lia]].
  intros sig id Hsig.
  destruct (trip_service_to_id o !! tss_of tiploc_map o t) eqn:E.
  - destruct (Hsup ltac:(eauto)) as (Hm & _). rewrite Hm in Hsig.
    destruct (H1 _ _ Hsig) as (cs & Hcs'). eauto.
  - destruct (Hwr eq_refl) as (_ & _ & Hm & _). rewrite Hm in Hsig.
    destruct (decide (sig = tss_of tiploc_map o t)) as [->|Hne].
    + exists (calendar_signature t). exact Hcs.
    + rewrite lookup_insert_ne in Hsig by done.
      destruct (H1 _ _ Hsig) as (cs & Hcs'). eauto.
Qed.

Lemma emit_trace_entries (tiploc_map : gmap ustr ParsedStation) (toc_lookup : gmap ustr ustr)
    (P : Out -> Prop) (o : Out) (ts : list TripState) (tr : list (Out * TripState * Out)) :
  (forall t o1 o2, P o1 -> emit_trip tiploc_map toc_lookup t o1 = Some o2 -> P o2) ->
  P o -> emit_trace tiploc_map toc_lookup o ts = Some tr ->
  forall j pre t post, tr !! j = Some (pre, t, post) ->
  P pre /\ emit_trip tiploc_map toc_lookup t pre = Some post.
Proof.
  intros HP. revert o tr. induction ts as [|t0 ts IH]; intros o tr Ho Htr j pre t post Hj;
    simpl in Htr.
  - injection Htr as <-. rewrite lookup_nil in Hj. discriminate.
  - destruct (emit_trip tiploc_map toc_lookup t0 o) as [o1|] eqn:E1; simpl in Htr;
      [|discriminate].
    destruct (emit_trace tiploc_map toc_lookup o1 ts) as [tr'|] eqn:E2; simpl in Htr;
      [|discriminate].
    injection Htr as <-. destruct j as [|j]; simpl in Hj.
    + injection Hj as <- <- <-. split; [exact Ho|exact E1].
    + exact (IH o1 tr' (HP _ _ _ Ho E1) E2 j pre t post Hj).
Qed.

Lemma emit_trace_keys (tiploc_map : gmap ustr ParsedStation) (toc_lookup : gmap ustr ustr)
    (o : Out) (ts : list TripState) (tr : list (Out * TripState * Out)) :
  emit_trace tiploc_map toc_lookup o ts = Some tr ->
  forall (j : nat) pre t post, tr !! j = Some (pre, t, post) ->
  forall sig, is_Some (trip_service_to_id pre !! sig) <->
    is_Some (trip_service_to_id o !! sig) \/
    exists (i : nat) pre' t' post', (i < j)%nat /\ tr !! i = Some (pre', t', post') /\
                            sig = tss_of tiploc_map pre' t'.
Proof.
  revert o tr. induction ts as [|t0 ts IH]; intros o tr Htr j pre t post Hj sig;
    simpl in Htr.
  - injection Htr as <-. rewrite lookup_nil in Hj. discriminate.
  - destruct (emit_trip tiploc_map toc_lookup t0 o) as [o1|] eqn:E1; simpl in Htr;
      [|discriminate].
    destruct (emit_trace tiploc_map toc_lookup o1 ts) as [tr'|] eqn:E2; simpl in Htr;
      [|discriminate].
    injection Htr as <-. destruct j as [|j]; simpl in Hj.
    + injection Hj as <- <- <-. split; [auto|].
      intros [?|(i & ? & ? & ? & Hi & _)]; [done|lia].
    + rewrite (IH o1 tr' E2 j pre t post Hj sig), (emit_trip_keys _ _ _ _ _ E1 sig).
      split.
      * intros [[?| ->]|(i & pre' & t' & post' & Hi & Hl & ->)].
        -- auto.
        -- right. exists 0%nat, o, t0, o1. split; [lia|done].
        -- right. exists (S i), pre', t', post'. split; [lia|done].
      * intros [?|(i & pre' & t' & post' & Hi & Hl & ->)]; [auto|].
        destruct i as [|i]; simpl in Hl.
        -- injection Hl as <- <- <-. auto.
        -- right. exists i, pre', t', post'. split; [lia|done].
Qed.

Lemma emit_trace_usage (tiploc_map : gmap ustr ParsedStation) (toc_lookup : gmap ustr ustr)
    (o : Out) (ts : list TripState) (tr : list (Out * TripState * Out)) :
  emit_trace tiploc_map toc_lookup o ts = Some tr ->
  forall (j : nat) pre t post, tr !! j = Some (pre, t, post) ->
  forall uid, unwrap_or (uid_usage_count pre !! uid) 0 =
              unwrap_or (uid_usage_count o !! uid) 0 +
              Z.of_nat (count_written tiploc_map uid (take j tr)).
Proof.
  revert o tr. induction ts as [|t0 ts IH]; intros o tr Htr j pre t post Hj uid;
    simpl in Htr.
  - injection Htr as <-. rewrite lookup_nil in Hj. discriminate.
  - destruct (emit_trip tiploc_map toc_lookup t0 o) as [o1|] eqn:E1; simpl in Htr;
      [|discriminate].
    destruct (emit_trace tiploc_map toc_lookup o1 ts) as [tr'|] eqn:E2; simpl in Htr;
      [|discriminate].
    injection Htr as <-. destruct j as [|j]; simpl in Hj.
    + injection Hj as <- <- <-. unfold count_written. simpl. lia.
    + rewrite (IH o1 tr' E2 j pre t post Hj uid), (emit_trip_usage _ _ _ _ _ uid E1).
      unfold count_written. simpl.
      destruct (bool_decide _); simpl; lia.
Qed.

Lemma emit_all_trace (tiploc_map : gmap ustr ParsedStation) (toc_lookup : gmap ustr ustr)
    (o o' : Out) (ts : list TripState) :
  emit_all tiploc_map toc_lookup o ts = Some o' ->
  exists tr, emit_trace tiploc_map toc_lookup o ts = Some tr /\
             map (fun e => e.1.2) tr = ts /\ trace_last o tr = o'.
Proof.
  revert o. induction ts as [|t0 ts IH]; intros o H; simpl in H.
  - injection H as <-. exists []. done.
  - destruct (emit_trip tiploc_map toc_lookup t0 o) as [o1|] eqn:E1; simpl in H;
      [|discriminate].
    destruct (IH o1 H) as (tr & Htr & Hm & Hl).
    exists ((o, t0, o1) :: tr). simpl. rewrite E1. simpl. rewrite Htr. simpl.
    rewrite Hm. done.
Qed.

Lemma emit_all_app (tiploc_map : gmap ustr ParsedStation) (toc_lookup : gmap ustr ustr)
    (o : Out) (ts1 ts2 : list TripState) :
  emit_all tiploc_map toc_lookup o (ts1 ++ ts2) =
  o1 ← emit_all tiploc_map toc_lookup o ts1; emit_all tiploc_map toc_lookup o1 ts2.
Proof.
  revert o. induction ts1 as [|t0 ts1 IH]; intros o; simpl; [done|].
  destruct (emit_trip tiploc_map toc_lookup t0 o); simpl; [apply IH|done].
Qed.

Lemma mca_loop_emit (tiploc_map : gmap ustr ParsedStation) (toc_lookup : gmap ustr ustr)
    (lines : list ustr) : forall p o a p' o' a',
  mca_loop tiploc_map toc_lookup p o a lines = Some (p', o', a') ->
  exists ts, finalized tiploc_map p lines = Some ts /\
             emit_all tiploc_map toc_lookup o ts = Some o'.
Proof.
  induction lines as [|line rest IH]; intros p o a p' o' a' H; simpl in H.
  - injection H as <- <- <-. exists []. done.
  - simpl. destruct (mca_step tiploc_map p line) as [[p1 eff]|] eqn:Es; simpl in H |- *;
      [|discriminate].
    destruct eff as [|trip|assoc].
    + destruct (IH _ _ _ _ _ _ H) as (ts & Hf & He). exists ts. rewrite Hf. done.
    + destruct (emit_trip tiploc_map toc_lookup trip o) as [o1|] eqn:E1; simpl in H;
        [|discriminate].
      destruct (IH _ _ _ _ _ _ H) as (ts & Hf & He). exists (trip :: ts).
      rewrite Hf. simpl. rewrite E1. done.
    + destruct (IH _ _ _ _ _ _ H) as (ts & Hf & He). exists ts. rewrite Hf. done.
Qed.

Lemma run_mca_emit (tiploc_map : gmap ustr ParsedStation) (toc_lookup : gmap ustr ustr)
    (files : list (list ustr)) : forall o a o' a',
  run_mca tiploc_map toc_lookup o a files = Some (o', a') ->
  exists ts, finalized_files tiploc_map files = Some ts /\
             emit_all tiploc_map toc_lookup o ts = Some o'.
Proof.
  induction files as [|f fs IH]; intros o a o' a' H; simpl in H.
  - injection H as <- <-. exists []. done.
  - unfold parse_mca in H.
    destruct (mca_loop tiploc_map toc_lookup (None, 0) o a f) as [[[p1 o1] a1]|] eqn:El;
      simpl in H; [|discriminate].
    destruct (mca_loop_emit _ _ _ _ _ _ _ _ _ El) as (ts1 & Hf1 & He1).
    destruct (IH _ _ _ _ H) as (ts2 & Hf2 & He2).
    exists (ts1 ++ ts2). simpl. rewrite Hf1, Hf2. simpl. split; [done|].
    rewrite emit_all_app, He1. simpl. exact He2.
Qed.

(** The whole run decomposes into the parser's finalized trips fed, in
    order, to the consolidation engine. *)
Lemma run_mca_trace (tiploc_map : gmap ustr ParsedStation) (toc_lookup : gmap ustr ustr)
    (files : list (list ustr)) (o : Out) (a : list Association) :
  run_mca tiploc_map toc_lookup init_out [] files = Some (o, a) ->
  exists ts tr, finalized_files tiploc_map files = Some ts /\
                emit_trace tiploc_map toc_lookup init_out ts = Some tr /\
                map (fun e => e.1.2) tr = ts /\ trace_last init_out tr = o.
Proof.
  intros H. destruct (run_mca_emit _ _ _ _ _ _ _ H) as (ts & Hf & He).
  destruct (emit_all_trace _ _ _ _ _ He) as (tr & Htr & Hm & Hl).
  exists ts, tr. done.
Qed.

Lemma emit_trip_cal_keys (tiploc_map : gmap ustr ParsedStation) (toc_lookup : gmap ustr ustr)
    (t : TripState) (o o' : Out) :
  emit_trip tiploc_map toc_lookup t o = Some o' ->
  (forall cs v, calendar_signature_to_id o !! cs = Some v ->
                calendar_signature_to_id o' !! cs = Some v) /\
  calendar_signature_to_id o' !! calendar_signature t =
    Some (service_id_for o (calendar_signature t)) /\
  (forall cs, is_Some (calendar_signature_to_id o' !! cs) <->
              is_Some (calendar_signature_to_id o !! cs) \/ cs = calendar_signature t).
Proof.
  intros H. emit_spec H. destruct HS as (Hc & _). rewrite Hc.
  split; [|split].
  - intros cs v Hv. destruct (decide (cs = calendar_signature t)) as [->|Hne].
    + rewrite lookup_insert_eq. unfold service_id_for. rewrite Hv. done.
    + rewrite lookup_insert_ne by done. done.
  - apply lookup_insert_eq.
  - intros cs. destruct (decide (cs = calendar_signature t)) as [->|Hne].
    + rewrite lookup_insert_eq. split; eauto.
    + rewrite lookup_insert_ne by done. split; [auto|]. intros [?|?]; done.
Qed.

Lemma emit_trace_cal_from_start (tiploc_map : gmap ustr ParsedStation)
    (toc_lookup : gmap ustr ustr) (o : Out) (ts : list TripState)
    (tr : list (Out * TripState * Out)) :
  emit_trace tiploc_map toc_lookup o ts = Some tr ->
  forall (j : nat) pre t post, tr !! j = Some (pre, t, post) ->
  forall cs v, calendar_signature_to_id o !! cs = Some v ->
               calendar_signature_to_id pre !! cs = Some v.
Proof.
  revert o tr. induction ts as [|t0 ts IH]; intros o tr Htr j pre t post Hj cs v Hv;
    simpl in Htr.
  - injection Htr as <-. rewrite lookup_nil in Hj. discriminate.
  - destruct (emit_trip tiploc_map toc_lookup t0 o) as [o1|] eqn:E1; simpl in Htr;
      [|discriminate].
    destruct (emit_trace tiploc_map toc_lookup o1 ts) as [tr'|] eqn:E2; simpl in Htr;
      [|discriminate].
    injection Htr as <-. destruct j as [|j]; simpl in Hj.
    + injection Hj as <- <- <-. exact Hv.
    + apply (IH o1 tr' E2 j pre t post Hj).
      exact (proj1 (emit_trip_cal_keys _ _ _ _ _ E1) cs v Hv).
Qed.

Lemma emit_trace_cal_persist (tiploc_map : gmap ustr ParsedStation)
    (toc_lookup : gmap ustr ustr) (o : Out) (ts : list TripState)
    (tr : list (Out * TripState * Out)) :
  emit_trace tiploc_map toc_lookup o ts = Some tr ->
  forall (i j : nat) pre t post pre' t' post', (i < j)%nat ->
  tr !! i = Some (pre', t', post') -> tr !! j = Some (pre, t, post) ->
  forall cs v, calendar_signature_to_id post' !! cs = Some v ->
               calendar_signature_to_id pre !! cs = Some v.
Proof.
  revert o tr. induction ts as [|t0 ts IH];
    intros o tr Htr i j pre t post pre' t' post' Hij Hi Hj cs v Hv; simpl in Htr.
  - injection Htr as <-. rewrite lookup_nil in Hj. discriminate.
  - destruct (emit_trip tiploc_map toc_lookup t0 o) as [o1|] eqn:E1; simpl in Htr;
      [|discriminate].
    destruct (emit_trace tiploc_map toc_lookup o1 ts) as [tr'|] eqn:E2; simpl in Htr;
      [|discriminate].
    injection Htr as <-. destruct j as [|j]; [lia|]. simpl in Hj.
    destruct i as [|i]; simpl in Hi.
    + injection Hi as <- <- <-.
      exact (emit_trace_cal_from_start _ _ _ _ _ E2 j pre t post Hj cs v Hv).
    + exact (IH o1 tr' E2 i j pre t post pre' t' post' ltac:(lia) Hi Hj cs v Hv).
Qed.

Lemma emit_trace_cal_keys (tiploc_map : gmap ustr ParsedStation)
    (toc_lookup : gmap ustr ustr) (o : Out) (ts : list TripState)
    (tr : list (Out * TripState * Out)) :
  emit_trace tiploc_map toc_lookup o ts = Some tr ->
  forall (j : nat) pre t post, tr !! j = Some (pre, t, post) ->
  forall cs, is_Some (calendar_signature_to_id pre !! cs) <->
    is_Some (calendar_signature_to_id o !! cs) \/
    exists (i : nat) pre' t' post', (i < j)%nat /\ tr !! i = Some (pre', t', post') /\
                            cs = calendar_signature t'.
Proof.
  revert o tr. induction ts as [|t0 ts IH]; intros o tr Htr j pre t post Hj cs;
    simpl in Htr.
  - injection Htr as <-. rewrite lookup_nil in Hj. discriminate.
  - destruct (emit_trip tiploc_map toc_lookup t0 o) as [o1|] eqn:E1; simpl in Htr;
      [|discriminate].
    destruct (emit_trace tiploc_map toc_lookup o1 ts) as [tr'|] eqn:E2; simpl in Htr;
      [|discriminate].
    injection Htr as <-. destruct j as [|j]; simpl in Hj.
    + injection Hj as <- <- <-. split; [auto|].
      intros [?|(i & ? & ? & ? & Hi & _)]; [done|lia].
    + rewrite (IH o1 tr' E2 j pre t post Hj cs),
        (proj2 (proj2 (emit_trip_cal_keys _ _ _ _ _ E1)) cs).
      split.
      * intros [[?| ->]|(i & pre' & t' & post' & Hi & Hl & ->)].
        -- auto.
        -- right. exists 0%nat, o, t0, o1. split; [lia|done].
        -- right. exists (S i), pre', t', post'. split; [lia|done].
      * intros [?|(i & pre' & t' & post' & Hi & Hl & ->)]; [auto|].
        destruct i as [|i]; simpl in Hl.
        -- injection Hl as <- <- <-. auto.
        -- right. exists i, pre', t', post'. split; [lia|done].
Qed.

Lemma count_written_zero (tiploc_map : gmap ustr ParsedStation) (uid : ustr)
    (tr : list (Out * TripState * Out)) (j : nat) :
  count_written tiploc_map uid (take j tr) = 0%nat <->
  forall (i : nat) pre t post, (i < j)%nat -> tr !! i = Some (pre, t, post) ->
    ~ (trip_service_to_id pre !! tss_of tiploc_map pre t = None /\ ts_uid t = uid).
Proof.
  unfold count_written. rewrite length_zero_iff_nil. split.
  - intros H i pre t post Hi Hl HP.
    assert (Hin : In (pre, t, post)
               (List.filter (fun e : Out * TripState * Out =>
                  bool_decide (trip_service_to_id e.1.1 !! tss_of tiploc_map e.1.1 e.1.2 = None
                               /\ ts_uid e.1.2 = uid)) (take j tr))).
    { apply filter_In. split.
      - apply list_elem_of_In, elem_of_take. eauto.
      - apply bool_decide_eq_true. exact HP. }
    rewrite H in Hin. destruct Hin.
  - intros H. destruct (List.filter _ (take j tr)) as [|e l] eqn:E; [done|]. exfalso.
    assert (Hin : In e (e :: l)) by (left; done). rewrite <- E in Hin.
    apply filter_In in Hin as [Hin Hf].
    apply list_elem_of_In, elem_of_take in Hin as (i & Hl & Hi).
    destruct e as [[pre t] post]. apply bool_decide_eq_true in Hf.
    exact (H i pre t post Hi Hl Hf).
Qed.

(** A written trip gets the bare UID exactly when no earlier written trip
    carries that UID. *)
Lemma written_trip_id (tiploc_map : gmap ustr ParsedStation) (toc_lookup : gmap ustr ustr)
    (ts : list TripState) (tr : list (Out * TripState * Out)) :
  emit_trace tiploc_map toc_lookup init_out ts = Some tr ->
  forall (j : nat) pre t post, tr !! j = Some (pre, t, post) ->
  trip_service_to_id pre !! tss_of tiploc_map pre t = None ->
  exists row,
    trips_w post = trips_w pre ++ [row] /\
    st_w post = st_w pre ++ map (with_trip_id (trip_id row)) (stops t) /\
    trip_id row = if Nat.eqb (count_written tiploc_map (ts_uid t) (take j tr)) 0
                  then ts_uid t else suffixed_id t.
Proof.
  intros Htr j pre t post Hj Hn.
  destruct (emit_trace_entries tiploc_map toc_lookup (fun _ => True) init_out ts tr
              ltac:(auto) I Htr j pre t post Hj) as [_ He].
  emit_spec He. destruct HS as (_ & _ & _ & _ & Hwr).
  destruct (Hwr Hn) as (Ht & Hst & _ & _).
  pose proof (emit_trace_usage _ _ _ _ _ Htr j pre t post Hj (ts_uid t)) as Hu.
  change (unwrap_or (uid_usage_count init_out !! ts_uid t) 0) with 0 in Hu.
  rewrite Z.add_0_l in Hu.
  eexists. split; [exact Ht|]. split; [exact Hst|]. cbn [trip_id].
  rewrite Hu. destruct (count_written tiploc_map (ts_uid t) (take j tr)); reflexivity.
Qed.

Lemma suffixed_id_ne (t : TripState) : suffixed_id t <> ts_uid t.
Proof.
  unfold suffixed_id. intros H.
  apply (f_equal length) in H. rewrite length_app in H. simpl in H. lia.
Qed.

(** On [uid_lines] the second finalized trip (the first with UID Y00002)
    is a duplicate of the first one and is suppressed, so the bare id
    Y00002 goes to the third finalized trip, whose stops differ. *)
Lemma run_uid_lines_some : is_Some (run_mca demo_stations ∅ init_out [] [uid_lines]).
Proof. apply (bool_decide_eq_true (is_Some _)). vm_refl. Qed.

Lemma uid_lines_outcome :
  finalized_files demo_stations [uid_lines] = Some uid_trips /\
  map ts_uid uid_trips = [u "X00001"; u "Y00002"; u "Y00002"] /\
  option_map (fun r => map trip_id (trips_w r.1))
    (run_mca demo_stations ∅ init_out [] [uid_lines]) = Some [u "X00001"; u "Y00002"] /\
  exists t1 t2, uid_trips !! 1%nat = Some t1 /\ uid_trips !! 2%nat = Some t2 /\
    option_map (fun r => stop_rows_of (u "Y00002") r.1)
      (run_mca demo_stations ∅ init_out [] [uid_lines]) =
      Some (map (with_trip_id (u "Y00002")) (stops t2)) /\
    map (with_trip_id (u "Y00002")) (stops t1) <> map (with_trip_id (u "Y00002")) (stops t2).
Proof.
  split; [vm_refl|]. split; [vm_refl|]. split; [vm_refl|].
  eexists _, _. split; [reflexivity|]. split; [reflexivity|]. split; [vm_refl|].
  vm_compute. discriminate.
Qed.

Lemma init_out_no_keys (sig : TripServiceSignature) :
  ~ is_Some (trip_service_to_id init_out !! sig).
Proof. cbn [trip_service_to_id init_out]. rewrite lookup_empty. by intros [? ?]. Qed.

(** ** Claims *)

(** C1: over a whole run, a finalized trip whose composite trip+service
    signature (route id, stop pattern, headsign, short train identity,
    resolved service id) has not occurred for an earlier finalized trip
    appends exactly one trips row and its stop rows; a trip whose signature
    equals an earlier one writes neither a trips row nor stop rows. *)
Theorem duplicate_signature_emitted_once
    (tiploc_map : gmap ustr ParsedStation) (toc_lookup : gmap ustr ustr)
    (files : list (list ustr)) (o : Out) (a : list Association) :
  run_mca tiploc_map toc_lookup init_out [] files = Some (o, a) ->
  exists ts tr,
    finalized_files tiploc_map files = Some ts /\
    map (fun e => e.1.2) tr = ts /\ trace_last init_out tr = o /\
    forall (j : nat) pre t post, tr !! j = Some (pre, t, post) ->
      ((forall (i : nat) pre' t' post', (i < j)%nat -> tr !! i = Some (pre', t', post') ->
          tss_of tiploc_map pre' t' <> tss_of tiploc_map pre t) ->
       exists row, trips_w post = trips_w pre ++ [row] /\
                   st_w post = st_w pre ++ map (with_trip_id (trip_id row)) (stops t)) /\
      (forall (i : nat) pre' t' post', (i < j)%nat -> tr !! i = Some (pre', t', post') ->
          tss_of tiploc_map pre' t' = tss_of tiploc_map pre t ->
       trips_w post = trips_w pre /\ st_w post = st_w pre).
Proof.
  intros H. destruct (run_mca_trace _ _ _ _ _ H) as (ts & tr & Hf & Htr & Hm & Hl).
  exists ts, tr. split; [done|]. split; [done|]. split; [done|].
  intros j pre t post Hj.
  pose proof (emit_trace_keys _ _ _ _ _ Htr j pre t post Hj (tss_of tiploc_map pre t)) as Hk.
  destruct (emit_trace_entries tiploc_map toc_lookup (fun _ => True) init_out ts tr
              ltac:(auto) I Htr j pre t post Hj) as [_ He].
  emit_spec He. destruct HS as (_ & _ & _ & Hsup & Hwr). split.
  - intros Hno.
    assert (Hn : trip_service_to_id pre !! tss_of tiploc_map pre t = None).
    { apply eq_None_not_Some. intros Hs. apply Hk in Hs as [Hs|(i & pre' & t' & post' & Hi & Hi' & Heq)].
      - exact (init_out_no_keys _ Hs).
      - exact (Hno i pre' t' post' Hi Hi' (eq_sym Heq)). }
    destruct (Hwr Hn) as (Ht & Hst & _ & _).
    eexists. split; [exact Ht|]. exact Hst.
  - intros i pre' t' post' Hi Hi' Heq.
    assert (Hs : is_Some (trip_service_to_id pre !! tss_of tiploc_map pre t)).
    { apply Hk. right. exists i, pre', t', post'. auto. }
    destruct (Hsup Hs) as (_ & _ & ? & ?). auto.
Qed.

Lemma duplicate_signature_emitted_once_witness :
  exists o a, run_mca demo_stations ∅ init_out [] [uid_lines] = Some (o, a) /\
  exists ts tr,
    finalized_files demo_stations [uid_lines] = Some ts /\
    map (fun e => e.1.2) tr = ts /\ trace_last init_out tr = o /\
    forall (j : nat) pre t post, tr !! j = Some (pre, t, post) ->
      ((forall (i : nat) pre' t' post', (i < j)%nat -> tr !! i = Some (pre', t', post') ->
          tss_of demo_stations pre' t' <> tss_of demo_stations pre t) ->
       exists row, trips_w post = trips_w pre ++ [row] /\
                   st_w post = st_w pre ++ map (with_trip_id (trip_id row)) (stops t)) /\
      (forall (i : nat) pre' t' post', (i < j)%nat -> tr !! i = Some (pre', t', post') ->
          tss_of demo_stations pre' t' = tss_of demo_stations pre t ->
       trips_w post = trips_w pre /\ st_w post = st_w pre).
Proof.
  destruct run_uid_lines_some as [[o a] E]. exists o, a. split; [exact E|].
  exact (duplicate_signature_emitted_once demo_stations ∅ [uid_lines] o a E).
Defined.

(** C2 (as stated, refuted): on [uid_lines] the first finalized trip with
    UID Y00002 is the second one, but the stop rows written under the bare
    id Y00002 are not its stops: that trip was suppressed as a duplicate of
    the X00001 trip, and the bare id went to the third finalized trip. *)
Lemma bare_uid_first_finalized_counterexample :
  finalized_files demo_stations [uid_lines] = Some uid_trips /\
  map ts_uid uid_trips = [u "X00001"; u "Y00002"; u "Y00002"] /\
  option_map (fun r => map trip_id (trips_w r.1))
    (run_mca demo_stations ∅ init_out [] [uid_lines]) = Some [u "X00001"; u "Y00002"] /\
  exists t1 t2, uid_trips !! 1%nat = Some t1 /\ uid_trips !! 2%nat = Some t2 /\
    option_map (fun r => stop_rows_of (u "Y00002") r.1)
      (run_mca demo_stations ∅ init_out [] [uid_lines]) =
      Some (map (with_trip_id (u "Y00002")) (stops t2)) /\
    map (with_trip_id (u "Y00002")) (stops t1) <> map (with_trip_id (u "Y00002")) (stops t2).
Proof. exact uid_lines_outcome. Qed.

(** C2 (amended): over a whole run, a written (non-suppressed) trip gets
    the bare UID as its trip id when no earlier written trip carries the
    same UID, and the id suffixed with its start date and revision
    indicator, which differs from the bare UID, otherwise. *)
Theorem bare_uid_first_written
    (tiploc_map : gmap ustr ParsedStation) (toc_lookup : gmap ustr ustr)
    (files : list (list ustr)) (o : Out) (a : list Association) :
  run_mca tiploc_map toc_lookup init_out [] files = Some (o, a) ->
  exists ts tr,
    finalized_files tiploc_map files = Some ts /\
    map (fun e => e.1.2) tr = ts /\ trace_last init_out tr = o /\
    forall (j : nat) pre t post, tr !! j = Some (pre, t, post) ->
      trip_service_to_id pre !! tss_of tiploc_map pre t = None ->
      exists row,
        trips_w post = trips_w pre ++ [row] /\
        st_w post = st_w pre ++ map (with_trip_id (trip_id row)) (stops t) /\
        ((forall (i : nat) pre' t' post', (i < j)%nat -> tr !! i = Some (pre', t', post') ->
            ~ (trip_service_to_id pre' !! tss_of tiploc_map pre' t' = None /\
               ts_uid t' = ts_uid t)) ->
         trip_id row = ts_uid t) /\
        ((exists (i : nat) pre' t' post', (i < j)%nat /\ tr !! i = Some (pre', t', post') /\
            trip_service_to_id pre' !! tss_of tiploc_map pre' t' = None /\
            ts_uid t' = ts_uid t) ->
         trip_id row = suffixed_id t /\ trip_id row <> ts_uid t).
Proof.
  intros H. destruct (run_mca_trace _ _ _ _ _ H) as (ts & tr & Hf & Htr & Hm & Hl).
  exists ts, tr. split; [done|]. split; [done|]. split; [done|].
  intros j pre t post Hj Hn.
  destruct (written_trip_id _ _ _ _ Htr j pre t post Hj Hn) as (row & Ht & Hst & Hid).
  exists row. split; [done|]. split; [done|]. split.
  - intros Hno. apply count_written_zero in Hno. rewrite Hno in Hid. exact Hid.
  - intros (i & pre' & t' & post' & Hi & Hi' & Hw & Hu).
    destruct (Nat.eqb_spec (count_written tiploc_map (ts_uid t) (take j tr)) 0) as [Hz|Hz].
    + exfalso.
      exact (proj1 (count_written_zero tiploc_map (ts_uid t) tr j) Hz
               i pre' t' post' Hi Hi' (conj Hw Hu)).
    + rewrite Hid. split; [reflexivity|]. apply suffixed_id_ne.
Qed.

Lemma bare_uid_first_written_witness :
  exists o a, run_mca demo_stations ∅ init_out [] [uid_lines] = Some (o, a) /\
  exists ts tr,
    finalized_files demo_stations [uid_lines] = Some ts /\
    map (fun e => e.1.2) tr = ts /\ trace_last init_out tr = o /\
    forall (j : nat) pre t post, tr !! j = Some (pre, t, post) ->
      trip_service_to_id pre !! tss_of demo_stations pre t = None ->
      exists row,
        trips_w post = trips_w pre ++ [row] /\
        st_w post = st_w pre ++ map (with_trip_id (trip_id row)) (stops t) /\
        ((forall (i : nat) pre' t' post', (i < j)%nat -> tr !! i = Some (pre', t', post') ->
            ~ (trip_service_to_id pre' !! tss_of demo_stations pre' t' = None /\
               ts_uid t' = ts_uid t)) ->
         trip_id row = ts_uid t) /\
        ((exists (i : nat) pre' t' post', (i < j)%nat /\ tr !! i = Some (pre', t', post') /\
            trip_service_to_id pre' !! tss_of demo_stations pre' t' = None /\
            ts_uid t' = ts_uid t) ->
         trip_id row = suffixed_id t /\ trip_id row <> ts_uid t).
Proof.
  destruct run_uid_lines_some as [[o a] E]. exists o, a. split; [exact E|].
  exact (bare_uid_first_written demo_stations ∅ [uid_lines] o a E).
Defined.

(** A suppressed trip leaves the consolidation state as it was: its
    trip+service key is known, so (by [service_inv]) its calendar
    signature is already known as well. *)
Lemma suppressed_step_noop (tiploc_map : gmap ustr ParsedStation)
    (toc_lookup : gmap ustr ustr) (t : TripState) (pre post : Out) :
  service_inv pre -> emit_trip tiploc_map toc_lookup t pre = Some post ->
  is_Some (trip_service_to_id pre !! tss_of tiploc_map pre t) ->
  trip_service_to_id post = trip_service_to_id pre /\
  uid_usage_count post = uid_usage_count pre /\
  service_counter post = service_counter pre /\
  calendar_signature_to_id post = calendar_signature_to_id pre /\
  cal_w post = cal_w pre /\ trips_w post = trips_w pre /\ st_w post = st_w pre.
Proof.
  intros (H1 & H2 & H3) He Hs.
  emit_spec He. destruct HS as (Hc & Hknown & _ & Hsup & _).
  destruct (Hsup Hs) as (Hm & Hu & Ht & Hst).
  destruct Hs as [id Hid]. destruct (H1 _ _ Hid) as [cs' Hcs'].
  assert (Hk : is_Some (calendar_signature_to_id pre !! calendar_signature t)).
  { destruct (calendar_signature_to_id pre !! calendar_signature t) as [v|] eqn:E; [eauto|].
    exfalso. cbn in Hcs'. unfold service_id_for in Hcs'. rewrite E in Hcs'.
    destruct (H2 _ _ Hcs') as (k & Hk & Heq).
    apply app_inv_head, show_u32_inj in Heq; lia. }
  destruct (Hknown Hk) as [Hsc Hcw].
  destruct Hk as [v Hv].
  repeat split; try assumption.
  rewrite Hc. unfold service_id_for. rewrite Hv. by apply insert_id.
Qed.

(** C10: over a whole run, a finalized trip suppressed as a duplicate
    leaves the trip+service map, the UID usage counters, the service
    counter, the calendar map and the written calendar, trips and stop rows
    as they were, and does not count as a use of its UID; on [uid_lines]
    this makes the bare id Y00002 go to the third finalized trip, not to the
    first one carrying that UID. *)
Theorem suppressed_duplicate_no_state_change
    (tiploc_map : gmap ustr ParsedStation) (toc_lookup : gmap ustr ustr)
    (files : list (list ustr)) (o : Out) (a : list Association) :
  run_mca tiploc_map toc_lookup init_out [] files = Some (o, a) ->
  (exists ts tr,
    finalized_files tiploc_map files = Some ts /\
    map (fun e => e.1.2) tr = ts /\ trace_last init_out tr = o /\
    forall (j : nat) pre t post, tr !! j = Some (pre, t, post) ->
      is_Some (trip_service_to_id pre !! tss_of tiploc_map pre t) ->
      trip_service_to_id post = trip_service_to_id pre /\
      uid_usage_count post = uid_usage_count pre /\
      service_counter post = service_counter pre /\
      calendar_signature_to_id post = calendar_signature_to_id pre /\
      cal_w post = cal_w pre /\ trips_w post = trips_w pre /\ st_w post = st_w pre /\
      count_written tiploc_map (ts_uid t) (take (S j) tr) =
        count_written tiploc_map (ts_uid t) (take j tr)) /\
  map ts_uid uid_trips = [u "X00001"; u "Y00002"; u "Y00002"] /\
  option_map (fun r => map trip_id (trips_w r.1))
    (run_mca demo_stations ∅ init_out [] [uid_lines]) = Some [u "X00001"; u "Y00002"] /\
  exists t1 t2, uid_trips !! 1%nat = Some t1 /\ uid_trips !! 2%nat = Some t2 /\
    option_map (fun r => stop_rows_of (u "Y00002") r.1)
      (run_mca demo_stations ∅ init_out [] [uid_lines]) =
      Some (map (with_trip_id (u "Y00002")) (stops t2)) /\
    map (with_trip_id (u "Y00002")) (stops t1) <> map (with_trip_id (u "Y00002")) (stops t2).
Proof.
  intros H. split.
  - destruct (run_mca_trace _ _ _ _ _ H) as (ts & tr & Hf & Htr & Hm & Hl).
    exists ts, tr. split; [done|]. split; [done|]. split; [done|].
    intros j pre t post Hj Hs.
    destruct (emit_trace_entries tiploc_map toc_lookup service_inv init_out ts tr
                (emit_trip_service_inv tiploc_map toc_lookup) service_inv_init Htr
                j pre t post Hj) as [Hinv He].
    destruct (suppressed_step_noop _ _ _ _ _ Hinv He Hs) as (? & ? & ? & ? & ? & ? & ?).
    repeat split; try assumption.
    unfold count_written. rewrite (take_S_r _ _ _ Hj), List.filter_app, length_app.
    cbn [List.filter fst snd]. rewrite bool_decide_false; [simpl; lia|].
    intros [Hn _]. rewrite Hn in Hs. by destruct Hs.
  - exact (proj2 uid_lines_outcome).
Qed.

Lemma suppressed_duplicate_no_state_change_witness :
  exists o a, run_mca demo_stations ∅ init_out [] [uid_lines] = Some (o, a) /\
  (exists ts tr,
    finalized_files demo_stations [uid_lines] = Some ts /\
    map (fun e => e.1.2) tr = ts /\ trace_last init_out tr = o /\
    forall (j : nat) pre t post, tr !! j = Some (pre, t, post) ->
      is_Some (trip_service_to_id pre !! tss_of demo_stations pre t) ->
      trip_service_to_id post = trip_service_to_id pre /\
      uid_usage_count post = uid_usage_count pre /\
      service_counter post = service_counter pre /\
      calendar_signature_to_id post = calendar_signature_to_id pre /\
      cal_w post = cal_w pre /\ trips_w post = trips_w pre /\ st_w post = st_w pre /\
      count_written demo_stations (ts_uid t) (take (S j) tr) =
        count_written demo_stations (ts_uid t) (take j tr)) /\
  map ts_uid uid_trips = [u "X00001"; u "Y00002"; u "Y00002"] /\
  option_map (fun r => map trip_id (trips_w r.1))
    (run_mca demo_stations ∅ init_out [] [uid_lines]) = Some [u "X00001"; u "Y00002"] /\
  exists t1 t2, uid_trips !! 1%nat = Some t1 /\ uid_trips !! 2%nat = Some t2 /\
    option_map (fun r => stop_rows_of (u "Y00002") r.1)
      (run_mca demo_stations ∅ init_out [] [uid_lines]) =
      Some (map (with_trip_id (u "Y00002")) (stops t2)) /\
    map (with_trip_id (u "Y00002")) (stops t1) <> map (with_trip_id (u "Y00002")) (stops t2).
Proof.
  destruct run_uid_lines_some as [[o a] E]. exists o, a. split; [exact E|].
  exact (suppressed_duplicate_no_state_change demo_stations ∅ [uid_lines] o a E).
Defined.

(** C3: over a whole run (service counter starting at 0), a finalized trip
    whose calendar signature (day pattern, start and end date) no earlier
    finalized trip had allocates the id [SVC<counter>], increments the
    counter and writes exactly one calendar row; a trip whose calendar
    signature an earlier trip had reuses that trip's service id and leaves
    the counter, the calendar map and the calendar rows unchanged. Either
    way the signature is then mapped to the trip's service id, and a trips
    row written for the trip carries it. *)
Theorem calendar_signature_dedup
    (tiploc_map : gmap ustr ParsedStation) (toc_lookup : gmap ustr ustr)
    (files : list (list ustr)) (o : Out) (a : list Association) :
  run_mca tiploc_map toc_lookup init_out [] files = Some (o, a) ->
  service_counter init_out = 0 /\
  exists ts tr,
    finalized_files tiploc_map files = Some ts /\
    map (fun e => e.1.2) tr = ts /\ trace_last init_out tr = o /\
    forall (j : nat) pre t post, tr !! j = Some (pre, t, post) ->
      let cs := calendar_signature t in
      calendar_signature_to_id post !! cs = Some (service_id_for pre cs) /\
      (trips_w post = trips_w pre \/
       exists row, trips_w post = trips_w pre ++ [row] /\
                   trip_service_id row = service_id_for pre cs) /\
      ((forall (i : nat) pre' t' post', (i < j)%nat -> tr !! i = Some (pre', t', post') ->
          calendar_signature t' <> cs) ->
       service_id_for pre cs = u "SVC" ++ show_u32 (service_counter pre) /\
       service_counter post = service_counter pre + 1 /\
       calendar_signature_to_id post =
         <[cs := service_id_for pre cs]> (calendar_signature_to_id pre) /\
       cal_w post = cal_w pre ++
         [mkCalendar (service_id_for pre cs) (monday cs) (tuesday cs) (wednesday cs)
            (thursday cs) (friday cs) (saturday cs) (sunday cs)
            (start_date cs) (end_date cs)]) /\
      (forall (i : nat) pre' t' post', (i < j)%nat -> tr !! i = Some (pre', t', post') ->
          calendar_signature t' = cs ->
       service_id_for pre cs = service_id_for pre' cs /\
       service_counter post = service_counter pre /\
       calendar_signature_to_id post = calendar_signature_to_id pre /\
       cal_w post = cal_w pre).
Proof.
  intros H. split; [reflexivity|].
  destruct (run_mca_trace _ _ _ _ _ H) as (ts & tr & Hf & Htr & Hm & Hl).
  exists ts, tr. split; [done|]. split; [done|]. split; [done|].
  intros j pre t post Hj cs.
  destruct (emit_trace_entries tiploc_map toc_lookup (fun _ => True) init_out ts tr
              ltac:(auto) I Htr j pre t post Hj) as [_ He].
  pose proof (emit_trip_cal_keys _ _ _ _ _ He) as (_ & Hpost & _).
  emit_spec He. destruct HS as (Hc & Hknown & Hnew & Hsup & Hwr).
  split; [exact Hpost|]. split; [|split].
  - destruct (trip_service_to_id pre !! tss_of tiploc_map pre t) eqn:E.
    + left. exact (proj1 (proj2 (proj2 (Hsup ltac:(eauto))))).
    + right. destruct (Hwr eq_refl) as (Ht & _). eexists. split; [exact Ht|reflexivity].
  - intros Hno.
    assert (Hn : calendar_signature_to_id pre !! cs = None).
    { apply eq_None_not_Some. intros Hs.
      apply (emit_trace_cal_keys _ _ _ _ _ Htr j pre t post Hj cs) in Hs
        as [Hs|(i & pre' & t' & post' & Hi & Hi' & Heq)].
      - cbn [calendar_signature_to_id init_out] in Hs. rewrite lookup_empty in Hs.
        by destruct Hs.
      - exact (Hno i pre' t' post' Hi Hi' (eq_sym Heq)). }
    destruct (Hnew Hn) as [Hsc Hcw].
    split; [unfold service_id_for; rewrite Hn; reflexivity|]. auto.
  - intros i pre' t' post' Hi Hi' Heq.
    destruct (emit_trace_entries tiploc_map toc_lookup (fun _ => True) init_out ts tr
                ltac:(auto) I Htr i pre' t' post' Hi') as [_ He'].
    pose proof (emit_trip_cal_keys _ _ _ _ _ He') as (_ & Hpost' & _).
    rewrite Heq in Hpost'.
    pose proof (emit_trace_cal_persist _ _ _ _ _ Htr i j pre t post pre' t' post'
                  Hi Hi' Hj cs _ Hpost') as Hpre.
    destruct (Hknown ltac:(eauto)) as [Hsc Hcw].
    assert (Hsid : service_id_for pre cs = service_id_for pre' cs)
      by (unfold service_id_for at 1; rewrite Hpre; reflexivity).
    split; [exact Hsid|]. split; [exact Hsc|]. split; [|exact Hcw].
    rewrite Hc. fold cs. rewrite Hsid. by apply insert_id.
Qed.

Lemma calendar_signature_dedup_witness :
  exists o a, run_mca demo_stations ∅ init_out [] [uid_lines] = Some (o, a) /\
  service_counter init_out = 0 /\
  exists ts tr,
    finalized_files demo_stations [uid_lines] = Some ts /\
    map (fun e => e.1.2) tr = ts /\ trace_last init_out tr = o /\
    forall (j : nat) pre t post, tr !! j = Some (pre, t, post) ->
      let cs := calendar_signature t in
      calendar_signature_to_id post !! cs = Some (service_id_for pre cs) /\
      (trips_w post = trips_w pre \/
       exists row, trips_w post = trips_w pre ++ [row] /\
                   trip_service_id row = service_id_for pre cs) /\
      ((forall (i : nat) pre' t' post', (i < j)%nat -> tr !! i = Some (pre', t', post') ->
          calendar_signature t' <> cs) ->
       service_id_for pre cs = u "SVC" ++ show_u32 (service_counter pre) /\
       service_counter post = service_counter pre + 1 /\
       calendar_signature_to_id post =
         <[cs := service_id_for pre cs]> (calendar_signature_to_id pre) /\
       cal_w post = cal_w pre ++
         [mkCalendar (service_id_for pre cs) (monday cs) (tuesday cs) (wednesday cs)
            (thursday cs) (friday cs) (saturday cs) (sunday cs)
            (start_date cs) (end_date cs)]) /\
      (forall (i : nat) pre' t' post', (i < j)%nat -> tr !! i = Some (pre', t', post') ->
          calendar_signature t' = cs ->
       service_id_for pre cs = service_id_for pre' cs /\
       service_counter post = service_counter pre /\
       calendar_signature_to_id post = calendar_signature_to_id pre /\
       cal_w post = cal_w pre).
Proof.
  destruct run_uid_lines_some as [[o a] E]. exists o, a. split; [exact E|].
  exact (calendar_signature_dedup demo_stations ∅ [uid_lines] o a E).
Defined.

(** ** The record parser *)

(** With no open trip, a line that is not a non-cancelled "BS" record
    leaves the parser idle and finalizes nothing. *)
Lemma mca_step_idle (tiploc_map : gmap ustr ParsedStation) (p p' : pstate) (line : ustr)
    (eff : effect) :
  p.1 = None ->
  (str_get line 0 2 = Some (u "BS") -> unwrap_or (str_get line 79 80) (u "P") = u "C") ->
  mca_step tiploc_map p line = Some (p', eff) ->
  p'.1 = None /\ (eff = NoEffect \/ exists a, eff = EmitAssoc a).
Proof.
  destruct p as [ot k]. cbn [fst]. intros -> Hbs H.
  unfold mca_step in H.
  destruct (byte_len line <? 2); [injection H as <- <-; auto|].
  destruct (str_get line 0 2) as [rt|] eqn:Hrt; [|discriminate]. simpl in H.
  destruct (str_eqb rt (u "BS")) eqn:Ebs.
  { apply str_eqb_true in Ebs as ->. specialize (Hbs eq_refl).
    unfold step_bs in H. cbv zeta in H. rewrite Hbs in H.
    rewrite (proj2 (str_eqb_true (u "C") (u "C")) eq_refl) in H.
    injection H as <- <-. auto. }
  unfold step_bx, step_lo, step_li, step_lt in H. cbn [fst] in H. simpl in H.
  repeat match type of H with
  | context [if ?b then _ else _] => destruct b
  end;
  injection H as <- <-; eauto.
Qed.

Lemma mca_loop_idle (tiploc_map : gmap ustr ParsedStation) (toc_lookup : gmap ustr ustr)
    (lines : list ustr) (p p' : pstate) (o o' : Out) (aw aw' : list Association) :
  p.1 = None ->
  Forall (fun l => str_get l 0 2 = Some (u "BS") ->
                   unwrap_or (str_get l 79 80) (u "P") = u "C") lines ->
  mca_loop tiploc_map toc_lookup p o aw lines = Some (p', o', aw') ->
  p'.1 = None /\ o' = o.
Proof.
  revert p aw. induction lines as [|l lines IH]; intros p aw Hp Hf H; simpl in H.
  - injection H as <- <- <-. auto.
  - inversion Hf as [|? ? Hl Hf']; subst.
    destruct (mca_step tiploc_map p l) as [[p1 eff]|] eqn:Es; [|discriminate].
    simpl in H.
    destruct (mca_step_idle _ _ _ _ _ Hp Hl Es) as [Hp1 [->|[a ->]]].
    + exact (IH p1 aw Hp1 Hf' H).
    + exact (IH p1 _ Hp1 Hf' H).
Qed.

(** C5: a "BS" record whose revision indicator is "C" makes the parser
    idle, dropping any open trip; if no later record is a non-cancelled
    "BS", the rest of the file ends idle and writes nothing to the trips,
    stop times, calendar, agency or route output (only associations may
    be added). *)
Theorem cancelled_bs_discards_trip
    (tiploc_map : gmap ustr ParsedStation) (toc_lookup : gmap ustr ustr)
    (line : ustr) (rest : list ustr) (p p' : pstate) (o o' : Out)
    (aw aw' : list Association) :
  str_get line 0 2 = Some (u "BS") ->
  unwrap_or (str_get line 79 80) (u "P") = u "C" ->
  Forall (fun l => str_get l 0 2 = Some (u "BS") ->
                   unwrap_or (str_get l 79 80) (u "P") = u "C") rest ->
  mca_loop tiploc_map toc_lookup p o aw (line :: rest) = Some (p', o', aw') ->
  mca_step tiploc_map p line = Some ((None, p.2), NoEffect) /\
  p'.1 = None /\ o' = o.
Proof.
  intros Hrt Hc Hf H.
  assert (Hs : mca_step tiploc_map p line = Some ((None, p.2), NoEffect)).
  { rewrite (mca_step_record _ _ _ _ Hrt).
    rewrite (proj2 (str_eqb_true (u "BS") (u "BS")) eq_refl).
    unfold step_bs. cbv zeta. rewrite Hc.
    rewrite (proj2 (str_eqb_true (u "C") (u "C")) eq_refl). reflexivity. }
  split; [exact Hs|].
  simpl in H. rewrite Hs in H. simpl in H.
  exact (mca_loop_idle _ _ _ (None, p.2) _ _ _ _ _ eq_refl Hf H).
Qed.

Lemma cancelled_bs_discards_trip_witness :
  is_Some open_state.1 /\
  str_get cancel_bs 0 2 = Some (u "BS") /\
  unwrap_or (str_get cancel_bs 79 80) (u "P") = u "C" /\
  Forall (fun l => str_get l 0 2 = Some (u "BS") ->
                   unwrap_or (str_get l 79 80) (u "P") = u "C") cancel_rest /\
  mca_loop demo_stations ∅ open_state init_out [] (cancel_bs :: cancel_rest) =
    Some (cancel_run.1.1, cancel_run.1.2, cancel_run.2) /\
  mca_step demo_stations open_state cancel_bs = Some ((None, open_state.2), NoEffect) /\
  cancel_run.1.1.1 = None /\ cancel_run.1.2 = init_out.
Proof.
  assert (Hf : Forall (fun l => str_get l 0 2 = Some (u "BS") ->
                   unwrap_or (str_get l 79 80) (u "P") = u "C") cancel_rest).
  { constructor; [|constructor]. intros H. vm_compute in H. discriminate. }
  assert (Hr : mca_loop demo_stations ∅ open_state init_out [] (cancel_bs :: cancel_rest) =
    Some (cancel_run.1.1, cancel_run.1.2, cancel_run.2)) by vm_refl.
  split; [vm_compute; eauto|].
  split; [vm_refl|]. split; [vm_refl|]. split; [exact Hf|]. split; [exact Hr|].
  apply (cancelled_bs_discards_trip demo_stations ∅ cancel_bs cancel_rest open_state
           cancel_run.1.1 init_out cancel_run.1.2 [] cancel_run.2); [vm_refl|vm_refl|exact Hf|exact Hr].
Defined.

(** C6: with a trip open, an "LI" record whose public arrival and public
    departure fields are both "0000" leaves the parser state unchanged,
    whether or not its location resolves; otherwise its stop is appended
    (with the current sequence number, which is then incremented) if its
    location is in the station map, and the state is unchanged if not. *)
Theorem li_stop_filter (tiploc_map : gmap ustr ParsedStation) (p p' : pstate)
    (trip : TripState) (line : ustr) (eff : effect) :
  str_get line 0 2 = Some (u "LI") -> p.1 = Some trip ->
  mca_step tiploc_map p line = Some (p', eff) ->
  let tiploc := trim (unwrap_or (str_get line 2 9) []) in
  let pub_arr := unwrap_or (str_get line 25 29) (u "0000") in
  let pub_dep := unwrap_or (str_get line 29 33) (u "0000") in
  eff = NoEffect /\
  (pub_arr = u "0000" /\ pub_dep = u "0000" -> p' = p) /\
  (~ (pub_arr = u "0000" /\ pub_dep = u "0000") ->
   (tiploc_map !! tiploc = None -> p' = p) /\
   (is_Some (tiploc_map !! tiploc) ->
    exists arr dep,
      format_time (unwrap_or (str_get line 10 15) (u "00000")) = Some arr /\
      format_time (unwrap_or (str_get line 15 20) (u "00000")) = Some dep /\
      p' = (Some (push_stop trip (mkStopTime PLACEHOLDER_TRIP_ID arr dep tiploc p.2)),
            p.2 + 1))).
Proof.
  intros Hrt Hp H tiploc pub_arr pub_dep.
  rewrite (mca_step_record _ _ _ _ Hrt) in H.
  replace (str_eqb (u "LI") (u "BS")) with false in H by reflexivity.
  replace (str_eqb (u "LI") (u "BX")) with false in H by reflexivity.
  replace (str_eqb (u "LI") (u "LO")) with false in H by reflexivity.
  replace (str_eqb (u "LI") (u "LI")) with true in H by reflexivity.
  destruct (step_li tiploc_map line p) as [p1|] eqn:Hli; simpl in H; [|discriminate].
  injection H as -> <-. split; [reflexivity|].
  unfold step_li in Hli. rewrite Hp in Hli. fold tiploc pub_arr pub_dep in Hli.
  destruct (format_time (unwrap_or (str_get line 10 15) (u "00000"))) as [arr|] eqn:Ea;
    simpl in Hli; [|discriminate].
  destruct (format_time (unwrap_or (str_get line 15 20) (u "00000"))) as [dep|] eqn:Ed;
    simpl in Hli; [|discriminate].
  destruct (str_eqb pub_arr (u "0000") && str_eqb pub_dep (u "0000")) eqn:Ez.
  - apply andb_true_iff in Ez as [Ez1 Ez2].
    apply str_eqb_true in Ez1, Ez2. injection Hli as <-.
    split; [auto|]. intros Hn. exfalso. exact (Hn (conj Ez1 Ez2)).
  - split.
    { intros [Ez1 Ez2]. apply str_eqb_true in Ez1, Ez2. rewrite Ez1, Ez2 in Ez.
      discriminate. }
    intros _. destruct (decide (is_Some (tiploc_map !! tiploc))) as [Hs|Hn].
    + unfold u32_incr in Hli. destruct (p.2 + 1 <=? u32_max); [|discriminate].
      injection Hli as <-. split.
      * intros He. rewrite He in Hs. by destruct Hs.
      * intros _. exists arr, dep. auto.
    + injection Hli as <-. split; [auto|]. intros Hs. contradiction.
Qed.

Lemma li_stop_filter_witness :
  str_get li_line 0 2 = Some (u "LI") /\
  open_state.1 = Some (unwrap_or open_state.1 (mkTripState [] [] [] [] [] [] [] [] [] [])) /\
  mca_step demo_stations open_state li_line = Some (li_step.1, li_step.2) /\
  let tiploc := trim (unwrap_or (str_get li_line 2 9) []) in
  let pub_arr := unwrap_or (str_get li_line 25 29) (u "0000") in
  let pub_dep := unwrap_or (str_get li_line 29 33) (u "0000") in
  li_step.2 = NoEffect /\
  (pub_arr = u "0000" /\ pub_dep = u "0000" -> li_step.1 = open_state) /\
  (~ (pub_arr = u "0000" /\ pub_dep = u "0000") ->
   (demo_stations !! tiploc = None -> li_step.1 = open_state) /\
   (is_Some (demo_stations !! tiploc) ->
    exists arr dep,
      format_time (unwrap_or (str_get li_line 10 15) (u "00000")) = Some arr /\
      format_time (unwrap_or (str_get li_line 15 20) (u "00000")) = Some dep /\
      li_step.1 = (Some (push_stop (unwrap_or open_state.1
                                     (mkTripState [] [] [] [] [] [] [] [] [] []))
                           (mkStopTime PLACEHOLDER_TRIP_ID arr dep tiploc open_state.2)),
                   open_state.2 + 1))).
Proof.
  assert (H1 : str_get li_line 0 2 = Some (u "LI")) by vm_refl.
  assert (H2 : open_state.1 =
               Some (unwrap_or open_state.1 (mkTripState [] [] [] [] [] [] [] [] [] [])))
    by vm_refl.
  assert (H3 : mca_step demo_stations open_state li_line = Some (li_step.1, li_step.2))
    by vm_refl.
  split; [exact H1|]. split; [exact H2|]. split; [exact H3|].
  exact (li_stop_filter demo_stations open_state li_step.1 _ li_line li_step.2 H1 H2 H3).
Defined.

(** ** Station reference records *)

(** C7: a station record ("A" line) with a non-empty TIPLOC stores a
    station under it whose coordinates are the geocode lookup's pair when
    its CRS code is in the lookup, whatever its easting and northing; when
    it is not, they are the conversion of the easting and northing (each
    parsed, 0 if unparseable, and multiplied by 100), or (0,0) if the
    conversion fails. The function is total: no record aborts the run. *)
Theorem msn_station_coords (parse_f64 : ustr -> option float)
    (convert_osgb36_to_ll : float -> float -> option (float * float))
    (osm_lookup : gmap ustr (float * float)) (map : gmap ustr ParsedStation)
    (line : ustr) :
  hd_error line = Some 0x41 ->
  let name := trim (unwrap_or (str_get line 5 31) []) in
  let tiploc := trim (unwrap_or (str_get line 36 43) []) in
  let crs := trim (unwrap_or (str_get line 49 52) []) in
  let easting := (unwrap_or (parse_f64 (trim (unwrap_or (str_get line 52 57) (u "0")))) 0
                  * 100)%float in
  let northing := (unwrap_or (parse_f64 (trim (unwrap_or (str_get line 58 63) (u "0")))) 0
                   * 100)%float in
  tiploc <> [] ->
  exists st,
    msn_line parse_f64 convert_osgb36_to_ll osm_lookup map line !! tiploc = Some st /\
    ps_tiploc st = tiploc /\ ps_name st = name /\
    (forall coords, osm_lookup !! crs = Some coords -> (ps_lat st, ps_lon st) = coords) /\
    (osm_lookup !! crs = None ->
     (ps_lat st, ps_lon st) =
       match convert_osgb36_to_ll easting northing with
       | Some coords => coords
       | None => (0%float, 0%float)
       end).
Proof.
  intros Hc name tiploc crs easting northing Ht.
  destruct line as [|c rest]; [discriminate|]. cbn [hd_error] in Hc.
  injection Hc as ->.
  unfold msn_line. fold name tiploc crs.
  destruct (decide (tiploc = [])) as [E|_]; [contradiction|].
  destruct (osm_lookup !! crs) as [[la lo]|] eqn:Ho.
  - eexists. rewrite lookup_insert_eq. split; [reflexivity|]. cbn.
    split; [done|]. split; [done|]. split; [|discriminate].
    intros coords Hco. injection Hco as <-. reflexivity.
  - fold easting northing.
    destruct (convert_osgb36_to_ll easting northing) as [[la lo]|] eqn:Hcv;
      eexists; rewrite lookup_insert_eq; (split; [reflexivity|]); cbn;
      (split; [done|]); (split; [done|]); (split; [discriminate|]); intros _; reflexivity.
Qed.

Lemma msn_station_coords_witness :
  hd_error msn_demo_line = Some 0x41 /\
  trim (unwrap_or (str_get msn_demo_line 36 43) []) <> [] /\
  exists st,
    msn_line (fun _ => None) (fun e n => Some (e, n)) demo_osm ∅ msn_demo_line
      !! trim (unwrap_or (str_get msn_demo_line 36 43) []) = Some st /\
    ps_tiploc st = trim (unwrap_or (str_get msn_demo_line 36 43) []) /\
    ps_name st = trim (unwrap_or (str_get msn_demo_line 5 31) []) /\
    (forall coords, demo_osm !! trim (unwrap_or (str_get msn_demo_line 49 52) []) =
                    Some coords -> (ps_lat st, ps_lon st) = coords) /\
    (demo_osm !! trim (unwrap_or (str_get msn_demo_line 49 52) []) = None ->
     (ps_lat st, ps_lon st) = ((0 * 100)%float, (0 * 100)%float)).
Proof.
  assert (H1 : hd_error msn_demo_line = Some 0x41) by vm_refl.
  assert (H2 : trim (unwrap_or (str_get msn_demo_line 36 43) []) <> [])
    by (vm_compute; discriminate).
  split; [exact H1|]. split; [exact H2|].
  exact (msn_station_coords (fun _ => None) (fun e n => Some (e, n)) demo_osm ∅
           msn_demo_line H1 H2).
Defined.

(** ** Route classification *)

(** C8 (as stated, refuted): a London Overground trip whose stations'
    names include EUSTON and WATFORD JUNCTION but also GOSPEL OAK and
    BARKING is classified as the Suffragette line, not the Lioness line. *)
Lemma lioness_classification_counterexample :
  finalized demo_stations (None, 0) lo_lines = Some [lo_trip] /\
  atoc_code lo_trip = u "LO" /\
  lo_has (lo_names demo_stations (stops lo_trip)) (u "EUSTON") = true /\
  lo_has (lo_names demo_stations (stops lo_trip)) (u "WATFORD JUNCTION") = true /\
  get_lo_line_details demo_stations (stops lo_trip) =
    (u "Suffragette Line", u "LO-SUFFRAGETTE", u "008163") /\
  route_id_of demo_stations lo_trip = u "LO-SUFFRAGETTE".
Proof.
  split; [vm_refl|]. split; [vm_refl|]. split; [vm_refl|]. split; [vm_refl|].
  split; vm_refl.
Qed.

(** C8 (amended): for a trip with operator code LO whose stations' names
    include (case-insensitively) EUSTON and WATFORD JUNCTION, the route is
    never the generic London Overground one.  The first of the rules
    Gospel Oak and Barking (Suffragette); Romford and Upminster (Liberty);
    Liverpool Street and one of Cheshunt, Enfield Town, Chingford (Weaver)
    that matches wins, and the route is the Lioness line (route LO-LIONESS,
    colour f1b41c) exactly when none of them matches.  The route written
    carries the chosen line's id, name and colour. *)
Theorem lioness_classification (tiploc_map : gmap ustr ParsedStation) (trip : TripState) :
  let has := lo_has (lo_names tiploc_map (stops trip)) in
  atoc_code trip = u "LO" ->
  has (u "EUSTON") = true -> has (u "WATFORD JUNCTION") = true ->
  route_id_of tiploc_map trip <> u "LO-GENERIC" /\
  get_lo_line_details tiploc_map (stops trip) =
    (if has (u "GOSPEL OAK") && has (u "BARKING") then
       (u "Suffragette Line", u "LO-SUFFRAGETTE", u "008163")
     else if has (u "ROMFORD") && has (u "UPMINSTER") then
       (u "Liberty Line", u "LO-LIBERTY", u "676767")
     else if has (u "LIVERPOOL STREET") &&
             (has (u "CHESHUNT") || has (u "ENFIELD TOWN") || has (u "CHINGFORD")) then
       (u "Weaver Line", u "LO-WEAVER", u "a90068")
     else (u "Lioness Line", u "LO-LIONESS", u "f1b41c")) /\
  (get_lo_line_details tiploc_map (stops trip) =
     (u "Lioness Line", u "LO-LIONESS", u "f1b41c") <->
   has (u "GOSPEL OAK") && has (u "BARKING") = false /\
   has (u "ROMFORD") && has (u "UPMINSTER") = false /\
   has (u "LIVERPOOL STREET") &&
     (has (u "CHESHUNT") || has (u "ENFIELD TOWN") || has (u "CHINGFORD")) = false) /\
  route_details tiploc_map trip =
    (let '(name, id, color) := get_lo_line_details tiploc_map (stops trip) in
     (id, name, u "LO", color, u "FFFFFF")) /\
  (has (u "GOSPEL OAK") && has (u "BARKING") = false ->
   has (u "ROMFORD") && has (u "UPMINSTER") = false ->
   has (u "LIVERPOOL STREET") &&
     (has (u "CHESHUNT") || has (u "ENFIELD TOWN") || has (u "CHINGFORD")) = false ->
   get_lo_line_details tiploc_map (stops trip) =
     (u "Lioness Line", u "LO-LIONESS", u "f1b41c") /\
   route_details tiploc_map trip =
     (u "LO-LIONESS", u "Lioness Line", u "LO", u "f1b41c", u "FFFFFF")).
Proof.
  intros has Hlo HE HW.
  assert (Hrd : forall name id color,
             get_lo_line_details tiploc_map (stops trip) = (name, id, color) -> name <> [] ->
             route_details tiploc_map trip = (id, name, u "LO", color, u "FFFFFF")).
  { intros name id color Hg Hn. unfold route_details.
    rewrite decide_True by exact Hlo. rewrite Hg. rewrite decide_False by exact Hn.
    reflexivity. }
  assert (Hchain : get_lo_line_details tiploc_map (stops trip) =
    (if has (u "GOSPEL OAK") && has (u "BARKING") then
       (u "Suffragette Line", u "LO-SUFFRAGETTE", u "008163")
     else if has (u "ROMFORD") && has (u "UPMINSTER") then
       (u "Liberty Line", u "LO-LIBERTY", u "676767")
     else if has (u "LIVERPOOL STREET") &&
             (has (u "CHESHUNT") || has (u "ENFIELD TOWN") || has (u "CHINGFORD")) then
       (u "Weaver Line", u "LO-WEAVER", u "a90068")
     else (u "Lioness Line", u "LO-LIONESS", u "f1b41c"))).
  { unfold get_lo_line_details. fold has. rewrite HE, HW.
    destruct (has (u "GOSPEL OAK") && has (u "BARKING")); [reflexivity|].
    destruct (has (u "ROMFORD") && has (u "UPMINSTER")); [reflexivity|].
    destruct (has (u "LIVERPOOL STREET") &&
                (has (u "CHESHUNT") || has (u "ENFIELD TOWN") || has (u "CHINGFORD")));
      reflexivity. }
  assert (Hroute : route_details tiploc_map trip =
    (let '(name, id, color) := get_lo_line_details tiploc_map (stops trip) in
     (id, name, u "LO", color, u "FFFFFF"))).
  { revert Hrd. rewrite Hchain.
    destruct (has (u "GOSPEL OAK") && has (u "BARKING"));
      [|destruct (has (u "ROMFORD") && has (u "UPMINSTER"));
        [|destruct (has (u "LIVERPOOL STREET") &&
                    (has (u "CHESHUNT") || has (u "ENFIELD TOWN") || has (u "CHINGFORD")))]];
      intros Hrd; (apply Hrd; [reflexivity|]); vm_compute; discriminate. }
  split.
  { unfold route_id_of. rewrite Hroute, Hchain.
    destruct (has (u "GOSPEL OAK") && has (u "BARKING"));
      [|destruct (has (u "ROMFORD") && has (u "UPMINSTER"));
        [|destruct (has (u "LIVERPOOL STREET") &&
                    (has (u "CHESHUNT") || has (u "ENFIELD TOWN") || has (u "CHINGFORD")))]];
      vm_compute; discriminate. }
  split; [exact Hchain|].
  split.
  { rewrite Hchain.
    destruct (has (u "GOSPEL OAK") && has (u "BARKING"));
      [|destruct (has (u "ROMFORD") && has (u "UPMINSTER"));
        [|destruct (has (u "LIVERPOOL STREET") &&
                    (has (u "CHESHUNT") || has (u "ENFIELD TOWN") || has (u "CHINGFORD")))]];
      split; intros H; try (exact (conj eq_refl (conj eq_refl eq_refl)));
      try reflexivity;
      try (destruct H as (H1 & H2 & H3); discriminate);
      vm_compute in H; discriminate H. }
  split; [exact Hroute|].
  intros H1 H2 H3.
  assert (Hl : get_lo_line_details tiploc_map (stops trip) =
                 (u "Lioness Line", u "LO-LIONESS", u "f1b41c")).
  { rewrite Hchain, H1, H2, H3. reflexivity. }
  split; [exact Hl|]. rewrite Hroute, Hl. reflexivity.
Qed.

Lemma lioness_classification_witness :
  let has := lo_has (lo_names demo_stations (stops lioness_trip)) in
  atoc_code lioness_trip = u "LO" /\
  has (u "EUSTON") = true /\ has (u "WATFORD JUNCTION") = true /\
  route_id_of demo_stations lioness_trip <> u "LO-GENERIC" /\
  get_lo_line_details demo_stations (stops lioness_trip) =
    (if has (u "GOSPEL OAK") && has (u "BARKING") then
       (u "Suffragette Line", u "LO-SUFFRAGETTE", u "008163")
     else if has (u "ROMFORD") && has (u "UPMINSTER") then
       (u "Liberty Line", u "LO-LIBERTY", u "676767")
     else if has (u "LIVERPOOL STREET") &&
             (has (u "CHESHUNT") || has (u "ENFIELD TOWN") || has (u "CHINGFORD")) then
       (u "Weaver Line", u "LO-WEAVER", u "a90068")
     else (u "Lioness Line", u "LO-LIONESS", u "f1b41c")) /\
  (get_lo_line_details demo_stations (stops lioness_trip) =
     (u "Lioness Line", u "LO-LIONESS", u "f1b41c") <->
   has (u "GOSPEL OAK") && has (u "BARKING") = false /\
   has (u "ROMFORD") && has (u "UPMINSTER") = false /\
   has (u "LIVERPOOL STREET") &&
     (has (u "CHESHUNT") || has (u "ENFIELD TOWN") || has (u "CHINGFORD")) = false) /\
  route_details demo_stations lioness_trip =
    (let '(name, id, color) := get_lo_line_details demo_stations (stops lioness_trip) in
     (id, name, u "LO", color, u "FFFFFF")) /\
  (has (u "GOSPEL OAK") && has (u "BARKING") = false ->
   has (u "ROMFORD") && has (u "UPMINSTER") = false ->
   has (u "LIVERPOOL STREET") &&
     (has (u "CHESHUNT") || has (u "ENFIELD TOWN") || has (u "CHINGFORD")) = false ->
   get_lo_line_details demo_stations (stops lioness_trip) =
     (u "Lioness Line", u "LO-LIONESS", u "f1b41c") /\
   route_details demo_stations lioness_trip =
     (u "LO-LIONESS", u "Lioness Line", u "LO", u "f1b41c", u "FFFFFF")).
Proof.
  intros has.
  assert (H1 : atoc_code lioness_trip = u "LO") by vm_refl.
  assert (H2 : has (u "EUSTON") = true) by vm_refl.
  assert (H3 : has (u "WATFORD JUNCTION") = true) by vm_refl.
  split; [exact H1|]. split; [exact H2|]. split; [exact H3|].
  exact (lioness_classification demo_stations lioness_trip H1 H2 H3).
Defined.

(** ** Stop sequence numbers *)

(** C4 (code slip): the "LT" branch pushes the terminal stop with the
    current sequence number but neither increments it nor closes the trip,
    so a second "LT" record finalizes a trip whose stop sequence numbers
    are 1, 2, 2, and these stop rows are written. *)
Theorem lt_repeats_sequence_number :
  option_map (map (fun t => map stop_sequence (stops t)))
    (finalized demo_stations (None, 0) dup_lt_lines) = Some [[1; 2]; [1; 2; 2]] /\
  option_map (fun r => map stop_sequence (st_w r.1))
    (parse_mca demo_stations ∅ init_out [] dup_lt_lines) = Some [1; 2; 1; 2; 2].
Proof. split; vm_refl. Qed.

(** ** Time formatting *)

(** C9 (code slip): [format_time] keeps the Unicode numeric characters but
    measures and slices the result in bytes. It formats "0930" as
    "09:30:00" and "12" as "00:00:00", but formats two ARABIC-INDIC DIGIT
    THREE (two bytes each) as "٣:٣:00" rather than "00:00:00", and panics
    on "0", U+3007, "0" (byte 2 is inside U+3007), which an origin record
    reaches, aborting the parse. *)
Theorem format_time_byte_slicing :
  format_time (u "0930") = Some (u "09:30:00") /\
  format_time (u "12") = Some (u "00:00:00") /\
  format_time [0x663; 0x663] = Some ([0x663] ++ u ":" ++ [0x663] ++ u ":00") /\
  format_time (u "0" ++ [0x3007] ++ u "0") = None /\
  mca_step demo_stations open_state lo_ideographic_line = None /\
  parse_mca demo_stations ∅ init_out [] (open_lines ++ [lo_ideographic_line]) = None.
Proof. repeat split; vm_refl. Qed.

(** * Further properties of the converter *)

Lemma get_or_create_service_sets (cs : CalendarSignature) (o o2 : Out) (sid : ustr) :
  get_or_create_service cs o = Some (sid, o2) ->
  agencies_set o2 = agencies_set o /\ routes_map o2 = routes_map o.
Proof.
  unfold get_or_create_service.
  destruct (calendar_signature_to_id o !! cs) as [id|].
  - intros H. injection H as <- <-. done.
  - unfold u32_incr. destruct (service_counter o + 1 <=? u32_max); [|discriminate].
    intros H. injection H as <- <-. done.
Qed.

Lemma write_trip_sets (t : TripState) (rid sid : ustr) (sig : TripServiceSignature)
    (o o3 : Out) :
  write_trip t rid sid sig o = Some o3 ->
  agencies_set o3 = agencies_set o /\ routes_map o3 = routes_map o.
Proof.
  unfold write_trip.
  destruct (decide (is_Some (trip_service_to_id o !! sig))).
  - intros H. injection H as <-. done.
  - unfold u32_incr.
    destruct (unwrap_or (uid_usage_count o !! ts_uid t) 0 + 1 <=? u32_max); [|discriminate].
    intros H. injection H as <-. done.
Qed.

(** The agency and route bookkeeping of one finalized trip. *)
Lemma emit_trip_routes (tiploc_map : gmap ustr ParsedStation) (toc_lookup : gmap ustr ustr)
    (t : TripState) (o o' : Out) :
  emit_trip tiploc_map toc_lookup t o = Some o' ->
  agencies_set o' =
    {[ mkAgency (atoc_code t)
         (unwrap_or (toc_lookup !! atoc_code t) (u "National Rail (" ++ atoc_code t ++ u ")"))
         (u "http://www.nationalrail.co.uk") (u "Europe/London") ]} ∪ agencies_set o /\
  routes_map o' =
    match routes_map o !! route_id_of tiploc_map t with
    | Some _ => routes_map o
    | None => <[route_id_of tiploc_map t := route_for tiploc_map t]> (routes_map o)
    end.
Proof.
  intros H. unfold emit_trip in H. unfold route_id_of, route_for.
  destruct (route_details tiploc_map t) as [[[[rid rn] rs] rc] rtc].
  cbn [fst snd].
  destruct (get_or_create_service _ _) as [[sid o2]|] eqn:Hg; cbn in H; [|discriminate].
  apply get_or_create_service_sets in Hg as [Ha Hr].
  apply write_trip_sets in H as [Ha' Hr'].
  rewrite Ha', Hr', Ha, Hr. done.
Qed.

Lemma route_for_id (tiploc_map : gmap ustr ParsedStation) (t : TripState) :
  route_id (route_for tiploc_map t) = route_id_of tiploc_map t /\
  route_agency_id (route_for tiploc_map t) = atoc_code t.
Proof.
  unfold route_for, route_id_of.
  destruct (route_details tiploc_map t) as [[[[rid rn] rs] rc] rtc]. done.
Qed.

Lemma emit_trip_routes_mono (tiploc_map : gmap ustr ParsedStation)
    (toc_lookup : gmap ustr ustr) (t : TripState) (o o' : Out) (k : ustr) (r : Route) :
  emit_trip tiploc_map toc_lookup t o = Some o' ->
  routes_map o !! k = Some r -> routes_map o' !! k = Some r.
Proof.
  intros H Hk. destruct (emit_trip_routes _ _ _ _ _ H) as [_ ->].
  destruct (routes_map o !! route_id_of tiploc_map t) eqn:E; [done|].
  rewrite lookup_insert_ne; [done|]. congruence.
Qed.

Lemma emit_all_inv (tiploc_map : gmap ustr ParsedStation) (toc_lookup : gmap ustr ustr)
    (P : Out -> Prop) (ts : list TripState) :
  (forall t o1 o2, P o1 -> emit_trip tiploc_map toc_lookup t o1 = Some o2 -> P o2) ->
  forall o o', P o -> emit_all tiploc_map toc_lookup o ts = Some o' -> P o'.
Proof.
  intros HP. induction ts as [|t ts IH]; intros o o' Ho H; simpl in H.
  - injection H as <-. exact Ho.
  - destruct (emit_trip tiploc_map toc_lookup t o) as [o1|] eqn:E; simpl in H;
      [|discriminate].
    exact (IH o1 o' (HP _ _ _ Ho E) H).
Qed.

(** An invariant of the consolidation engine holds at the end of a run. *)
Lemma run_mca_inv (tiploc_map : gmap ustr ParsedStation) (toc_lookup : gmap ustr ustr)
    (P : Out -> Prop) (files : list (list ustr)) (o : Out) (a : list Association)
    (o' : Out) (a' : list Association) :
  (forall t o1 o2, P o1 -> emit_trip tiploc_map toc_lookup t o1 = Some o2 -> P o2) ->
  P o -> run_mca tiploc_map toc_lookup o a files = Some (o', a') -> P o'.
Proof.
  intros HP Ho H. destruct (run_mca_emit _ _ _ _ _ _ _ H) as (ts & _ & He).
  exact (emit_all_inv _ _ P ts HP o o' Ho He).
Qed.

Lemma emit_trip_routes_inv (tiploc_map : gmap ustr ParsedStation)
    (toc_lookup : gmap ustr ustr) (t : TripState) (o o' : Out) :
  routes_inv o -> emit_trip tiploc_map toc_lookup t o = Some o' -> routes_inv o'.
Proof.
  intros [H1 H2] H.
  destruct (emit_trip_routes _ _ _ _ _ H) as [Ha Hr].
  assert (Hnew : routes_map o' !! route_id_of tiploc_map t = Some (route_for tiploc_map t) \/
                 is_Some (routes_map o !! route_id_of tiploc_map t)).
  { rewrite Hr. destruct (routes_map o !! route_id_of tiploc_map t) eqn:E.
    - right. eauto.
    - left. apply lookup_insert_eq. }
  emit_spec H. destruct HS as (_ & _ & _ & Hsup & Hwr).
  split.
  - intros k r Hk. rewrite Ha.
    rewrite Hr in Hk. destruct (routes_map o !! route_id_of tiploc_map t) eqn:E.
    + destruct (H1 _ _ Hk) as (Hid & a & Ha' & Haid). split; [done|].
      exists a. split; [set_solver|done].
    + destruct (decide (k = route_id_of tiploc_map t)) as [->|Hne].
      * rewrite lookup_insert_eq in Hk. injection Hk as <-.
        destruct (route_for_id tiploc_map t) as [-> ->]. split; [done|].
        eexists. split; [apply elem_of_union_l, elem_of_singleton; reflexivity|done].
      * rewrite lookup_insert_ne in Hk by done.
        destruct (H1 _ _ Hk) as (Hid & a & Ha' & Haid). split; [done|].
        exists a. split; [set_solver|done].
  - intros tr Htr.
    destruct (trip_service_to_id o !! tss_of tiploc_map o t) eqn:E.
    + destruct (Hsup ltac:(eauto)) as (_ & _ & Ht & _). rewrite Ht in Htr.
      destruct (H2 _ Htr) as [r Hr']. exists r.
      exact (emit_trip_routes_mono _ _ _ _ _ _ _ H Hr').
    + destruct (Hwr eq_refl) as (Ht & _). rewrite Ht in Htr.
      apply in_app_or in Htr as [Htr|[<-|[]]].
      * destruct (H2 _ Htr) as [r Hr']. exists r.
        exact (emit_trip_routes_mono _ _ _ _ _ _ _ H Hr').
      * simpl. destruct Hnew as [Hn|[r Hn]]; [eauto|].
        exists r. exact (emit_trip_routes_mono _ _ _ _ _ _ _ H Hn).
Qed.

Lemma routes_inv_init : routes_inv init_out.
Proof. split; cbn; [intros k r Hk; rewrite lookup_empty in Hk; discriminate|intros ? []]. Qed.

Lemma emit_trip_calendar_inv (tiploc_map : gmap ustr ParsedStation)
    (toc_lookup : gmap ustr ustr) (t : TripState) (o o' : Out) :
  calendar_inv o -> emit_trip tiploc_map toc_lookup t o = Some o' -> calendar_inv o'.
Proof.
  intros [H1 H2] H. emit_spec H. destruct HS as (Hc & Hknown & Hnew & Hsup & Hwr).
  set (cs := calendar_signature t) in *.
  assert (Hgrow : forall c, In c (cal_w o) -> In c (cal_w o')).
  { intros c Hin. destruct (calendar_signature_to_id o !! cs) eqn:E.
    - destruct (Hknown ltac:(eauto)) as [_ ->]. done.
    - destruct (Hnew eq_refl) as [_ ->]. apply in_or_app. auto. }
  assert (Hsid : exists c, In c (cal_w o') /\ cal_service_id c = service_id_for o cs).
  { destruct (calendar_signature_to_id o !! cs) eqn:E.
    - unfold service_id_for. rewrite E. destruct (H2 _ _ E) as (c & Hin & Hid). eauto.
    - destruct (Hnew eq_refl) as [_ ->]. eexists. split; [apply in_or_app; right; left; reflexivity|done]. }
  split.
  - intros tr Htr. destruct (trip_service_to_id o !! tss_of tiploc_map o t) eqn:E.
    + destruct (Hsup ltac:(eauto)) as (_ & _ & Ht & _). rewrite Ht in Htr.
      destruct (H1 _ Htr) as (c & Hin & Hid). eauto.
    + destruct (Hwr eq_refl) as (Ht & _). rewrite Ht in Htr.
      apply in_app_or in Htr as [Htr|[<-|[]]].
      * destruct (H1 _ Htr) as (c & Hin & Hid). eauto.
      * exact Hsid.
  - intros cs' id Hid. rewrite Hc in Hid.
    destruct (decide (cs' = cs)) as [->|Hne].
    + rewrite lookup_insert_eq in Hid. injection Hid as <-. exact Hsid.
    + rewrite lookup_insert_ne in Hid by done. destruct (H2 _ _ Hid) as (c & Hin & Hc'). eauto.
Qed.

Lemma calendar_inv_init : calendar_inv init_out.
Proof. split; cbn; [intros ? []|intros ? ? Hk; rewrite lookup_empty in Hk; discriminate]. Qed.

Lemma emit_trip_stop_times_inv (tiploc_map : gmap ustr ParsedStation)
    (toc_lookup : gmap ustr ustr) (t : TripState) (o o' : Out) :
  stop_times_inv o -> emit_trip tiploc_map toc_lookup t o = Some o' -> stop_times_inv o'.
Proof.
  intros H1 H. emit_spec H. destruct HS as (_ & _ & _ & Hsup & Hwr).
  intros st Hst. destruct (trip_service_to_id o !! tss_of tiploc_map o t) eqn:E.
  - destruct (Hsup ltac:(eauto)) as (_ & _ & -> & Hs). rewrite Hs in Hst. auto.
  - destruct (Hwr eq_refl) as (-> & Hs & _). rewrite Hs in Hst.
    apply in_app_or in Hst as [Hst|Hst].
    + destruct (H1 _ Hst) as (tr & Hin & Hid). exists tr. split; [apply in_or_app; auto|done].
    + apply in_map_iff in Hst as (st0 & <- & _).
      eexists. split; [apply in_or_app; right; left; reflexivity|]. reflexivity.
Qed.

Lemma stop_times_inv_init : stop_times_inv init_out.
Proof. intros ? []. Qed.

Lemma emit_trip_agency_inv (tiploc_map : gmap ustr ParsedStation)
    (toc_lookup : gmap ustr ustr) (t : TripState) (o o' : Out) :
  agency_inv toc_lookup o -> emit_trip tiploc_map toc_lookup t o = Some o' ->
  agency_inv toc_lookup o'.
Proof.
  intros H1 H a Ha. destruct (emit_trip_routes _ _ _ _ _ H) as [Has _].
  rewrite Has in Ha. apply elem_of_union in Ha as [Ha|Ha].
  - apply elem_of_singleton in Ha as ->. reflexivity.
  - exact (H1 a Ha).
Qed.

Lemma agency_inv_init (toc_lookup : gmap ustr ustr) : agency_inv toc_lookup init_out.
Proof. intros a Ha. cbn in Ha. set_solver. Qed.

Lemma emit_trip_svc_inv (tiploc_map : gmap ustr ParsedStation)
    (toc_lookup : gmap ustr ustr) (t : TripState) (o o' : Out) :
  svc_inv o -> emit_trip tiploc_map toc_lookup t o = Some o' -> svc_inv o'.
Proof.
  intros (H0 & H1 & H2) H. unfold svc_inv. emit_spec H. destruct HS as (Hc & Hknown & Hnew & _).
  destruct (calendar_signature_to_id o !! calendar_signature t) as [id|] eqn:E.
  - destruct (Hknown ltac:(eauto)) as [-> ->].
    rewrite Hc. unfold service_id_for. rewrite E, (insert_id _ _ _ E). done.
  - destruct (Hnew eq_refl) as [-> ->]. rewrite Hc, map_size_insert_None by exact E.
    split; [lia|]. split; [|rewrite H2; lia].
    rewrite map_app, H1. replace (Z.to_nat (service_counter o + 1))
      with (S (Z.to_nat (service_counter o))) by lia.
    rewrite seq_S, map_app. simpl. unfold service_id_for. rewrite E.
    rewrite Z2Nat.id by lia. reflexivity.
Qed.

Lemma svc_inv_init : svc_inv init_out.
Proof. split; [cbn; lia|]. split; [reflexivity|]. apply map_size_empty. Qed.

Lemma emit_trip_trip_count_inv (tiploc_map : gmap ustr ParsedStation)
    (toc_lookup : gmap ustr ustr) (t : TripState) (o o' : Out) :
  trip_count_inv o -> emit_trip tiploc_map toc_lookup t o = Some o' -> trip_count_inv o'.
Proof.
  unfold trip_count_inv. intros H1 H. emit_spec H. destruct HS as (_ & _ & _ & Hsup & Hwr).
  destruct (trip_service_to_id o !! tss_of tiploc_map o t) eqn:E.
  - destruct (Hsup ltac:(eauto)) as (-> & _ & -> & _). exact H1.
  - destruct (Hwr eq_refl) as (-> & _ & -> & _).
    rewrite length_app, map_size_insert_None by exact E. simpl. lia.
Qed.

Lemma trip_count_inv_init : trip_count_inv init_out.
Proof. unfold trip_count_inv. cbn. rewrite map_size_empty. reflexivity. Qed.

Lemma list_map_fmap {A B} (f : A -> B) (l : list A) : map f l = f <$> l.
Proof. induction l as [|x l IH]; simpl; [done|]. by rewrite IH. Qed.

(** The values of a map keyed by a field of its values have distinct fields. *)
Lemma values_keyed_nodup {V} (key : V -> ustr) (m : gmap ustr V) :
  (forall k v, m !! k = Some v -> key v = k) ->
  NoDup (map key (map snd (map_to_list m))).
Proof.
  intros Hk. rewrite map_map.
  assert (E : map (fun kv => key kv.2) (map_to_list m) = (map_to_list m).*1).
  { rewrite list_map_fmap. apply list_fmap_ext. intros i [k v] Hi. simpl.
    apply Hk, elem_of_map_to_list. eapply list_elem_of_lookup_2; eauto. }
  rewrite E. apply NoDup_fst_map_to_list.
Qed.

(** Extra: after a run, the route id of every trips row is a key of the
    route map, whose route carries that id: trips.txt only refers to
    routes written to routes.txt. *)
Theorem run_trips_route_known (tiploc_map : gmap ustr ParsedStation)
    (toc_lookup : gmap ustr ustr) (files : list (list ustr)) (o : Out)
    (a : list Association) :
  run_mca tiploc_map toc_lookup init_out [] files = Some (o, a) ->
  forall tr, In tr (trips_w o) ->
  exists r, routes_map o !! trip_route_id tr = Some r /\ route_id r = trip_route_id tr.
Proof.
  intros H tr Htr.
  destruct (run_mca_inv _ _ routes_inv _ _ _ _ _ (emit_trip_routes_inv tiploc_map toc_lookup)
              routes_inv_init H) as [H1 H2].
  destruct (H2 _ Htr) as [r Hr]. exists r. split; [done|]. exact (proj1 (H1 _ _ Hr)).
Qed.

(** Extra: after a run, the routes written from the route map have
    distinct route ids, and the agency id of each is the id of an agency
    of the agency set. *)
Theorem run_routes_rows (tiploc_map : gmap ustr ParsedStation)
    (toc_lookup : gmap ustr ustr) (files : list (list ustr)) (o : Out)
    (a : list Association) :
  run_mca tiploc_map toc_lookup init_out [] files = Some (o, a) ->
  NoDup (map route_id (map snd (map_to_list (routes_map o)))) /\
  forall r, In r (map snd (map_to_list (routes_map o))) ->
    exists ag, ag ∈ agencies_set o /\ agency_id ag = route_agency_id r.
Proof.
  intros H.
  destruct (run_mca_inv _ _ routes_inv _ _ _ _ _ (emit_trip_routes_inv tiploc_map toc_lookup)
              routes_inv_init H) as [H1 _].
  split.
  - apply values_keyed_nodup. intros k v Hv. exact (proj1 (H1 _ _ Hv)).
  - intros r Hr. apply in_map_iff in Hr as ([k r'] & <- & Hin). simpl.
    apply (list_elem_of_In (map_to_list (routes_map o))), elem_of_map_to_list in Hin.
    exact (proj2 (H1 _ _ Hin)).
Qed.

(** Extra: after a run, the service id of every trips row is the service
    id of a calendar row. *)
Theorem run_trips_calendar_known (tiploc_map : gmap ustr ParsedStation)
    (toc_lookup : gmap ustr ustr) (files : list (list ustr)) (o : Out)
    (a : list Association) :
  run_mca tiploc_map toc_lookup init_out [] files = Some (o, a) ->
  forall tr, In tr (trips_w o) ->
  exists c, In c (cal_w o) /\ cal_service_id c = trip_service_id tr.
Proof.
  intros H.
  exact (proj1 (run_mca_inv _ _ calendar_inv _ _ _ _ _
                  (emit_trip_calendar_inv tiploc_map toc_lookup) calendar_inv_init H)).
Qed.

(** Extra: after a run, the trip id of every stop_times row is the trip id
    of a trips row. *)
Theorem run_stop_times_trip_known (tiploc_map : gmap ustr ParsedStation)
    (toc_lookup : gmap ustr ustr) (files : list (list ustr)) (o : Out)
    (a : list Association) :
  run_mca tiploc_map toc_lookup init_out [] files = Some (o, a) ->
  forall st, In st (st_w o) ->
  exists tr, In tr (trips_w o) /\ trip_id tr = st_trip_id st.
Proof.
  intros H.
  exact (run_mca_inv _ _ stop_times_inv _ _ _ _ _
           (emit_trip_stop_times_inv tiploc_map toc_lookup) stop_times_inv_init H).
Qed.

(** Extra: after a run, every agency is named from the TOC lookup, or
    "National Rail (<code>)" when the code is missing there; hence two
    agencies with the same id are equal, and agency.txt has one row per
    agency id. *)
Theorem run_agencies_by_id (tiploc_map : gmap ustr ParsedStation)
    (toc_lookup : gmap ustr ustr) (files : list (list ustr)) (o : Out)
    (a : list Association) :
  run_mca tiploc_map toc_lookup init_out [] files = Some (o, a) ->
  (forall ag, ag ∈ agencies_set o ->
     agency_name ag = unwrap_or (toc_lookup !! agency_id ag)
                        (u "National Rail (" ++ agency_id ag ++ u ")")) /\
  (forall ag1 ag2, ag1 ∈ agencies_set o -> ag2 ∈ agencies_set o ->
     agency_id ag1 = agency_id ag2 -> ag1 = ag2).
Proof.
  intros H.
  pose proof (run_mca_inv _ _ (agency_inv toc_lookup) _ _ _ _ _
                (emit_trip_agency_inv tiploc_map toc_lookup) (agency_inv_init toc_lookup) H)
    as Hinv.
  split.
  - intros ag Hag. rewrite (Hinv ag Hag) at 1. reflexivity.
  - intros ag1 ag2 H1 H2 Hid. rewrite (Hinv ag1 H1), (Hinv ag2 H2), Hid. reflexivity.
Qed.

Lemma svc_ids_nodup (n : nat) :
  NoDup (map (fun k => u "SVC" ++ show_u32 (Z.of_nat k)) (seq 0 n)).
Proof.
  rewrite list_map_fmap. apply NoDup_fmap_2_strong; [|apply NoDup_seq].
  intros x y _ _ Hxy. apply app_inv_head in Hxy. apply show_u32_inj in Hxy; lia.
Qed.

(** Extra: after a run, the service counter is the number of distinct
    calendar signatures, and the calendar rows carry the ids SVC0, SVC1,
    ..., in this order, which are distinct. *)
Theorem run_calendar_ids (tiploc_map : gmap ustr ParsedStation)
    (toc_lookup : gmap ustr ustr) (files : list (list ustr)) (o : Out)
    (a : list Association) :
  run_mca tiploc_map toc_lookup init_out [] files = Some (o, a) ->
  Z.of_nat (size (calendar_signature_to_id o)) = service_counter o /\
  map cal_service_id (cal_w o) =
    map (fun k => u "SVC" ++ show_u32 (Z.of_nat k))
        (seq 0 (size (calendar_signature_to_id o))) /\
  NoDup (map cal_service_id (cal_w o)).
Proof.
  intros H.
  destruct (run_mca_inv _ _ svc_inv _ _ _ _ _
              (emit_trip_svc_inv tiploc_map toc_lookup) svc_inv_init H) as (H0 & H1 & H2).
  rewrite H2. split; [lia|]. split; [exact H1|]. rewrite H1. apply svc_ids_nodup.
Qed.

(** Extra: after a run, there is one trips row per distinct trip+service
    signature. *)
Theorem run_trip_rows_count (tiploc_map : gmap ustr ParsedStation)
    (toc_lookup : gmap ustr ustr) (files : list (list ustr)) (o : Out)
    (a : list Association) :
  run_mca tiploc_map toc_lookup init_out [] files = Some (o, a) ->
  length (trips_w o) = size (trip_service_to_id o).
Proof.
  intros H.
  exact (run_mca_inv _ _ trip_count_inv _ _ _ _ _
           (emit_trip_trip_count_inv tiploc_map toc_lookup) trip_count_inv_init H).
Qed.

Lemma emit_all_route_absent (tiploc_map : gmap ustr ParsedStation)
    (toc_lookup : gmap ustr ustr) (k : ustr) (ts : list TripState) :
  Forall (fun t => route_id_of tiploc_map t <> k) ts ->
  forall o o', routes_map o !! k = None -> emit_all tiploc_map toc_lookup o ts = Some o' ->
  routes_map o' !! k = None.
Proof.
  induction 1 as [|t ts Ht Hts IH]; intros o o' Hk H; simpl in H.
  - injection H as <-. exact Hk.
  - destruct (emit_trip tiploc_map toc_lookup t o) as [o1|] eqn:E; simpl in H;
      [|discriminate].
    apply (IH o1 o'); [|exact H].
    destruct (emit_trip_routes _ _ _ _ _ E) as [_ ->].
    destruct (routes_map o !! route_id_of tiploc_map t); [exact Hk|].
    rewrite lookup_insert_ne by congruence. exact Hk.
Qed.

(** Extra: the routes map keeps the first route built for a route id: if
    no earlier finalized trip has the route id of trip [t], the route
    written for that id is the one built from [t], whatever later trips
    with the same id carry (e.g. another destination in the long name). *)
Theorem run_first_trip_decides_route (tiploc_map : gmap ustr ParsedStation)
    (toc_lookup : gmap ustr ustr) (files : list (list ustr)) (o : Out)
    (a : list Association) (pre : list TripState) (t : TripState) (post : list TripState) :
  run_mca tiploc_map toc_lookup init_out [] files = Some (o, a) ->
  finalized_files tiploc_map files = Some (pre ++ t :: post) ->
  Forall (fun t' => route_id_of tiploc_map t' <> route_id_of tiploc_map t) pre ->
  routes_map o !! route_id_of tiploc_map t = Some (route_for tiploc_map t).
Proof.
  intros H Hf Hpre. destruct (run_mca_emit _ _ _ _ _ _ _ H) as (ts & Hf' & He).
  rewrite Hf in Hf'. injection Hf' as <-.
  rewrite emit_all_app in He.
  destruct (emit_all tiploc_map toc_lookup init_out pre) as [o1|] eqn:E1; simpl in He;
    [|discriminate].
  destruct (emit_trip tiploc_map toc_lookup t o1) as [o2|] eqn:E2; simpl in He;
    [|discriminate].
  assert (Ha : routes_map o1 !! route_id_of tiploc_map t = None).
  { apply (emit_all_route_absent tiploc_map toc_lookup _ _ Hpre init_out); [|exact E1].
    apply lookup_empty. }
  assert (Hb : routes_map o2 !! route_id_of tiploc_map t = Some (route_for tiploc_map t)).
  { destruct (emit_trip_routes _ _ _ _ _ E2) as [_ ->]. rewrite Ha.
    apply lookup_insert_eq. }
  exact (emit_all_inv _ _ (fun o => routes_map o !! route_id_of tiploc_map t =
                                    Some (route_for tiploc_map t)) post
           (fun t' o1 o2 Ho E => emit_trip_routes_mono _ _ _ _ _ _ _ E Ho) o2 o Hb He).
Qed.

Lemma step_lt_no_assoc (tiploc_map : gmap ustr ParsedStation) (line : ustr)
    (p p' : pstate) (eff : effect) :
  step_lt tiploc_map line p = Some (p', eff) ->
  match eff with EmitAssoc _ => False | _ => True end.
Proof.
  unfold step_lt. destruct p.1 as [trip|]; [|intros H; injection H as _ <-; exact I].
  destruct (format_time _) as [arr|]; simpl; [|discriminate].
  destruct (tiploc_map !! _); intros H; injection H as _ <-; exact I.
Qed.

(** [mca_step] emits an association exactly for the "AA" records. *)
Lemma mca_step_assoc (tiploc_map : gmap ustr ParsedStation) (p p' : pstate)
    (line : ustr) (eff : effect) :
  mca_step tiploc_map p line = Some (p', eff) ->
  match eff with
  | EmitAssoc a => is_aa_record line = true /\ a = assoc_of line
  | _ => is_aa_record line = false
  end.
Proof.
  unfold mca_step, is_aa_record.
  destruct (byte_len line <? 2); [intros H; injection H as _ <-; reflexivity|].
  destruct (str_get line 0 2) as [rt|]; simpl; [|discriminate].
  destruct (str_eqb rt (u "BS")) eqn:E1.
  { apply str_eqb_true in E1 as ->. intros H; injection H as _ <-. reflexivity. }
  destruct (str_eqb rt (u "BX")) eqn:E2.
  { apply str_eqb_true in E2 as ->. intros H; injection H as _ <-. reflexivity. }
  destruct (str_eqb rt (u "LO")) eqn:E3.
  { apply str_eqb_true in E3 as ->. destruct (step_lo _ _ _); simpl; [|discriminate].
    intros H; injection H as _ <-. reflexivity. }
  destruct (str_eqb rt (u "LI")) eqn:E4.
  { apply str_eqb_true in E4 as ->. destruct (step_li _ _ _); simpl; [|discriminate].
    intros H; injection H as _ <-. reflexivity. }
  destruct (str_eqb rt (u "LT")) eqn:E5.
  { apply str_eqb_true in E5 as ->. intros H. apply step_lt_no_assoc in H.
    destruct eff; [reflexivity|reflexivity|contradiction]. }
  destruct (str_eqb rt (u "AA")) eqn:E6.
  - intros H; injection H as _ <-. split; reflexivity.
  - intros H; injection H as _ <-. reflexivity.
Qed.

Lemma mca_loop_assoc (tiploc_map : gmap ustr ParsedStation) (toc_lookup : gmap ustr ustr)
    (lines : list ustr) : forall p o aw p' o' aw',
  mca_loop tiploc_map toc_lookup p o aw lines = Some (p', o', aw') ->
  aw' = aw ++ map assoc_of (filter is_aa_record lines).
Proof.
  induction lines as [|line rest IH]; intros p o aw p' o' aw' H; simpl in H.
  - injection H as _ _ <-. rewrite app_nil_r. reflexivity.
  - destruct (mca_step tiploc_map p line) as [[p1 eff]|] eqn:Es; simpl in H;
      [|discriminate].
    apply mca_step_assoc in Es. rewrite filter_cons.
    destruct eff as [|trip|a].
    + rewrite Es, decide_False by (intros X; exact X). exact (IH _ _ _ _ _ _ H).
    + rewrite Es, decide_False by (intros X; exact X).
      destruct (emit_trip _ _ _ _); simpl in H; [|discriminate].
      exact (IH _ _ _ _ _ _ H).
    + destruct Es as [Es ->]. rewrite Es, decide_True by exact I.
      rewrite (IH _ _ _ _ _ _ H). cbn [map]. rewrite <- app_assoc. reflexivity.
Qed.

(** Extra: a run appends one association row per "AA" record of the
    timetable files, in file order, whatever the trip state. *)
Theorem run_associations (tiploc_map : gmap ustr ParsedStation)
    (toc_lookup : gmap ustr ustr) (files : list (list ustr)) (o o' : Out)
    (aw aw' : list Association) :
  run_mca tiploc_map toc_lookup o aw files = Some (o', aw') ->
  aw' = aw ++ map assoc_of (filter is_aa_record (concat files)).
Proof.
  revert o aw. induction files as [|f fs IH]; intros o aw H; simpl in H.
  - injection H as _ <-. rewrite app_nil_r. reflexivity.
  - unfold parse_mca in H.
    destruct (mca_loop tiploc_map toc_lookup (None, 0) o aw f) as [[[p1 o1] a1]|] eqn:El;
      simpl in H; [|discriminate].
    apply mca_loop_assoc in El. rewrite (IH _ _ H), El. simpl.
    rewrite filter_app, map_app, app_assoc. reflexivity.
Qed.

(** ** Byte lengths *)

Lemma byte_len_app (s1 s2 : ustr) : byte_len (s1 ++ s2) = byte_len s1 + byte_len s2.
Proof. induction s1 as [|c s1 IH]; simpl; lia. Qed.

Lemma byte_len_rev (s : ustr) : byte_len (rev s) = byte_len s.
Proof. induction s as [|c s IH]; simpl; [done|]. rewrite byte_len_app. simpl. lia. Qed.

Lemma byte_len_trim_start (s : ustr) : byte_len (trim_start s) <= byte_len s.
Proof.
  induction s as [|c s IH]; simpl; [lia|].
  pose proof (utf8_len_pos c). destruct (is_whitespace c); simpl; lia.
Qed.

Lemma byte_len_trim (s : ustr) : byte_len (trim s) <= byte_len s.
Proof.
  unfold trim. rewrite byte_len_rev.
  pose proof (byte_len_trim_start (rev (trim_start s))).
  pose proof (byte_len_trim_start s). rewrite byte_len_rev in *. lia.
Qed.

Lemma take_bytes_byte_len (n : Z) (s r : ustr) :
  take_bytes n s = Some r -> byte_len r = n.
Proof.
  revert n r. induction s as [|c s IH]; intros n r H; simpl in H.
  - destruct (n =? 0) eqn:E; [|discriminate]. injection H as <-. apply Z.eqb_eq in E.
    simpl. lia.
  - destruct (n =? 0) eqn:E.
    + injection H as <-. apply Z.eqb_eq in E. simpl. lia.
    + destruct (utf8_len c <=? n); [|discriminate].
      destruct (take_bytes (n - utf8_len c) s) as [r'|] eqn:Et; [|discriminate].
      injection H as <-. apply IH in Et. simpl. lia.
Qed.

(** A field [line.get(a..b).unwrap_or("")] is at most [b - a] bytes long. *)
Lemma field_byte_len (s : ustr) (a b : Z) :
  a <= b -> byte_len (unwrap_or (str_get s a b) []) <= b - a.
Proof.
  intros Hab. unfold str_get.
  destruct ((0 <=? a) && (a <=? b)); [|simpl; lia].
  destruct (drop_bytes a s) as [r|]; [|simpl; lia].
  destruct (take_bytes (b - a) r) as [x|] eqn:E; simpl; [|lia].
  apply take_bytes_byte_len in E. lia.
Qed.

(** ** Maps filled line by line, the last line for a key winning *)

Lemma app_cons_snoc {A} (pre post l : list A) (y x : A) :
  pre ++ y :: post = l ++ [x] <->
  (post = [] /\ pre = l /\ y = x) \/
  (exists post', post = post' ++ [x] /\ pre ++ y :: post' = l).
Proof.
  split.
  - intros E. destruct post as [|p0 post0].
    + left. apply app_inj_tail in E as [-> ->]. done.
    + right. destruct (exists_last (l := p0 :: post0) ltac:(discriminate)) as (post' & z & Hz).
      rewrite Hz in E. rewrite app_comm_cons, app_assoc in E.
      apply app_inj_tail in E as [E ->]. exists post'. split; [exact Hz|exact E].
  - intros [(-> & -> & ->)|(post' & -> & <-)]; [done|].
    rewrite <- app_assoc. reflexivity.
Qed.

Section LastWins.
Context {K V A : Type} `{Countable K}.
Variable entry : A -> option (K * V).
Variable f : gmap K V -> A -> gmap K V.
Hypothesis f_entry :
  forall m x, f m x = match entry x with Some (k, v) => <[k := v]> m | None => m end.

Lemma foldl_last_wins (m : gmap K V) (xs : list A) (k : K) (v : V) :
  foldl f m xs !! k = Some v <->
  (m !! k = Some v /\ Forall (fun x => option_map fst (entry x) <> Some k) xs) \/
  (exists pre x post, xs = pre ++ x :: post /\ entry x = Some (k, v) /\
     Forall (fun y => option_map fst (entry y) <> Some k) post).
Proof.
  induction xs as [|x xs IH] using rev_ind.
  - simpl. split.
    + intros Hm. left. done.
    + intros [[Hm _]|(pre & x & post & E & _)]; [done|].
      exfalso. exact (app_cons_not_nil _ _ _ E).
  - rewrite foldl_app. simpl. rewrite f_entry.
    destruct (entry x) as [[k' v']|] eqn:Ex.
    + destruct (decide (k' = k)) as [->|Hne].
      * rewrite lookup_insert_eq. split.
        -- intros Hv. injection Hv as ->. right. exists xs, x, []. done.
        -- intros [[_ Hf]|(pre & y & post & E & Hy & Hf)].
           ++ apply Forall_app in Hf as [_ Hf]. inversion Hf as [|? ? Hx _].
              rewrite Ex in Hx. simpl in Hx. contradiction.
           ++ symmetry in E; apply app_cons_snoc in E as [(-> & -> & ->)|(post' & -> & _)].
              ** rewrite Ex in Hy. injection Hy as ->. reflexivity.
              ** apply Forall_app in Hf as [_ Hf]. inversion Hf as [|? ? Hx _].
                 rewrite Ex in Hx. simpl in Hx. contradiction.
      * rewrite lookup_insert_ne by done. rewrite IH.
        assert (Hx : option_map fst (entry x) <> Some k) by (rewrite Ex; simpl; congruence).
        rewrite Forall_app, Forall_singleton.
        split.
        -- intros [[Hm Hf]|(pre & y & post & E & Hy & Hf)]; [left; done|].
           right. exists pre, y, (post ++ [x]). rewrite E, <- app_assoc. split; [done|].
           split; [done|]. apply Forall_app. split; [done|]. by constructor.
        -- intros [[Hm [Hf _]]|(pre & y & post & E & Hy & Hf)]; [left; done|].
           symmetry in E; apply app_cons_snoc in E as [(-> & -> & ->)|(post' & -> & E)].
           ++ rewrite Ex in Hy. injection Hy as -> _. contradiction.
           ++ right. exists pre, y, post'. apply Forall_app in Hf as [Hf _]. done.
    + rewrite IH.
      assert (Hx : option_map fst (entry x) <> Some k) by (rewrite Ex; simpl; congruence).
      rewrite Forall_app, Forall_singleton.
      split.
      * intros [[Hm Hf]|(pre & y & post & E & Hy & Hf)]; [left; done|].
        right. exists pre, y, (post ++ [x]). rewrite E, <- app_assoc. split; [done|].
        split; [done|]. apply Forall_app. split; [done|]. by constructor.
      * intros [[Hm [Hf _]]|(pre & y & post & E & Hy & Hf)]; [left; done|].
        symmetry in E; apply app_cons_snoc in E as [(-> & -> & ->)|(post' & -> & E)].
        -- rewrite Ex in Hy. discriminate.
        -- right. exists pre, y, post'. apply Forall_app in Hf as [Hf _]. done.
Qed.

End LastWins.

(** ** Fares TOC files *)

Lemma fares_toc_line_entry (m : gmap ustr ustr) (line : ustr) :
  fares_toc_line m line =
  match fares_toc_entry line with Some (k, v) => <[k := v]> m | None => m end.
Proof.
  destruct line as [|c rest]; [reflexivity|]. unfold fares_toc_line, fares_toc_entry.
  destruct c as [|p|p]; try reflexivity;
    repeat (destruct p as [p|p|]; try reflexivity).
  all: destruct (decide _); reflexivity.
Qed.

Lemma fares_toc_entry_fields (line k v : ustr) :
  fares_toc_entry line = Some (k, v) ->
  k = trim (unwrap_or (str_get line 1 3) []) /\
  v = trim (unwrap_or (str_get line 3 33) []) /\ k <> [] /\ v <> [].
Proof.
  destruct line as [|c rest]; [discriminate|]. unfold fares_toc_entry.
  destruct c as [|p|p]; try discriminate;
    repeat (destruct p as [p|p|]; try discriminate).
  destruct (decide _) as [[Hk Hv]|]; [|discriminate].
  intros E. injection E as <- <-. done.
Qed.

(** Extra: [parse_fares_toc] only adds entries whose id and name are
    non-empty, the id at most 2 bytes and the name at most 30 bytes long. *)
Theorem parse_fares_toc_entries (map : gmap ustr ustr) (lines : list ustr) :
  (forall k v, map !! k = Some v ->
     k <> [] /\ v <> [] /\ byte_len k <= 2 /\ byte_len v <= 30) ->
  forall k v, parse_fares_toc map lines !! k = Some v ->
  k <> [] /\ v <> [] /\ byte_len k <= 2 /\ byte_len v <= 30.
Proof.
  intros Hm k v Hkv. unfold parse_fares_toc in Hkv.
  apply (foldl_last_wins fares_toc_entry fares_toc_line fares_toc_line_entry) in Hkv
    as [[Hk _]|(pre & l & post & _ & El & _)]; [exact (Hm _ _ Hk)|].
  apply fares_toc_entry_fields in El as (-> & -> & Hk & Hv).
  split; [done|]. split; [done|].
  pose proof (byte_len_trim (unwrap_or (str_get l 1 3) [])).
  pose proof (byte_len_trim (unwrap_or (str_get l 3 33) [])).
  pose proof (field_byte_len l 1 3 ltac:(lia)).
  pose proof (field_byte_len l 3 33 ltac:(lia)). lia.
Qed.

(** Extra: after [parse_fares_toc], an id maps to the name of the last
    line that sets it, or keeps its entry in the given map if no line
    sets it. *)
Theorem parse_fares_toc_last_wins (map : gmap ustr ustr) (lines : list ustr)
    (k v : ustr) :
  parse_fares_toc map lines !! k = Some v <->
  (map !! k = Some v /\
   Forall (fun l => option_map fst (fares_toc_entry l) <> Some k) lines) \/
  (exists pre l post, lines = pre ++ l :: post /\ fares_toc_entry l = Some (k, v) /\
     Forall (fun l' => option_map fst (fares_toc_entry l') <> Some k) post).
Proof. exact (foldl_last_wins fares_toc_entry fares_toc_line fares_toc_line_entry map lines k v). Qed.

(** ** OSM nodes *)

Lemma osm_crs_obj_entry (m : gmap ustr (float * float)) (obj : option OsmObj) :
  osm_crs_obj m obj =
  match (match obj with
         | Some (Node tags lat lon) => option_map (fun crs => (crs, (lat, lon))) (tags !! u "ref:crs")
         | _ => None
         end) with
  | Some (k, v) => <[k := v]> m
  | None => m
  end.
Proof.
  destruct obj as [[tags lat lon| |]|]; simpl; try reflexivity.
  destruct (tags !! u "ref:crs"); reflexivity.
Qed.

(** Extra: [parse_osm_crs] maps a CRS code to the coordinates of the last
    node tagged with it; every other object, and every read error, is
    skipped. *)
Theorem parse_osm_crs_last_node (objs : list (option OsmObj)) (crs : ustr)
    (lat lon : float) :
  parse_osm_crs objs !! crs = Some (lat, lon) <->
  exists pre tags post,
    objs = pre ++ Some (Node tags lat lon) :: post /\ tags !! u "ref:crs" = Some crs /\
    Forall (fun obj => node_crs obj <> Some crs) post.
Proof.
  unfold parse_osm_crs.
  rewrite (foldl_last_wins _ osm_crs_obj osm_crs_obj_entry ∅ objs crs (lat, lon)).
  assert (Hc : forall obj, option_map fst
     (match obj with
      | Some (Node tags lat lon) => option_map (fun crs => (crs, (lat, lon))) (tags !! u "ref:crs")
      | _ => None
      end) = node_crs obj).
  { intros [[tags la lo| |]|]; simpl; try reflexivity.
    destruct (tags !! u "ref:crs"); reflexivity. }
  split.
  - intros [[Hk _]|(pre & x & post & E & Hx & Hf)]; [rewrite lookup_empty in Hk; discriminate|].
    destruct x as [[tags la lo| |]|]; try discriminate.
    destruct (tags !! u "ref:crs") as [c|] eqn:Et; simpl in Hx; [|discriminate].
    injection Hx as -> -> ->. exists pre, tags, post. split; [done|]. split; [done|].
    eapply Forall_impl; [exact Hf|]. intros y Hy. rewrite <- Hc. exact Hy.
  - intros (pre & tags & post & E & Ht & Hf). right. exists pre, (Some (Node tags lat lon)), post.
    split; [done|]. split; [rewrite Ht; reflexivity|].
    eapply Forall_impl; [exact Hf|]. intros y Hy. rewrite Hc. exact Hy.
Qed.

(** ** Station files *)

Lemma msn_line_cases (parse_f64 : ustr -> option float)
    (convert_osgb36_to_ll : float -> float -> option (float * float))
    (osm_lookup : gmap ustr (float * float)) (m : gmap ustr ParsedStation) (line : ustr) :
  msn_line parse_f64 convert_osgb36_to_ll osm_lookup m line = m \/
  exists st, msn_line parse_f64 convert_osgb36_to_ll osm_lookup m line =
               <[ps_tiploc st := st]> m /\
             ps_tiploc st = trim (unwrap_or (str_get line 36 43) []) /\ ps_tiploc st <> [].
Proof.
  destruct line as [|c rest]; [left; reflexivity|]. unfold msn_line.
  destruct c as [|p|p]; try (left; reflexivity);
    repeat (destruct p as [p|p|]; try (left; reflexivity)).
  match goal with |- context [match ?X with (lat, lon) => _ end] => destruct X as [lat lon] end.
  destruct (decide _) as [He|Hne]; [left; reflexivity|].
  right. match goal with |- context [<[_ := ?v]> m] => exists v end. done.
Qed.

Lemma parse_msn_keyed (parse_f64 : ustr -> option float)
    (convert_osgb36_to_ll : float -> float -> option (float * float))
    (osm_lookup : gmap ustr (float * float)) (lines : list ustr) :
  forall m, stations_keyed m ->
  stations_keyed (parse_msn parse_f64 convert_osgb36_to_ll osm_lookup m lines).
Proof.
  induction lines as [|line rest IH]; intros m Hm; simpl; [exact Hm|].
  apply IH.
  destruct (msn_line_cases parse_f64 convert_osgb36_to_ll osm_lookup m line)
    as [->|(st & -> & Hid & Hne)]; [exact Hm|].
  intros k s Hk. destruct (decide (k = ps_tiploc st)) as [->|Hk'].
  - rewrite lookup_insert_eq in Hk. injection Hk as <-. split; [done|]. split; [done|].
    rewrite Hid. pose proof (byte_len_trim (unwrap_or (str_get line 36 43) [])).
    pose proof (field_byte_len line 36 43 ltac:(lia)). lia.
  - rewrite lookup_insert_ne in Hk by done. exact (Hm _ _ Hk).
Qed.

Lemma msn_files_keyed (parse_f64 : ustr -> option float)
    (convert_osgb36_to_ll : float -> float -> option (float * float))
    (osm_crs_map : gmap ustr (float * float)) (files : list (ustr * list ustr)) :
  stations_keyed (msn_files parse_f64 convert_osgb36_to_ll osm_crs_map files).
Proof.
  unfold msn_files.
  assert (H : forall m, stations_keyed m ->
    stations_keyed (foldl (fun tiploc_map file =>
           if ends_with file.1 (u ".MSN")
           then parse_msn parse_f64 convert_osgb36_to_ll osm_crs_map tiploc_map file.2
           else tiploc_map) m files)).
  { induction files as [|f fs IH]; intros m Hm; simpl; [exact Hm|].
    apply IH. destruct (ends_with f.1 (u ".MSN")); [|exact Hm].
    apply parse_msn_keyed, Hm. }
  apply H. intros k st Hk. rewrite lookup_empty in Hk. discriminate.
Qed.

(** Extra: [parse_msn] stores every station under its own TIPLOC, which
    is non-empty and at most 7 bytes long. *)
Theorem parse_msn_stations_keyed (parse_f64 : ustr -> option float)
    (convert_osgb36_to_ll : float -> float -> option (float * float))
    (osm_lookup : gmap ustr (float * float)) (map : gmap ustr ParsedStation)
    (lines : list ustr) :
  (forall k st, map !! k = Some st -> ps_tiploc st = k /\ k <> [] /\ byte_len k <= 7) ->
  forall k st, parse_msn parse_f64 convert_osgb36_to_ll osm_lookup map lines !! k = Some st ->
  ps_tiploc st = k /\ k <> [] /\ byte_len k <= 7.
Proof. intros Hm. exact (parse_msn_keyed _ _ _ lines map Hm). Qed.

Lemma stops_rows_in (m : gmap ustr ParsedStation) (r : Stop) :
  In r (stops_rows m) ->
  exists k st, m !! k = Some st /\ r = mkStop (ps_tiploc st) (ps_name st) (ps_lat st) (ps_lon st).
Proof.
  unfold stops_rows. rewrite map_map. intros Hr.
  apply in_map_iff in Hr as ([k st] & <- & Hin). exists k, st. split; [|done].
  apply (list_elem_of_In (map_to_list m)), elem_of_map_to_list in Hin. exact Hin.
Qed.

(** Extra: the stops rows [main] writes from the station files have
    distinct, non-empty stop ids of at most 7 bytes, each naming the
    station stored under it. *)
Theorem main_stops_rows (parse_f64 : ustr -> option float)
    (convert_osgb36_to_ll : float -> float -> option (float * float))
    (osm_crs_map : gmap ustr (float * float)) (files : list (ustr * list ustr)) :
  let tiploc_map := msn_files parse_f64 convert_osgb36_to_ll osm_crs_map files in
  NoDup (map stop_row_id (stops_rows tiploc_map)) /\
  forall r, In r (stops_rows tiploc_map) ->
    stop_row_id r <> [] /\ byte_len (stop_row_id r) <= 7 /\
    exists st, tiploc_map !! stop_row_id r = Some st /\ stop_name r = ps_name st.
Proof.
  intros tiploc_map. pose proof (msn_files_keyed parse_f64 convert_osgb36_to_ll osm_crs_map files)
    as Hk. fold tiploc_map in Hk.
  split.
  - unfold stops_rows. rewrite map_map. simpl.
    apply values_keyed_nodup. intros k v Hv. exact (proj1 (Hk _ _ Hv)).
  - intros r Hr. destruct (stops_rows_in _ _ Hr) as (k & st & Hst & ->).
    simpl. destruct (Hk _ _ Hst) as (-> & Hne & Hlen). split; [done|]. split; [done|].
    exists st. done.
Qed.

(** ** Stop rows refer to known stations *)

Lemma mca_step_stops_known (tiploc_map : gmap ustr ParsedStation) (p p' : pstate)
    (line : ustr) (eff : effect) :
  trip_stops_known tiploc_map p -> mca_step tiploc_map p line = Some (p', eff) ->
  trip_stops_known tiploc_map p' /\
  match eff with
  | Finalize t => Forall (fun s => is_Some (tiploc_map !! stop_id s)) (stops t)
  | _ => True
  end.
Proof.
  intros Hp. unfold mca_step.
  destruct (byte_len line <? 2); [intros H; injection H as <- <-; done|].
  destruct (str_get line 0 2) as [rt|]; simpl; [|discriminate].
  destruct (str_eqb rt (u "BS")).
  { intros H; injection H as <- <-. unfold step_bs, trip_stops_known.
    destruct (str_eqb _ _); simpl; done. }
  destruct (str_eqb rt (u "BX")).
  { intros H; injection H as <- <-. unfold step_bx, trip_stops_known in *.
    destruct p as [[trip|] s]; simpl in *; [|done].
    destruct (str_eqb _ _); simpl; done. }
  destruct (str_eqb rt (u "LO")).
  { destruct (step_lo tiploc_map line p) as [p1|] eqn:E; simpl; [|discriminate].
    intros H; injection H as <- <-. split; [|exact I].
    unfold step_lo, trip_stops_known in *. destruct p as [[trip|] s]; simpl in *;
      [|injection E as <-; done].
    destruct (format_time _) as [dep|]; simpl in E; [|discriminate].
    destruct (tiploc_map !! _) as [station|] eqn:Et; [|injection E as <-; done].
    destruct (u32_incr s); simpl in E; [|discriminate]. injection E as <-. simpl.
    apply Forall_app. split; [exact Hp|]. constructor; [simpl; rewrite Et; eauto|done]. }
  destruct (str_eqb rt (u "LI")).
  { destruct (step_li tiploc_map line p) as [p1|] eqn:E; simpl; [|discriminate].
    intros H; injection H as <- <-. split; [|exact I].
    unfold step_li, trip_stops_known in *. destruct p as [[trip|] s]; simpl in *;
      [|injection E as <-; done].
    destruct (format_time (unwrap_or (str_get line 10 15) (u "00000"))) as [arr|];
      simpl in E; [|discriminate].
    destruct (format_time (unwrap_or (str_get line 15 20) (u "00000"))) as [dep|];
      simpl in E; [|discriminate].
    destruct (_ && _); [injection E as <-; done|].
    destruct (decide _) as [Hs|]; [|injection E as <-; done].
    destruct (u32_incr s); simpl in E; [|discriminate]. injection E as <-. simpl.
    apply Forall_app. split; [exact Hp|]. constructor; [exact Hs|done]. }
  destruct (str_eqb rt (u "LT")).
  { intros E. unfold step_lt, trip_stops_known in *. destruct p as [[trip|] s]; simpl in *;
      [|injection E as <- <-; done].
    destruct (format_time _) as [arr|]; simpl in E; [|discriminate].
    destruct (tiploc_map !! _) as [station|] eqn:Et; [|injection E as <- <-; done].
    injection E as <- <-. simpl.
    assert (Hf : Forall (fun s => is_Some (tiploc_map !! stop_id s))
                   (stops trip ++ [mkStopTime PLACEHOLDER_TRIP_ID arr arr
                                    (trim (unwrap_or (str_get line 2 9) [])) s])).
    { apply Forall_app. split; [exact Hp|]. constructor; [simpl; rewrite Et; eauto|done]. }
    split; exact Hf. }
  destruct (str_eqb rt (u "AA")); intros H; injection H as <- <-; done.
Qed.

Lemma finalized_stops_known (tiploc_map : gmap ustr ParsedStation) (lines : list ustr) :
  forall p ts, trip_stops_known tiploc_map p -> finalized tiploc_map p lines = Some ts ->
  Forall (fun t => Forall (fun s => is_Some (tiploc_map !! stop_id s)) (stops t)) ts.
Proof.
  induction lines as [|line rest IH]; intros p ts Hp H; simpl in H.
  - injection H as <-. constructor.
  - destruct (mca_step tiploc_map p line) as [[p1 eff]|] eqn:Es; simpl in H;
      [|discriminate].
    destruct (mca_step_stops_known _ _ _ _ _ Hp Es) as [Hp1 Heff].
    destruct (finalized tiploc_map p1 rest) as [ts1|] eqn:Ef; simpl in H; [|discriminate].
    pose proof (IH _ _ Hp1 Ef) as Hts1.
    destruct eff; injection H as <-; [exact Hts1|constructor; done|exact Hts1].
Qed.

Lemma finalized_files_stops_known (tiploc_map : gmap ustr ParsedStation)
    (files : list (list ustr)) (ts : list TripState) :
  finalized_files tiploc_map files = Some ts ->
  Forall (fun t => Forall (fun s => is_Some (tiploc_map !! stop_id s)) (stops t)) ts.
Proof.
  revert ts. induction files as [|f fs IH]; intros ts H; simpl in H.
  - injection H as <-. constructor.
  - destruct (finalized tiploc_map (None, 0) f) as [ts1|] eqn:E1; simpl in H; [|discriminate].
    destruct (finalized_files tiploc_map fs) as [ts2|] eqn:E2; simpl in H; [|discriminate].
    injection H as <-. apply Forall_app. split; [|exact (IH _ eq_refl)].
    exact (finalized_stops_known _ _ _ _ (I : trip_stops_known tiploc_map (None, 0)) E1).
Qed.

Lemma emit_all_stops_known (tiploc_map : gmap ustr ParsedStation)
    (toc_lookup : gmap ustr ustr) (ts : list TripState) :
  Forall (fun t => Forall (fun s => is_Some (tiploc_map !! stop_id s)) (stops t)) ts ->
  forall o o', (forall s, In s (st_w o) -> is_Some (tiploc_map !! stop_id s)) ->
  emit_all tiploc_map toc_lookup o ts = Some o' ->
  forall s, In s (st_w o') -> is_Some (tiploc_map !! stop_id s).
Proof.
  induction 1 as [|t ts Ht Hts IH]; intros o o' Ho H; simpl in H.
  - injection H as <-. exact Ho.
  - destruct (emit_trip tiploc_map toc_lookup t o) as [o1|] eqn:E; simpl in H;
      [|discriminate].
    apply (IH o1 o'); [|exact H].
    emit_spec E. destruct HS as (_ & _ & _ & Hsup & Hwr).
    intros s Hs. destruct (trip_service_to_id o !! tss_of tiploc_map o t) eqn:Ek.
    + destruct (Hsup ltac:(eauto)) as (_ & _ & _ & Hst). rewrite Hst in Hs. auto.
    + destruct (Hwr eq_refl) as (_ & Hst & _). rewrite Hst in Hs.
      apply in_app_or in Hs as [Hs|Hs]; [auto|].
      apply in_map_iff in Hs as (s0 & <- & Hin). simpl.
      rewrite Forall_forall in Ht. apply Ht, list_elem_of_In, Hin.
Qed.

(** Extra: with the station map [main] reads from the station files,
    every stop_times row of a run has the stop id of a stops row. *)
Theorem main_stop_times_stops (parse_f64 : ustr -> option float)
    (convert_osgb36_to_ll : float -> float -> option (float * float))
    (osm_crs_map : gmap ustr (float * float)) (msn : list (ustr * list ustr))
    (toc_lookup : gmap ustr ustr) (files : list (list ustr)) (o : Out)
    (a : list Association) :
  let tiploc_map := msn_files parse_f64 convert_osgb36_to_ll osm_crs_map msn in
  run_mca tiploc_map toc_lookup init_out [] files = Some (o, a) ->
  forall s, In s (st_w o) -> exists r, In r (stops_rows tiploc_map) /\ stop_row_id r = stop_id s.
Proof.
  intros tiploc_map H s Hs.
  destruct (run_mca_emit _ _ _ _ _ _ _ H) as (ts & Hf & He).
  destruct (emit_all_stops_known _ _ _ (finalized_files_stops_known _ _ _ Hf) init_out o
              (fun s (Hs : In s []) => match Hs with end) He s Hs) as [st Hst].
  pose proof (msn_files_keyed parse_f64 convert_osgb36_to_ll osm_crs_map msn) as Hk.
  fold tiploc_map in Hk. destruct (Hk _ _ Hst) as (Hid & _).
  exists (mkStop (ps_tiploc st) (ps_name st) (ps_lat st) (ps_lon st)). split; [|exact Hid].
  unfold stops_rows. rewrite map_map. apply in_map_iff. exists (stop_id s, st).
  split; [reflexivity|]. apply (list_elem_of_In (map_to_list tiploc_map)), elem_of_map_to_list.
  exact Hst.
Qed.

(** ** [format_time] on ASCII input *)

Lemma utf8_len_ascii (c : Z) : c < 0x80 -> utf8_len c = 1.
Proof. intros Hc. unfold utf8_len. replace (c <? 0x80) with true by lia. reflexivity. Qed.

Lemma byte_len_ascii (s : ustr) :
  Forall (fun c => 0 <= c < 0x80) s -> byte_len s = Z.of_nat (length s).
Proof.
  induction 1 as [|c s Hc Hs IH]; simpl; [done|].
  rewrite utf8_len_ascii by lia. lia.
Qed.

Lemma filter_numeric_ascii (raw : ustr) :
  Forall (fun c => 0 <= c < 0x80) raw ->
  filter is_numeric raw = List.filter (fun c => (0x30 <=? c) && (c <=? 0x39)) raw.
Proof.
  induction 1 as [|c s Hc Hs IH]; [reflexivity|].
  rewrite (filter_cons (fun c => Is_true (is_numeric c)) c s). cbn [List.filter]. rewrite <- IH.
  assert (E : is_numeric c = (0x30 <=? c) && (c <=? 0x39)).
  { unfold is_numeric. replace (0x7F <? c) with false by lia.
    rewrite andb_false_l, orb_false_r. reflexivity. }
  rewrite E. destruct ((0x30 <=? c) && (c <=? 0x39)).
  - rewrite decide_True by exact I. reflexivity.
  - rewrite decide_False by (intros X; exact X). reflexivity.
Qed.

Lemma take_bytes_zero (s : ustr) : take_bytes 0 s = Some [].
Proof. destruct s; reflexivity. Qed.

(** Extra: on ASCII input [format_time] never fails: it gives HH:MM:00
    from the first four ASCII digits, or 00:00:00 when there are fewer than
    four. *)
Theorem format_time_ascii (raw : ustr) :
  Forall (fun c => 0 <= c < 0x80) raw ->
  format_time raw =
  Some (match List.filter (fun c => (0x30 <=? c) && (c <=? 0x39)) raw with
        | h1 :: h2 :: m1 :: m2 :: _ => [h1; h2] ++ u ":" ++ [m1; m2] ++ u ":00"
        | _ => u "00:00:00"
        end).
Proof.
  intros Hraw. unfold format_time. rewrite (filter_numeric_ascii raw Hraw).
  assert (Hc : Forall (fun c => 0 <= c < 0x80)
                 (List.filter (fun c => (0x30 <=? c) && (c <=? 0x39)) raw)).
  { apply Forall_forall. intros c Hin. apply list_elem_of_In, List.filter_In in Hin as [Hin _].
    rewrite Forall_forall in Hraw. apply Hraw, list_elem_of_In, Hin. }
  rewrite (byte_len_ascii _ Hc).
  destruct (List.filter _ raw) as [|h1 [|h2 [|m1 [|m2 rest]]]]; try reflexivity.
  apply Forall_cons in Hc as [Ha1 Hc]. apply Forall_cons in Hc as [Ha2 Hc].
  apply Forall_cons in Hc as [Ha3 Hc]. apply Forall_cons in Hc as [Ha4 _].
  assert (E4 : (4 <=? Z.of_nat (length (h1 :: h2 :: m1 :: m2 :: rest))) = true)
    by (apply Z.leb_le; simpl length; lia).
  rewrite E4.
  assert (U1 : utf8_len h1 = 1) by (apply utf8_len_ascii; lia).
  assert (U2 : utf8_len h2 = 1) by (apply utf8_len_ascii; lia).
  assert (U3 : utf8_len m1 = 1) by (apply utf8_len_ascii; lia).
  assert (U4 : utf8_len m2 = 1) by (apply utf8_len_ascii; lia).
  unfold str_get. do 3 (simpl; rewrite ?U1, ?U2, ?U3, ?U4).
  replace (4 - 2 - 1 - 1) with 0 by lia. replace (2 - 0 - 1 - 1) with 0 by lia.
  rewrite !take_bytes_zero. reflexivity.
Qed.

(** Extra: a line shorter than 33 bytes has no complete name field, so
    [parse_fares_toc] ignores it, even when it starts with 'T' and holds
    an id and a shorter name. *)
Theorem parse_fares_toc_short_line (map : gmap ustr ustr) (pre post : list ustr)
    (line : ustr) :
  byte_len line < 33 ->
  parse_fares_toc map (pre ++ line :: post) = parse_fares_toc map (pre ++ post).
Proof.
  intros Hl. unfold parse_fares_toc. rewrite !foldl_app. simpl. f_equal.
  rewrite fares_toc_line_entry.
  destruct (fares_toc_entry line) as [[k v]|] eqn:E; [|reflexivity].
  apply fares_toc_entry_fields in E as (_ & Hv & _ & Hne). exfalso.
  destruct (str_get line 3 33) as [x|] eqn:Eg.
  - apply str_get_len in Eg. lia.
  - rewrite Hv in Hne. apply Hne. reflexivity.
Qed.

(** Extra: a line shorter than 43 bytes has no complete TIPLOC field, so
    [parse_msn] ignores it, even when it starts with 'A'. *)
Theorem parse_msn_short_line (parse_f64 : ustr -> option float)
    (convert_osgb36_to_ll : float -> float -> option (float * float))
    (osm_lookup : gmap ustr (float * float)) (map : gmap ustr ParsedStation)
    (pre post : list ustr) (line : ustr) :
  byte_len line < 43 ->
  parse_msn parse_f64 convert_osgb36_to_ll osm_lookup map (pre ++ line :: post) =
  parse_msn parse_f64 convert_osgb36_to_ll osm_lookup map (pre ++ post).
Proof.
  intros Hl. unfold parse_msn. rewrite !foldl_app. simpl. f_equal.
  match goal with |- msn_line _ _ _ ?m _ = _ =>
    destruct (msn_line_cases parse_f64 convert_osgb36_to_ll osm_lookup m line)
      as [E|(st & E & Hid & Hne)]; [exact E|] end.
  exfalso. destruct (str_get line 36 43) as [x|] eqn:Eg.
  - apply str_get_len in Eg. lia.
  - rewrite Hid in Hne. apply Hne. reflexivity.
Qed.

(** ** Witnesses of the further properties *)

Lemma main_run_some :
  is_Some (run_mca (msn_files no_f64 no_osgb36 demo_osm main_msn) ∅ init_out [] [main_mca]).
Proof. apply (bool_decide_eq_true (is_Some _)). vm_refl. Qed.

Lemma run_trips_route_known_witness :
  exists o a, run_mca demo_stations ∅ init_out [] [uid_lines] = Some (o, a) /\
  forall tr, In tr (trips_w o) ->
  exists r, routes_map o !! trip_route_id tr = Some r /\ route_id r = trip_route_id tr.
Proof.
  destruct run_uid_lines_some as [[o a] E]. exists o, a. split; [exact E|].
  exact (run_trips_route_known demo_stations ∅ [uid_lines] o a E).
Defined.

Lemma run_routes_rows_witness :
  exists o a, run_mca demo_stations ∅ init_out [] [uid_lines] = Some (o, a) /\
  NoDup (map route_id (map snd (map_to_list (routes_map o)))) /\
  forall r, In r (map snd (map_to_list (routes_map o))) ->
    exists ag, ag ∈ agencies_set o /\ agency_id ag = route_agency_id r.
Proof.
  destruct run_uid_lines_some as [[o a] E]. exists o, a. split; [exact E|].
  exact (run_routes_rows demo_stations ∅ [uid_lines] o a E).
Defined.

Lemma run_trips_calendar_known_witness :
  exists o a, run_mca demo_stations ∅ init_out [] [uid_lines] = Some (o, a) /\
  forall tr, In tr (trips_w o) ->
  exists c, In c (cal_w o) /\ cal_service_id c = trip_service_id tr.
Proof.
  destruct run_uid_lines_some as [[o a] E]. exists o, a. split; [exact E|].
  exact (run_trips_calendar_known demo_stations ∅ [uid_lines] o a E).
Defined.

Lemma run_stop_times_trip_known_witness :
  exists o a, run_mca demo_stations ∅ init_out [] [uid_lines] = Some (o, a) /\
  forall st, In st (st_w o) ->
  exists tr, In tr (trips_w o) /\ trip_id tr = st_trip_id st.
Proof.
  destruct run_uid_lines_some as [[o a] E]. exists o, a. split; [exact E|].
  exact (run_stop_times_trip_known demo_stations ∅ [uid_lines] o a E).
Defined.

Lemma run_agencies_by_id_witness :
  exists o a, run_mca demo_stations ∅ init_out [] [uid_lines] = Some (o, a) /\
  (forall ag, ag ∈ agencies_set o ->
     agency_name ag = unwrap_or ((∅ : gmap ustr ustr) !! agency_id ag)
                        (u "National Rail (" ++ agency_id ag ++ u ")")) /\
  (forall ag1 ag2, ag1 ∈ agencies_set o -> ag2 ∈ agencies_set o ->
     agency_id ag1 = agency_id ag2 -> ag1 = ag2).
Proof.
  destruct run_uid_lines_some as [[o a] E]. exists o, a. split; [exact E|].
  exact (run_agencies_by_id demo_stations ∅ [uid_lines] o a E).
Defined.

Lemma run_calendar_ids_witness :
  exists o a, run_mca demo_stations ∅ init_out [] [uid_lines] = Some (o, a) /\
  Z.of_nat (size (calendar_signature_to_id o)) = service_counter o /\
  map cal_service_id (cal_w o) =
    map (fun k => u "SVC" ++ show_u32 (Z.of_nat k))
        (seq 0 (size (calendar_signature_to_id o))) /\
  NoDup (map cal_service_id (cal_w o)).
Proof.
  destruct run_uid_lines_some as [[o a] E]. exists o, a. split; [exact E|].
  exact (run_calendar_ids demo_stations ∅ [uid_lines] o a E).
Defined.

Lemma run_trip_rows_count_witness :
  exists o a, run_mca demo_stations ∅ init_out [] [uid_lines] = Some (o, a) /\
  length (trips_w o) = size (trip_service_to_id o).
Proof.
  destruct run_uid_lines_some as [[o a] E]. exists o, a. split; [exact E|].
  exact (run_trip_rows_count demo_stations ∅ [uid_lines] o a E).
Defined.

Lemma run_first_trip_decides_route_witness :
  exists o a t post, run_mca demo_stations ∅ init_out [] [uid_lines] = Some (o, a) /\
  finalized_files demo_stations [uid_lines] = Some ([] ++ t :: post) /\
  Forall (fun t' => route_id_of demo_stations t' <> route_id_of demo_stations t) [] /\
  routes_map o !! route_id_of demo_stations t = Some (route_for demo_stations t).
Proof.
  destruct run_uid_lines_some as [[o a] E]. destruct uid_lines_outcome as [Hf _].
  exists o, a, (hd empty_trip uid_trips), (tl uid_trips).
  assert (Hf' : finalized_files demo_stations [uid_lines] =
                Some ([] ++ hd empty_trip uid_trips :: tl uid_trips))
    by (rewrite Hf; reflexivity).
  split; [exact E|]. split; [exact Hf'|]. split; [constructor|].
  exact (run_first_trip_decides_route demo_stations ∅ [uid_lines] o a [] _ _ E Hf'
           (List.Forall_nil _)).
Defined.

Lemma assoc_run_some :
  is_Some (run_mca demo_stations ∅ init_out [] [assoc_lines]).
Proof. apply (bool_decide_eq_true (is_Some _)). vm_refl. Qed.

Lemma run_associations_witness :
  exists o a, run_mca demo_stations ∅ init_out [] [assoc_lines] = Some (o, a) /\
  a = [] ++ map assoc_of (filter is_aa_record (concat [assoc_lines])) /\
  length a = 2%nat.
Proof.
  destruct assoc_run_some as [[o a] E]. exists o, a. split; [exact E|].
  pose proof (run_associations demo_stations ∅ [assoc_lines] init_out o [] a E) as Ha.
  split; [exact Ha|]. rewrite Ha. vm_refl.
Defined.

Lemma parse_fares_toc_entries_witness :
  (forall k v, (∅ : gmap ustr ustr) !! k = Some v ->
     k <> [] /\ v <> [] /\ byte_len k <= 2 /\ byte_len v <= 30) /\
  forall k v, parse_fares_toc ∅ [toc_demo_line; toc_short_line] !! k = Some v ->
  k <> [] /\ v <> [] /\ byte_len k <= 2 /\ byte_len v <= 30.
Proof.
  assert (H : forall k v, (∅ : gmap ustr ustr) !! k = Some v ->
                k <> [] /\ v <> [] /\ byte_len k <= 2 /\ byte_len v <= 30)
    by (intros k v Hk; rewrite lookup_empty in Hk; discriminate).
  split; [exact H|]. exact (parse_fares_toc_entries ∅ [toc_demo_line; toc_short_line] H).
Defined.

Lemma parse_fares_toc_short_line_witness :
  byte_len toc_short_line < 33 /\
  parse_fares_toc ∅ ([toc_demo_line] ++ toc_short_line :: []) =
  parse_fares_toc ∅ ([toc_demo_line] ++ []).
Proof.
  assert (H : byte_len toc_short_line < 33) by (vm_compute; reflexivity).
  split; [exact H|]. exact (parse_fares_toc_short_line ∅ [toc_demo_line] [] toc_short_line H).
Defined.

Lemma parse_msn_stations_keyed_witness :
  (forall k st, (∅ : gmap ustr ParsedStation) !! k = Some st ->
     ps_tiploc st = k /\ k <> [] /\ byte_len k <= 7) /\
  forall k st, parse_msn no_f64 no_osgb36 demo_osm ∅ [msn_demo_line; msn_short_line] !! k = Some st ->
  ps_tiploc st = k /\ k <> [] /\ byte_len k <= 7.
Proof.
  assert (H : forall k st, (∅ : gmap ustr ParsedStation) !! k = Some st ->
                ps_tiploc st = k /\ k <> [] /\ byte_len k <= 7)
    by (intros k st Hk; rewrite lookup_empty in Hk; discriminate).
  split; [exact H|].
  exact (parse_msn_stations_keyed no_f64 no_osgb36 demo_osm ∅
           [msn_demo_line; msn_short_line] H).
Defined.

Lemma parse_msn_short_line_witness :
  byte_len msn_short_line < 43 /\
  parse_msn no_f64 no_osgb36 demo_osm ∅ ([msn_demo_line] ++ msn_short_line :: []) =
  parse_msn no_f64 no_osgb36 demo_osm ∅ ([msn_demo_line] ++ []).
Proof.
  assert (H : byte_len msn_short_line < 43) by (vm_compute; reflexivity).
  split; [exact H|].
  exact (parse_msn_short_line no_f64 no_osgb36 demo_osm ∅ [msn_demo_line] [] msn_short_line H).
Defined.

Lemma main_stop_times_stops_witness :
  exists o a,
  run_mca (msn_files no_f64 no_osgb36 demo_osm main_msn) ∅ init_out [] [main_mca] =
    Some (o, a) /\
  forall s, In s (st_w o) ->
  exists r, In r (stops_rows (msn_files no_f64 no_osgb36 demo_osm main_msn)) /\
            stop_row_id r = stop_id s.
Proof.
  destruct main_run_some as [[o a] E]. exists o, a. split; [exact E|].
  exact (main_stop_times_stops no_f64 no_osgb36 demo_osm main_msn ∅ [main_mca] o a E).
Defined.

Lemma format_time_ascii_witness :
  Forall (fun c => 0 <= c < 0x80) (u "0930") /\
  format_time (u "0930") =
  Some (match List.filter (fun c => (0x30 <=? c) && (c <=? 0x39)) (u "0930") with
        | h1 :: h2 :: m1 :: m2 :: _ => [h1; h2] ++ u ":" ++ [m1; m2] ++ u ":00"
        | _ => u "00:00:00"
        end).
Proof.
  assert (H : Forall (fun c => 0 <= c < 0x80) (u "0930"))
    by (unfold u; simpl; repeat constructor; lia).
  split; [exact H|]. exact (format_time_ascii (u "0930") H).
Defined.
